(** * Smart-Campus study assistant: the share-code feature and the quiz widget

    A shallow embedding of the client code of the repository
    (`src/pages/Workspace.js`, `src/utils/storage.js`, `src/api/api.js`,
    `src/context/AuthContext.js`, `src/App.js`) and of the share-code
    service the specification describes.

    Conventions of the embedding.
    - A JavaScript string is a [string], a sequence of characters with
      codes below 256, read as ASCII text: `toUpperCase` maps `a`..`z` to
      `A`..`Z` and leaves every other character as it is, and `trim`
      removes the white-space characters among them.  Text with characters
      whose Unicode upper case is made of ASCII letters (the sharp s, the
      ligatures) is outside the model.
    - A JavaScript number that counts is a [Z]; where the source divides
      and multiplies in doubles the exact result is taken in [Q] and passed
      through an explicit rounding function.
    - `null`/`undefined` is [None]; a missing field of an object is [None].
    - A handler that awaits the backend takes the backend's reply as an
      argument and returns the new component state together with the list
      of effects it performed (alerts and requests), in order.
    - React state is threaded explicitly.  In [Workspace], [AuthContext]
      and [App] a handler runs to its end on the state of the latest
      render; [AppAsync] has [fetchDocuments] in its two halves, with the
      events that can arrive between them.
    - [Storage] is `localStorage` with every access succeeding; [Browser]
      is `localStorage` with accesses that can throw, and [AuthProvider]
      is the session provider on it.
    - [QuizItem] is the component under one `q`; [MountedItem] is one
      mount of it, through the renders in which the parent passes another
      `q`. *)

From Stdlib Require Import ZArith QArith Qround Lia Bool Ascii String.
From stdpp Require Import base strings list gmap.

Local Open Scope string_scope.

(* ===================================================================== *)
(** ** JavaScript string primitives used by the client                    *)
(* ===================================================================== *)

Module Js.

(** Truthiness of a string: only the empty string is falsy. *)
Definition truthy (s : string) : bool :=
  match s with EmptyString => false | String _ _ => true end.

(** Truthiness of a possibly absent string (`null`, `undefined`, `""`
    are falsy). *)
Definition truthy_opt (o : option string) : bool :=
  match o with Some s => truthy s | None => false end.

(** `a || b` on strings. *)
Definition or_else (a b : string) : string := if truthy a then a else b.

(** `a || b` where `a` may be absent. *)
Definition opt_or_else (a : option string) (b : string) : string :=
  match a with Some s => or_else s b | None => b end.

(** White space removed by `String.prototype.trim`, among the
    characters below 256: TAB, LF, VT, FF, CR, SPACE and NBSP. *)
Definition isWhiteSpace (c : ascii) : bool :=
  let n := nat_of_ascii c in
  (((9 <=? n) && (n <=? 13)) || (n =? 32) || (n =? 160))%nat.

Fixpoint trimStart (s : string) : string :=
  match s with
  | EmptyString => EmptyString
  | String c r => if isWhiteSpace c then trimStart r else s
  end.

Fixpoint trimEnd (s : string) : string :=
  match s with
  | EmptyString => EmptyString
  | String c r =>
      match trimEnd r with
      | EmptyString => if isWhiteSpace c then EmptyString else String c EmptyString
      | r' => String c r'
      end
  end.

Definition trim (s : string) : string := trimEnd (trimStart s).

Definition isLower (c : ascii) : bool :=
  let n := nat_of_ascii c in ((97 <=? n) && (n <=? 122))%nat.

(** The character class `[A-Z]`. *)
Definition isAZ (c : ascii) : bool :=
  let n := nat_of_ascii c in ((65 <=? n) && (n <=? 90))%nat.

(** The character class `[0-9]`. *)
Definition isDigit (c : ascii) : bool :=
  let n := nat_of_ascii c in ((48 <=? n) && (n <=? 57))%nat.

(** `toUpperCase` on ASCII text: `a`..`z` go to `A`..`Z`.  On a string
    with a character above 127 it is not JavaScript's function (which
    maps code 223 to the two letters "SS"). *)
Definition toUpperCaseChar (c : ascii) : ascii :=
  if isLower c then ascii_of_nat (nat_of_ascii c - 32) else c.

Fixpoint toUpperCase (s : string) : string :=
  match s with
  | EmptyString => EmptyString
  | String c r => String (toUpperCaseChar c) (toUpperCase r)
  end.

(** `s.replace(/[^CLASS]/g, "")`: every character outside the class is
    replaced by the empty string. *)
Fixpoint replace_outside (class : ascii -> bool) (s : string) : string :=
  match s with
  | EmptyString => EmptyString
  | String c r =>
      if class c then String c (replace_outside class r)
      else replace_outside class r
  end.

(** `s.charAt(i)`: the one-character string at index [i], or `""` when
    [i] is out of range. *)
Fixpoint charAt (s : string) (i : nat) : string :=
  match s, i with
  | EmptyString, _ => EmptyString
  | String c _, O => String c EmptyString
  | String _ r, S j => charAt r j
  end.

(** `String.fromCharCode(n)` for one code below 256. *)
Definition fromCharCode (n : nat) : string :=
  String (ascii_of_nat n) EmptyString.

(** `s.length`. *)
Definition length (s : string) : nat := String.length s.

End Js.

(* ===================================================================== *)
(** ** Workspace.js: the answer-normalization helper                      *)
(* ===================================================================== *)

(** [function normalizeLetter(str)]:
    [String(str || "").trim().toUpperCase().replace(/[^A-Z]/g, "").charAt(0)] *)
Definition normalizeLetter (str : string) : string :=
  Js.charAt
    (Js.replace_outside Js.isAZ
       (Js.toUpperCase (Js.trim (Js.or_else str ""))))
    0.

(* ===================================================================== *)
(** ** Workspace.js: the QuizItem component                               *)
(* ===================================================================== *)

(** A question object of a quiz, as the widget reads it. *)
Record QuizQuestion := {
  q_question    : string;
  q_options     : list string;
  q_answer      : string;
  q_explanation : option string
}.

Module QuizItem.

(** The component's own state: `const [selected, setSelected] =
    useState(null)`, together with the calls made to the `onAnswered`
    prop so far (oldest first). *)
Record state := {
  selected : option string;
  answered_calls : list bool
}.

Definition init : state := {| selected := None; answered_calls := [] |}.

(** [const isCorrect = (opt) => normalizeLetter(opt) === normalizeLetter(q.answer)] *)
Definition isCorrect (q : QuizQuestion) (opt : string) : bool :=
  bool_decide (normalizeLetter opt = normalizeLetter (q_answer q)).

(** [const optionLabel = (i) => String.fromCharCode(65 + i)] *)
Definition optionLabel (i : nat) : string := Js.fromCharCode (65 + i).

(** [handleClick(opt)]: [if (selected) return; setSelected(opt);
    const correct = isCorrect(opt); onAnswered(correct)].
    The component is always mounted with a function for `onAnswered`. *)
Definition handleClick (q : QuizQuestion) (st : state) (opt : string) : state :=
  if Js.truthy_opt (selected st) then st
  else {| selected := Some opt;
          answered_calls := (answered_calls st ++ [isCorrect q opt])%list |}.

(** A sequence of clicks on option buttons within one mount of the item
    and under one `q`, each handled on the state left by the previous
    one. *)
Definition clicks (q : QuizQuestion) (st : state) (opts : list string) : state :=
  fold_left (handleClick q) opts st.

(** The options the widget marks as correct once an answer is locked
    (`getOptionStyle` paints them green): their indices. *)
Fixpoint correct_indices_from (q : QuizQuestion) (i : nat) (opts : list string)
  : list nat :=
  match opts with
  | [] => []
  | o :: r =>
      if isCorrect q o then i :: correct_indices_from q (S i) r
      else correct_indices_from q (S i) r
  end.

Definition correct_indices (q : QuizQuestion) : list nat :=
  correct_indices_from q 0 (q_options q).

End QuizItem.

(* ===================================================================== *)
(** ** api.js: what the client sends and what it gets back                *)
(* ===================================================================== *)

(** The `content` object of a share entry, as the client writes and reads
    it: an object with some of these fields. *)
Record ShareContent := {
  c_question  : option string;
  c_answer    : option string;
  c_focus     : option string;
  c_summary   : option string;
  c_mark_type : option string;
  c_quiz      : option (list QuizQuestion)
}.

Definition no_content : ShareContent :=
  {| c_question := None; c_answer := None; c_focus := None;
     c_summary := None; c_mark_type := None; c_quiz := None |}.

Module Api.

(** The JSON object a route answers with; [None] is a field that is
    missing (or, for `quiz`, not an array). *)
Record data := {
  status    : option string;
  detail    : option string;
  message   : option string;
  answer    : option string;
  summary   : option string;
  mark_type : option string;
  quiz      : option (list QuizQuestion);
  code      : option string;
  type      : option string;
  content   : option ShareContent
}.

(** [request] either throws an [Error] (no connection, or a status that
    is not 2xx) or returns the parsed body. *)
Inductive reply :=
| Threw (msg : string)
| Returned (d : data).

(** What the component does to the outside, in order. *)
Inductive effect :=
| Alert (msg : string)
| ConsoleError
| PostAsk (doc_id question : string)
| PostSummarize (doc_id : string) (focus : option string) (mark_type : string)
| PostQuiz (doc_id : string)
| ShareCreate (type : string) (content : ShareContent)   (* api.shareCreate *)
| ShareGet (code : string).                              (* api.shareGet *)

(** [data.detail || data.message || fallback] *)
Definition error_text (d : data) (fallback : string) : string :=
  Js.opt_or_else (detail d) (Js.opt_or_else (message d) fallback).

Definition status_ok (d : data) : bool :=
  match status d with Some s => String.eqb s "ok" | None => false end.

End Api.

(* ===================================================================== *)
(** ** Workspace.js: the Workspace component                              *)
(* ===================================================================== *)

Module Workspace.
Import Api.

(** `quizStats`: two counters. *)
Record QuizStats := { answered : Z; correct : Z }.

(** The `useState` cells of the component, grouped as the source groups
    them, and the `selectedDocId` prop of the current render.  The
    `...Loading` flags are true only while a request is pending and are
    left out, as are `quizCount` and the props used for display only. *)
Record state := {
  selectedDocId       : option string;
  activeTab           : string;
  (* ASK AI STATE *)
  question            : string;
  answer              : option string;
  (* SUMMARY STATE *)
  summaryFocus        : string;
  summary             : option string;
  markType            : string;
  summaryMarkTypeUsed : option string;
  (* QUIZ STATE *)
  quiz                : list QuizQuestion;
  quizStats           : QuizStats;
  (* SHARE CREATE STATE *)
  shareCreatedCode    : string;
  shareCreatedType    : string;
  shareCreateError    : string;
  (* SHARE LOAD STATE *)
  shareCodeInput      : string;
  shareCodeError      : string;
  loadedShareInfo     : option (string * string)
}.

Definition zero_stats : QuizStats := {| answered := 0; correct := 0 |}.

(** The first render, for a given document selection. *)
Definition init (doc : option string) : state :=
  {| selectedDocId := doc; activeTab := "qa";
     question := ""; answer := Some "";
     summaryFocus := ""; summary := Some ""; markType := "2";
     summaryMarkTypeUsed := None;
     quiz := []; quizStats := zero_stats;
     shareCreatedCode := ""; shareCreatedType := ""; shareCreateError := "";
     shareCodeInput := ""; shareCodeError := ""; loadedShareInfo := None |}.

(** *** Setters: one per group of cells a handler writes together *)

Definition set_doc (d : option string) (w : state) : state :=
  {| selectedDocId := d; activeTab := activeTab w;
     question := question w; answer := answer w;
     summaryFocus := summaryFocus w; summary := summary w;
     markType := markType w; summaryMarkTypeUsed := summaryMarkTypeUsed w;
     quiz := quiz w; quizStats := quizStats w;
     shareCreatedCode := shareCreatedCode w;
     shareCreatedType := shareCreatedType w;
     shareCreateError := shareCreateError w;
     shareCodeInput := shareCodeInput w; shareCodeError := shareCodeError w;
     loadedShareInfo := loadedShareInfo w |}.

Definition set_tab (t : string) (w : state) : state :=
  {| selectedDocId := selectedDocId w; activeTab := t;
     question := question w; answer := answer w;
     summaryFocus := summaryFocus w; summary := summary w;
     markType := markType w; summaryMarkTypeUsed := summaryMarkTypeUsed w;
     quiz := quiz w; quizStats := quizStats w;
     shareCreatedCode := shareCreatedCode w;
     shareCreatedType := shareCreatedType w;
     shareCreateError := shareCreateError w;
     shareCodeInput := shareCodeInput w; shareCodeError := shareCodeError w;
     loadedShareInfo := loadedShareInfo w |}.

Definition set_ask (q : string) (a : option string) (w : state) : state :=
  {| selectedDocId := selectedDocId w; activeTab := activeTab w;
     question := q; answer := a;
     summaryFocus := summaryFocus w; summary := summary w;
     markType := markType w; summaryMarkTypeUsed := summaryMarkTypeUsed w;
     quiz := quiz w; quizStats := quizStats w;
     shareCreatedCode := shareCreatedCode w;
     shareCreatedType := shareCreatedType w;
     shareCreateError := shareCreateError w;
     shareCodeInput := shareCodeInput w; shareCodeError := shareCodeError w;
     loadedShareInfo := loadedShareInfo w |}.

Definition set_summary (f : string) (s : option string) (m : string)
    (used : option string) (w : state) : state :=
  {| selectedDocId := selectedDocId w; activeTab := activeTab w;
     question := question w; answer := answer w;
     summaryFocus := f; summary := s;
     markType := m; summaryMarkTypeUsed := used;
     quiz := quiz w; quizStats := quizStats w;
     shareCreatedCode := shareCreatedCode w;
     shareCreatedType := shareCreatedType w;
     shareCreateError := shareCreateError w;
     shareCodeInput := shareCodeInput w; shareCodeError := shareCodeError w;
     loadedShareInfo := loadedShareInfo w |}.

Definition set_quiz (l : list QuizQuestion) (s : QuizStats) (w : state) : state :=
  {| selectedDocId := selectedDocId w; activeTab := activeTab w;
     question := question w; answer := answer w;
     summaryFocus := summaryFocus w; summary := summary w;
     markType := markType w; summaryMarkTypeUsed := summaryMarkTypeUsed w;
     quiz := l; quizStats := s;
     shareCreatedCode := shareCreatedCode w;
     shareCreatedType := shareCreatedType w;
     shareCreateError := shareCreateError w;
     shareCodeInput := shareCodeInput w; shareCodeError := shareCodeError w;
     loadedShareInfo := loadedShareInfo w |}.

Definition set_share_create (c t e : string) (w : state) : state :=
  {| selectedDocId := selectedDocId w; activeTab := activeTab w;
     question := question w; answer := answer w;
     summaryFocus := summaryFocus w; summary := summary w;
     markType := markType w; summaryMarkTypeUsed := summaryMarkTypeUsed w;
     quiz := quiz w; quizStats := quizStats w;
     shareCreatedCode := c; shareCreatedType := t; shareCreateError := e;
     shareCodeInput := shareCodeInput w; shareCodeError := shareCodeError w;
     loadedShareInfo := loadedShareInfo w |}.

Definition set_share_load (i e : string) (info : option (string * string))
    (w : state) : state :=
  {| selectedDocId := selectedDocId w; activeTab := activeTab w;
     question := question w; answer := answer w;
     summaryFocus := summaryFocus w; summary := summary w;
     markType := markType w; summaryMarkTypeUsed := summaryMarkTypeUsed w;
     quiz := quiz w; quizStats := quizStats w;
     shareCreatedCode := shareCreatedCode w;
     shareCreatedType := shareCreatedType w;
     shareCreateError := shareCreateError w;
     shareCodeInput := i; shareCodeError := e; loadedShareInfo := info |}.

(** [setShareCreatedCode(""); setShareCreatedType(""); setShareCreateError("")] *)
Definition clear_share_create : state -> state := set_share_create "" "" "".

(** *** Derived value shown in the quiz header *)

(** [Math.round(x)]: the nearest integer, a tie going up. *)
Definition Math_round (x : Q) : Z := Qfloor (x + (1 # 2))%Q.

(** [quizStats.answered > 0
      ? Math.round((quizStats.correct / quizStats.answered) * 100) : 0].
    The counters are integers; [rnd] is the rounding of an exact
    quotient or product to a double. *)
Definition quizAccuracy (rnd : Q -> Q) (s : QuizStats) : Z :=
  if (0 <? answered s)%Z then
    Math_round (rnd (rnd (inject_Z (correct s) / inject_Z (answered s)) * 100)%Q)
  else 0%Z.

(** *** Handlers *)

Definition doc_selected (w : state) : bool := Js.truthy_opt (selectedDocId w).

Definition doc_id (w : state) : string := default "" (selectedDocId w).

(** [handleAsk] *)
Definition handleAsk (w : state) (r : reply) : state * list effect :=
  if negb (doc_selected w) then
    (w, [Alert "Please select a document first."])
  else if negb (Js.truthy (Js.trim (question w))) then
    (w, [Alert "Please enter a question."])
  else
    let w1 := clear_share_create (set_ask (question w) (Some "") w) in
    let req := PostAsk (doc_id w) (question w) in
    match r with
    | Returned d =>
        if status_ok d then (set_ask (question w) (Api.answer d) w1, [req])
        else (set_ask (question w)
                (Some ("Error: " ++ error_text d "Something went wrong")) w1,
              [req])
    | Threw _ =>
        (set_ask (question w) (Some "Error: Could not reach backend.") w1,
         [req; ConsoleError])
    end.

(** [handleSummarize] *)
Definition handleSummarize (w : state) (r : reply) : state * list effect :=
  if negb (doc_selected w) then
    (w, [Alert "Please select a document first."])
  else
    let w1 :=
      clear_share_create
        (set_summary (summaryFocus w) (Some "") (markType w) None w) in
    let focus := if Js.truthy (summaryFocus w) then Some (summaryFocus w) else None in
    let req := PostSummarize (doc_id w) focus (markType w) in
    match r with
    | Returned d =>
        if status_ok d then
          (set_summary (summaryFocus w) (Api.summary d) (markType w)
             (Some (Js.opt_or_else (mark_type d) (markType w))) w1,
           [req])
        else
          (set_summary (summaryFocus w)
             (Some ("Error: " ++ error_text d "Something went wrong"))
             (markType w) None w1,
           [req])
    | Threw _ =>
        (set_summary (summaryFocus w) (Some "Error: Could not reach backend.")
           (markType w) None w1,
         [req; ConsoleError])
    end.

(** [handleQuiz] *)
Definition handleQuiz (w : state) (r : reply) : state * list effect :=
  if negb (doc_selected w) then
    (w, [Alert "Please select a document first."])
  else
    let w1 := clear_share_create (set_quiz [] zero_stats w) in
    let req := PostQuiz (doc_id w) in
    match r with
    | Returned d =>
        match status_ok d, Api.quiz d with
        | true, Some l => (set_quiz l zero_stats w1, [req])
        | _, _ =>
            (w1, [req; Alert ("Quiz error: " ++ error_text d "Something went wrong")])
        end
    | Threw _ =>
        (w1, [req; ConsoleError; Alert "Quiz error: Could not reach backend."])
    end.

(** [handleQuizAnswered]: the functional update of `quizStats`. *)
Definition handleQuizAnswered (isCorrect : bool) (w : state) : state :=
  let prev := quizStats w in
  set_quiz (quiz w)
    {| answered := answered prev + 1;
       correct := correct prev + (if isCorrect then 1 else 0) |} w.

(** [handleResetQuiz] *)
Definition handleResetQuiz (w : state) : state :=
  clear_share_create (set_quiz [] zero_stats w).

(** The message of the [TypeError] of calling `.trim()` on `undefined`. *)
Definition trim_of_undefined : string :=
  "Cannot read properties of undefined (reading 'trim')".

(** The tail of [handleCreateShareCode]: the request and what is done
    with its outcome. *)
Definition shareCreate_send (ty : string) (c : ShareContent) (w0 : state)
    (r : reply) : state * list effect :=
  match r with
  | Returned d =>
      if status_ok d && Js.truthy_opt (code d) then
        (set_share_create (default "" (code d)) ty "" w0, [ShareCreate ty c])
      else
        (set_share_create "" "" (error_text d "Failed to create share code.") w0,
         [ShareCreate ty c])
  | Threw msg =>
      (set_share_create "" "" (Js.or_else msg "Failed to create share code.") w0,
       [ShareCreate ty c; ConsoleError])
  end.

(** What the `catch` of [handleCreateShareCode] does with a [TypeError]
    raised before the request. *)
Definition shareCreate_typeError (w0 : state) : state * list effect :=
  (set_share_create "" ""
     (Js.or_else trim_of_undefined "Failed to create share code.") w0,
   [ConsoleError]).

(** [handleCreateShareCode(type)] *)
Definition handleCreateShareCode (ty : string) (w : state) (r : reply)
  : state * list effect :=
  let w0 := clear_share_create w in
  if String.eqb ty "ask" then
    match answer w with
    | None => shareCreate_typeError w0
    | Some a =>
        if negb (Js.truthy (Js.trim a)) then
          (w0, [Alert "No answer to share yet. Ask a question first."])
        else
          shareCreate_send ty
            {| c_question := Some (Js.or_else (question w) "");
               c_answer := Some (Js.or_else a "");
               c_focus := None; c_summary := None; c_mark_type := None;
               c_quiz := None |} w0 r
    end
  else if String.eqb ty "summary" then
    match summary w with
    | None => shareCreate_typeError w0
    | Some s =>
        if negb (Js.truthy (Js.trim s)) then
          (w0, [Alert "No summary to share yet. Generate a summary first."])
        else
          shareCreate_send ty
            {| c_question := None; c_answer := None;
               c_focus := Some (Js.or_else (summaryFocus w) "");
               c_summary := Some (Js.or_else s "");
               c_mark_type :=
                 Some (Js.opt_or_else (summaryMarkTypeUsed w) (markType w));
               c_quiz := None |} w0 r
    end
  else if String.eqb ty "quiz" then
    if (List.length (quiz w) =? 0)%nat then
      (w0, [Alert "No quiz to share yet. Generate a quiz first."])
    else
      shareCreate_send ty
        {| c_question := None; c_answer := None; c_focus := None;
           c_summary := None; c_mark_type := None;
           c_quiz := Some (quiz w) |} w0 r
  else (w0, [Alert "Invalid share type."]).

(** The `onChange` of the code field:
    [setShareCodeInput(e.target.value.replace(/[^0-9]/g, ""))] *)
Definition onShareCodeChange (value : string) (w : state) : state :=
  set_share_load (Js.replace_outside Js.isDigit value)
    (shareCodeError w) (loadedShareInfo w) w.

(** [handleLoadShareCode] *)
Definition handleLoadShareCode (w : state) (r : reply) : state * list effect :=
  let code := Js.trim (Js.or_else (shareCodeInput w) "") in
  if negb (Js.truthy code) then
    (w, [Alert "Please enter a 6-digit code."])
  else if negb (Js.length code =? 6)%nat then
    (w, [Alert "Code must be 6 digits."])
  else
    let w1 := set_share_load (shareCodeInput w) "" None w in
    let req := ShareGet code in
    let failed msg := set_share_load (shareCodeInput w) msg None in
    match r with
    | Threw msg =>
        (failed (Js.or_else msg "Failed to load content by code.") w1,
         [req; ConsoleError])
    | Returned d =>
        if negb (status_ok d) then
          (failed (error_text d "Could not load shared content.") w1, [req])
        else
          match Api.type d, Api.content d with
          | Some ty, Some c =>
              if negb (Js.truthy ty) then
                (failed "Invalid shared content format." w1, [req])
              else
                let w2 := clear_share_create w1 in
                let loaded := set_share_load (shareCodeInput w) "" (Some (code, ty)) in
                if String.eqb ty "ask" then
                  (loaded
                     (set_ask (Js.opt_or_else (c_question c) "")
                        (Some (Js.opt_or_else (c_answer c) ""))
                        (set_tab "qa" w2)),
                   [req])
                else if String.eqb ty "summary" then
                  let m := Js.opt_or_else (c_mark_type c) "2" in
                  (loaded
                     (set_summary (Js.opt_or_else (c_focus c) "")
                        (Some (Js.opt_or_else (c_summary c) ""))
                        m (Some m) (set_tab "summary" w2)),
                   [req])
                else if String.eqb ty "quiz" then
                  (loaded
                     (set_quiz (default [] (c_quiz c)) zero_stats
                        (set_tab "quiz" w2)),
                   [req])
                else
                  (failed ("Unknown content type: " ++ ty) w2, [req])
          | _, _ => (failed "Invalid shared content format." w1, [req])
          end
    end.

(** *** The component as a transition system *)

(** The three buttons of the mark-type selector. *)
Inductive mark := Mark2 | Mark5 | Mark15.

Definition mark_literal (m : mark) : string :=
  match m with Mark2 => "2" | Mark5 => "5" | Mark15 => "15" end.

(** What can happen to a mounted Workspace: a user action, with the
    backend's reply when the action awaits one, or a new document
    selection passed down by the parent. *)
Inductive event :=
| SelectDoc (d : option string)
| SetActiveTab (t : string)
| TypeQuestion (s : string)              (* setQuestion(e.target.value) *)
| TypeFocus (s : string)                 (* setSummaryFocus(...) *)
| ClickMark (m : mark)                   (* setMarkType(m) *)
| TypeCode (value : string)
| Ask (r : reply)
| Summarize (r : reply)
| GenerateQuiz (r : reply)
| QuizAnswered (isCorrect : bool)
| ResetQuiz
| CreateShare (ty : string) (r : reply)
| LoadShare (r : reply).

Definition step (w : state) (e : event) : state * list effect :=
  match e with
  | SelectDoc d => (set_doc d w, [])
  | SetActiveTab t => (set_tab t w, [])
  | TypeQuestion s => (set_ask s (answer w) w, [])
  | TypeFocus s =>
      (set_summary s (summary w) (markType w) (summaryMarkTypeUsed w) w, [])
  | ClickMark m =>
      (set_summary (summaryFocus w) (summary w) (mark_literal m)
         (summaryMarkTypeUsed w) w, [])
  | TypeCode v => (onShareCodeChange v w, [])
  | Ask r => handleAsk w r
  | Summarize r => handleSummarize w r
  | GenerateQuiz r => handleQuiz w r
  | QuizAnswered b => (handleQuizAnswered b w, [])
  | ResetQuiz => (handleResetQuiz w, [])
  | CreateShare ty r => handleCreateShareCode ty w r
  | LoadShare r => handleLoadShareCode w r
  end.

(** A run: the state after the events and every effect performed. *)
Fixpoint run (w : state) (es : list event) : state * list effect :=
  match es with
  | [] => (w, [])
  | e :: rest =>
      let '(w1, out1) := step w e in
      let '(w2, out2) := run w1 rest in
      (w2, (out1 ++ out2)%list)
  end.

(** The payloads submitted to `/share/create` among some effects. *)
Fixpoint submitted (out : list effect) : list (string * ShareContent) :=
  match out with
  | [] => []
  | ShareCreate ty c :: rest => (ty, c) :: submitted rest
  | _ :: rest => submitted rest
  end.

(** The codes sent to `/share/get` among some effects. *)
Fixpoint looked_up (out : list effect) : list string :=
  match out with
  | [] => []
  | ShareGet c :: rest => c :: looked_up rest
  | _ :: rest => looked_up rest
  end.

End Workspace.

(* ===================================================================== *)
(** ** utils/storage.js: the stored session                               *)
(* ===================================================================== *)

Module Storage.

Definition TOKEN_KEY : string := "sca_token".
Definition USER_KEY : string := "sca_user".

(** `localStorage` when every access to it succeeds: string keys to
    string values; `getItem` of a key that is not there is `null`. *)
Abbreviation localStorage := (gmap string string).

Definition getItem (ls : localStorage) (k : string) : option string := ls !! k.
Definition setItem (k v : string) (ls : localStorage) : localStorage := <[k := v]> ls.
Definition removeItem (k : string) (ls : localStorage) : localStorage := delete k ls.

(** A JSON value. *)
#[warnings="-register-all"]
Inductive json :=
| JNull
| JBool (b : bool)
| JNumber (n : Z)
| JString (s : string)
| JArray (items : list json)
| JObject (fields : list (string * json)).

(** What [loadAuthFromStorage] returns: `{ token, user }`. *)
Record auth := { token : option string; user : json }.

Definition no_auth : auth := {| token := None; user := JNull |}.

Section WithJSON.
(** The platform's `JSON.parse` ([None]: it throws a [SyntaxError])
    and `JSON.stringify`. *)
Variable JSON_parse : string -> option json.
Variable JSON_stringify : json -> string.

(** [saveAuthToStorage(token, user)] *)
Definition saveAuthToStorage (tok : string) (u : json) (ls : localStorage)
  : localStorage :=
  setItem USER_KEY (JSON_stringify u) (setItem TOKEN_KEY tok ls).

(** [clearAuthFromStorage()] *)
Definition clearAuthFromStorage (ls : localStorage) : localStorage :=
  removeItem USER_KEY (removeItem TOKEN_KEY ls).

(** [loadAuthFromStorage()] when every access to the storage succeeds:
    the value returned and the storage it leaves.  The `catch` then runs
    when `JSON.parse` throws, and only then. *)
Definition loadAuthFromStorage (ls : localStorage) : auth * localStorage :=
  let tok := getItem ls TOKEN_KEY in
  let userStr := getItem ls USER_KEY in
  if negb (Js.truthy_opt tok) || negb (Js.truthy_opt userStr) then
    (no_auth, ls)
  else
    match JSON_parse (default "" userStr) with
    | Some u => ({| token := tok; user := u |}, ls)
    | None => (no_auth, clearAuthFromStorage ls)
    end.
End WithJSON.

End Storage.

(* ===================================================================== *)
(** ** The share-code service behind `/share/create` and `/share/get`     *)
(* ===================================================================== *)

(** The server is not part of the repository's sources; this module
    follows sections 3, 4 and 7 of the specification. *)
Module ShareService.

(** Modelled from the spec: the `type` tag of a ShareEntry (the server
    source is missing), one of `ask | summary | quiz`. *)
Inductive share_type := TAsk | TSummary | TQuiz.

(** Modelled from the spec: the error taxonomy of section 7. *)
Inductive error :=
| ValidationError (field : string)
| DuplicateCodeError
| CapacityError
| InvalidCodeFormatError
| NotFoundError
| IntegrityError.

Inductive result (A : Type) :=
| Ok (a : A)
| Err (e : error).
Arguments Ok {A} a.
Arguments Err {A} e.

(** Modelled from the spec: the ShareEntry record of section 3. *)
Record ShareEntry := {
  e_code     : string;
  e_type     : share_type;
  e_content  : ShareContent;
  created_at : nat
}.

(** Modelled from the spec: the ShareStore, `{code -> entry}`. *)
Abbreviation store := (gmap string ShareEntry).

(** *** PayloadValidator (section 4.3) *)

Definition nonempty_trimmed (s : string) : bool := Js.truthy (Js.trim s).

Definition mark_literals : list string := ["2"; "5"; "15"].

Definition is_mark_literal (m : string) : bool :=
  existsb (String.eqb m) mark_literals.

(** Modelled from the spec: the quiz answer rule, "matching,
    case-insensitively and ignoring non-letter characters, the first
    letter of one of the option labels A, B, C, ... assigned by
    position". *)
Definition answer_matches_a_label (q : QuizQuestion) : bool :=
  existsb (fun i => String.eqb (normalizeLetter (q_answer q)) (QuizItem.optionLabel i))
          (seq 0 (List.length (q_options q))).

Definition valid_question (q : QuizQuestion) : bool :=
  (2 <=? List.length (q_options q))%nat && answer_matches_a_label q.

(** Modelled from the spec: `validate(type, content)`, the per-type
    schema table; the error names the first failing field. *)
Definition validate (ty : share_type) (c : ShareContent) : result ShareContent :=
  match ty with
  | TAsk =>
      match c_question c, c_answer c with
      | None, _ => Err (ValidationError "question")
      | Some q, None =>
          if nonempty_trimmed q then Err (ValidationError "answer")
          else Err (ValidationError "question")
      | Some q, Some a =>
          if negb (nonempty_trimmed q) then Err (ValidationError "question")
          else if negb (nonempty_trimmed a) then Err (ValidationError "answer")
          else Ok c
      end
  | TSummary =>
      match c_summary c with
      | None => Err (ValidationError "summary")
      | Some s =>
          if negb (Js.truthy s) then Err (ValidationError "summary")
          else match c_mark_type c with
               | None => Ok c
               | Some m =>
                   if is_mark_literal m then Ok c
                   else Err (ValidationError "mark_type")
               end
      end
  | TQuiz =>
      match c_quiz c with
      | None => Err (ValidationError "quiz")
      | Some qs =>
          if (List.length qs =? 0)%nat then Err (ValidationError "quiz")
          else if forallb valid_question qs then Ok c
          else Err (ValidationError "quiz")
      end
  end.

(** *** CodeGenerator (section 4.1) *)

Definition digit_char (n : N) : ascii := ascii_of_N (48 + n mod 10).

(** Modelled from the spec: a draw of the random source rendered as a
    6-digit string, leading zeros kept. *)
Definition code_of_draw (n : N) : string :=
  String (digit_char (n / 100000))
    (String (digit_char (n / 10000))
       (String (digit_char (n / 1000))
          (String (digit_char (n / 100))
             (String (digit_char (n / 10))
                (String (digit_char n) EmptyString))))).

(** Modelled from the spec: the retry cap ("a fixed bound, such as 20
    attempts"). *)
Definition MAX_ATTEMPTS : nat := 20.

(** *** ShareStore (section 4.2) *)

Definition exists_code (st : store) (code : string) : bool :=
  bool_decide (is_Some (st !! code)).

(** Modelled from the spec: `put`, failing on a code that is taken. *)
Definition put (e : ShareEntry) (st : store) : result store :=
  if exists_code st (e_code e) then Err DuplicateCodeError
  else Ok (<[e_code e := e]> st).

(** Modelled from the spec: `get`, an exact-match lookup. *)
Definition lookup (code : string) (st : store) : result ShareEntry :=
  match st !! code with
  | Some e => Ok e
  | None => Err NotFoundError
  end.

(** *** ShareService (section 4.4) *)

(** What a `create` call leaves behind: its outcome, the store, and the
    number of codes it generated. *)
Record created := {
  outcome  : result string;
  store_of : store;
  attempts : nat
}.

(** Modelled from the spec: the generate-then-put loop of `create`.
    [rand k] is the [k]-th draw of the random source in this call;
    [fuel] is what is left of the retry cap. *)
Fixpoint create_loop (fuel k : nat) (rand : nat -> N) (ty : share_type)
    (c : ShareContent) (now : nat) (st : store) : created :=
  match fuel with
  | O => {| outcome := Err CapacityError; store_of := st; attempts := k |}
  | S fuel' =>
      let code := code_of_draw (rand k) in
      if exists_code st code then create_loop fuel' (S k) rand ty c now st
      else
        match put {| e_code := code; e_type := ty; e_content := c;
                     created_at := now |} st with
        | Ok st' => {| outcome := Ok code; store_of := st'; attempts := S k |}
        | Err _ => create_loop fuel' (S k) rand ty c now st
        end
  end.

(** Modelled from the spec: `create(type, content)`:
    validate, then generate and persist, within the retry cap. *)
Definition create (rand : nat -> N) (now : nat) (ty : share_type)
    (c : ShareContent) (st : store) : created :=
  match validate ty c with
  | Err e => {| outcome := Err e; store_of := st; attempts := 0 |}
  | Ok c' => create_loop MAX_ATTEMPTS 0 rand ty c' now st
  end.

(** Exactly 6 ASCII digits. *)
Definition is_code (s : string) : bool :=
  (String.length s =? 6)%nat && forallb Js.isDigit (list_ascii_of_string s).

(** Modelled from the spec: `get(code)`: normalize the input, reject
    what is not 6 digits, look up, re-validate. *)
Definition get (input : string) (st : store) : result (share_type * ShareContent) :=
  let code := Js.trim input in
  if negb (is_code code) then Err InvalidCodeFormatError
  else
    match lookup code st with
    | Err e => Err e
    | Ok e =>
        match validate (e_type e) (e_content e) with
        | Ok c => Ok (e_type e, c)
        | Err _ => Err IntegrityError
        end
    end.

End ShareService.

(* ===================================================================== *)
(** ** Vocabulary of the statements                                       *)
(* ===================================================================== *)

(** An ASCII letter, of either case. *)
Definition isAsciiLetter (c : ascii) : bool :=
  let n := nat_of_ascii c in
  (((65 <=? n) && (n <=? 90)) || ((97 <=? n) && (n <=? 122)))%nat.

(** The matching rule in the specification's words: trim, upper-case,
    strip every character that is not an ASCII letter, and keep the first
    character of what is left (the empty string when nothing is left). *)
Definition first_letter_rule (s : string) : string :=
  match List.filter isAsciiLetter
          (list_ascii_of_string (Js.toUpperCase (Js.trim s))) with
  | [] => EmptyString
  | c :: _ => String c EmptyString
  end.

(** The first ASCII letter of a string, upper-cased, as a one-character
    string; the empty string when the string has no letter. *)
Fixpoint first_letter (s : string) : string :=
  match s with
  | EmptyString => EmptyString
  | String c r =>
      if isAsciiLetter c then String (Js.toUpperCaseChar c) EmptyString
      else first_letter r
  end.

(** The invariant of `quizStats`. *)
Definition stats_ok (s : Workspace.QuizStats) : Prop :=
  (0 <= Workspace.correct s <= Workspace.answered s)%Z.


(** [handleLoadShareCode] stops at its guard: an alert, no request, and
    the state as it was. *)
Definition load_rejected (w : Workspace.state) (r : Api.reply) : Prop :=
  Workspace.handleLoadShareCode w r = (w, [Api.Alert "Please enter a 6-digit code."])
  \/ Workspace.handleLoadShareCode w r = (w, [Api.Alert "Code must be 6 digits."]).

(** One of the three mark types of the selector. *)
Definition is_mark (m : string) : Prop := m = "2" \/ m = "5" \/ m = "15".

(** A `mark_type` received from the backend that leaves the client's mark
    types among the three literals: missing, empty, or one of them. *)
Definition mark_ok (o : option string) : bool :=
  match o with
  | None => true
  | Some m => negb (Js.truthy m)
              || String.eqb m "2" || String.eqb m "5" || String.eqb m "15"
  end.

(** The backend's reply to an event carries such a `mark_type`: in the
    body of a `/summarize` reply, and in the content of a `/share/get`
    reply. *)
Definition reply_marks_ok (e : Workspace.event) : bool :=
  match e with
  | Workspace.Summarize (Api.Returned d) => mark_ok (Api.mark_type d)
  | Workspace.LoadShare (Api.Returned d) =>
      match Api.content d with
      | Some c => mark_ok (c_mark_type c)
      | None => true
      end
  | _ => true
  end.

(** The mark types the component holds are among the three literals. *)
Definition marks_ok (w : Workspace.state) : Prop :=
  is_mark (Workspace.markType w)
  /\ forall m, Workspace.summaryMarkTypeUsed w = Some m -> is_mark m.

(** The `mark_type` values the backend returned with an event: in the
    body of a `/summarize` reply, and in the content of a `/share/get`
    reply. *)
Definition option_list (o : option string) : list string :=
  match o with Some m => [m] | None => [] end.

Definition returned_marks_of (e : Workspace.event) : list string :=
  match e with
  | Workspace.Summarize (Api.Returned d) => option_list (Api.mark_type d)
  | Workspace.LoadShare (Api.Returned d) =>
      match Api.content d with
      | Some c => option_list (c_mark_type c)
      | None => []
      end
  | _ => []
  end.

Definition returned_marks (es : list Workspace.event) : list string :=
  flat_map returned_marks_of es.

(** A literal of the selector, or one of the values [l]. *)
Definition literal_or_returned (l : list string) (m : string) : Prop :=
  is_mark m \/ In m l.

(** The mark types the component holds are literals of the selector or
    among the values [l]. *)
Definition marks_from (l : list string) (w : Workspace.state) : Prop :=
  literal_or_returned l (Workspace.markType w)
  /\ forall m, Workspace.summaryMarkTypeUsed w = Some m -> literal_or_returned l m.

(** Reply bodies used in the examples. *)
Definition empty_body : Api.data :=
  {| Api.status := None; Api.detail := None; Api.message := None;
     Api.answer := None; Api.summary := None; Api.mark_type := None;
     Api.quiz := None; Api.code := None; Api.type := None;
     Api.content := None |}.

Definition answer_body (a : string) : Api.data :=
  {| Api.status := Some "ok"; Api.detail := None; Api.message := None;
     Api.answer := Some a; Api.summary := None; Api.mark_type := None;
     Api.quiz := None; Api.code := None; Api.type := None;
     Api.content := None |}.

Definition summary_body (s m : string) : Api.data :=
  {| Api.status := Some "ok"; Api.detail := None; Api.message := None;
     Api.answer := None; Api.summary := Some s; Api.mark_type := Some m;
     Api.quiz := None; Api.code := None; Api.type := None;
     Api.content := None |}.

Definition code_body (c : string) : Api.data :=
  {| Api.status := Some "ok"; Api.detail := None; Api.message := None;
     Api.answer := None; Api.summary := None; Api.mark_type := None;
     Api.quiz := None; Api.code := Some c; Api.type := None;
     Api.content := None |}.

(* ===================================================================== *)
(** ** api.js: the request helper                                         *)
(* ===================================================================== *)

Module Http.

Definition API_BASE : string := "http://127.0.0.1:8000".

Section Request.
(** [D] is the shape of the JSON object a route answers with and [Body]
    the kind of value a caller passes as `body`.  [empty] is `{}`; the
    projections read `data.detail` and `data.message`. *)
Context {D Body : Type}.
Variable empty : D.
Variable detail message : D -> option string.
Variable JSON_stringify : Body -> string.

(** What `fetch` is given as `body`: the caller's value as it is (a
    form), or its JSON text. *)
Inductive sent_body :=
| Raw (b : Body)
| Text (s : string).

(** The call `fetch(url, { method, headers, body })`. *)
Record wire := {
  url     : string;
  method  : string;
  headers : list (string * string);
  body    : option sent_body
}.

(** The `Response`: `res.ok`, and what `res.json()` resolves to ([None]
    when the body is not JSON and it rejects). *)
Record response := { ok : bool; json : option D }.

(** `fetch` rejects (no connection) or resolves to a response. *)
Inductive outcome :=
| NetworkError (msg : string)
| Response (res : response).

(** How [request] ends: it throws an [Error], or returns `data`. *)
Inductive reply :=
| Threw (msg : string)
| Returned (d : D).

(** The first half of [request]: the headers and the call to `fetch`. *)
Definition build (path method : string) (body : option Body)
    (token : option string) (isForm : bool) : wire :=
  let h1 := if isForm then [] else [("Content-Type", "application/json")] in
  let h2 := if Js.truthy_opt token
            then [("Authorization", "Bearer " ++ default "" token)] else [] in
  {| url := API_BASE ++ path;
     method := method;
     headers := (h1 ++ h2)%list;
     body := if isForm then option_map Raw body
             else option_map (fun b => Text (JSON_stringify b)) body |}.

(** The second half of [request]: the body is parsed, `{}` standing in
    for a body that is not JSON, and a status that is not 2xx is thrown
    with [data.detail || data.message || "API error"]. *)
Definition receive (o : outcome) : reply :=
  match o with
  | NetworkError msg => Threw msg
  | Response res =>
      let data := default empty (json res) in
      if negb (ok res) then
        Threw (Js.opt_or_else (detail data)
                 (Js.opt_or_else (message data) "API error"))
      else Returned data
  end.

(** [request(path, { method, body, token, isForm })], against a network
    [net]: the call made and how the request ends. *)
Definition request (net : wire -> outcome) (path method : string)
    (body : option Body) (token : option string) (isForm : bool)
  : wire * reply :=
  let w := build path method body token isForm in
  (w, receive (net w)).

(** The `api` object. *)
Definition get (net : wire -> outcome) (path : string) (token : option string) :=
  request net path "GET" None token false.

Definition post (net : wire -> outcome) (path : string) (payload : Body)
    (token : option string) :=
  request net path "POST" (Some payload) token false.

Definition upload (net : wire -> outcome) (path : string) (formData : Body)
    (token : option string) :=
  request net path "POST" (Some formData) token true.

End Request.

Arguments Threw {D} msg.
Arguments Returned {D} d.
Arguments NetworkError {D} msg.
Arguments Response {D} res.

(** The replies of the routes the Workspace calls, as its handlers take
    them. *)
Definition to_api (r : @reply Api.data) : Api.reply :=
  match r with
  | Threw msg => Api.Threw msg
  | Returned d => Api.Returned d
  end.

(** [request]'s second half at the Workspace's routes. *)
Definition receive_api (o : @outcome Api.data) : Api.reply :=
  to_api (receive empty_body Api.detail Api.message o).

End Http.

(* ===================================================================== *)
(** ** context/AuthContext.js: the session provider                       *)
(* ===================================================================== *)

Module AuthContext.

(** Truthiness of a JSON value. *)
Definition truthy_json (v : Storage.json) : bool :=
  match v with
  | Storage.JNull => false
  | Storage.JBool b => b
  | Storage.JNumber n => negb (n =? 0)%Z
  | Storage.JString s => Js.truthy s
  | Storage.JArray _ => true
  | Storage.JObject _ => true
  end.

(** The body of an `/auth/...` reply, as [handleAuth] reads it. *)
Record auth_data := {
  access_token : option string;
  user_field   : option Storage.json;
  detail       : option string;
  message      : option string
}.

(** The `useState` cells of the provider; `null` is [JNull] for the user
    and [None] for the token. *)
Record state := {
  user        : Storage.json;
  token       : option string;
  authLoading : bool;
  authError   : string
}.

Definition init : state :=
  {| user := Storage.JNull; token := None; authLoading := false; authError := "" |}.

Section WithJSON.
Variable JSON_parse : string -> option Storage.json.
Variable JSON_stringify : Storage.json -> string.

(** The effect run on mount:
    [const stored = loadAuthFromStorage();
     if (stored.token && stored.user) { setToken(...); setUser(...) }] *)
Definition mount (st : state) (ls : gmap string string)
  : state * gmap string string :=
  let '(stored, ls') := Storage.loadAuthFromStorage JSON_parse ls in
  if Js.truthy_opt (Storage.token stored) && truthy_json (Storage.user stored) then
    ({| user := Storage.user stored; token := Storage.token stored;
        authLoading := authLoading st; authError := authError st |}, ls')
  else (st, ls').

(** [saveAuth(accessToken, userObj)] when the write to the storage
    succeeds. *)
Definition saveAuth (accessToken : string) (userObj : Storage.json)
    (st : state) (ls : gmap string string) : state * gmap string string :=
  ({| user := userObj; token := Some accessToken;
      authLoading := authLoading st; authError := authError st |},
   Storage.saveAuthToStorage JSON_stringify accessToken userObj ls).

(** [logout()] *)
Definition logout (st : state) (ls : gmap string string)
  : state * gmap string string :=
  ({| user := Storage.JNull; token := None;
      authLoading := authLoading st; authError := authError st |},
   Storage.clearAuthFromStorage ls).

(** What the `catch` and `finally` of [handleAuth] leave: the error
    shown, and the error thrown on to the caller. *)
Definition auth_failed (msg : string) (st : state) : state :=
  {| user := user st; token := token st; authLoading := false;
     authError := Js.or_else msg "Authentication failed." |}.

(** [handleAuth(endpoint, payload)], given how `api.post` ended: the new
    cells, the storage, and the message of the error it throws on, if
    any. *)
Definition handleAuth (r : @Http.reply auth_data) (st : state)
    (ls : gmap string string) : state * gmap string string * option string :=
  let st0 := {| user := user st; token := token st; authLoading := true;
                authError := "" |} in
  match r with
  | Http.Threw msg => (auth_failed msg st0, ls, Some msg)
  | Http.Returned data =>
      match access_token data, user_field data with
      | Some tok, Some u =>
          if negb (Js.truthy tok) || negb (truthy_json u) then
            (auth_failed "Invalid server response." st0, ls,
             Some "Invalid server response.")
          else
            let '(st1, ls1) := saveAuth tok u st0 ls in
            ({| user := user st1; token := token st1; authLoading := false;
                authError := authError st1 |}, ls1, None)
      | _, _ =>
          (auth_failed "Invalid server response." st0, ls,
           Some "Invalid server response.")
      end
  end.

(** What happens to a mounted provider: a login, registration or Google
    sign-in, each a call of [handleAuth], or a logout. *)
Inductive event :=
| Auth (r : @Http.reply auth_data)
| Logout.

Definition step (c : state * gmap string string) (e : event)
  : state * gmap string string :=
  match e with
  | Auth r => fst (handleAuth r (fst c) (snd c))
  | Logout => logout (fst c) (snd c)
  end.

(** The life of a provider on a browser whose storage is [ls]: it
    mounts, then handles the events. *)
Definition run (ls : gmap string string) (es : list event)
  : state * gmap string string :=
  fold_left step es (mount init ls).

End WithJSON.

End AuthContext.

(* ===================================================================== *)
(** ** App.js: the document list and the selection                        *)
(* ===================================================================== *)

Module App.

(** A document as `/documents` lists it. *)
Record doc := {
  id         : string;
  title      : string;
  subject    : string;
  num_chunks : Z;
  created_at : string
}.

(** The body of a `/documents` reply. *)
Record docs_data := {
  documents_field : option (list doc);
  detail          : option string;
  message         : option string
}.

Record state := {
  documents       : list doc;
  selectedDocId   : string;
  selectedDocMeta : option doc
}.

Definition init : state :=
  {| documents := []; selectedDocId := ""; selectedDocMeta := None |}.

(** [docs.find((d) => d.id === selectedDocId)] *)
Fixpoint find_by_id (i : string) (docs : list doc) : option doc :=
  match docs with
  | [] => None
  | d :: rest => if String.eqb (id d) i then Some d else find_by_id i rest
  end.

(** [fetchDocuments], given the token of the session and how `api.get`
    ended, when nothing else happens to the App between the call and the
    reply. *)
Definition fetchDocuments (token : option string) (r : @Http.reply docs_data)
    (st : state) : state :=
  if negb (Js.truthy_opt token) then st
  else
    match r with
    | Http.Threw _ => st
    | Http.Returned data =>
        let docs := default [] (documents_field data) in
        match docs with
        | [] => {| documents := docs; selectedDocId := ""; selectedDocMeta := None |}
        | first :: _ =>
            if negb (Js.truthy (selectedDocId st)) then
              {| documents := docs; selectedDocId := id first;
                 selectedDocMeta := Some first |}
            else
              match find_by_id (selectedDocId st) docs with
              | None =>
                  {| documents := docs; selectedDocId := id first;
                     selectedDocMeta := Some first |}
              | Some existing =>
                  {| documents := docs; selectedDocId := selectedDocId st;
                     selectedDocMeta := Some existing |}
              end
        end
    end.

(** [handleSelectDoc(doc)] *)
Definition handleSelectDoc (d : doc) (st : state) : state :=
  {| documents := documents st; selectedDocId := id d; selectedDocMeta := Some d |}.

(** The body of a successful `/upload` reply. *)
Record upload_data := {
  doc_id       : string;
  u_title      : string;
  u_subject    : string;
  u_num_chunks : Z;
  u_created_at : string
}.

(** [handleUploadedDoc(data)] *)
Definition handleUploadedDoc (data : upload_data) (st : state) : state :=
  let newDoc := {| id := doc_id data; title := u_title data;
                   subject := u_subject data; num_chunks := u_num_chunks data;
                   created_at := u_created_at data |} in
  {| documents := newDoc :: documents st; selectedDocId := id newDoc;
     selectedDocMeta := Some newDoc |}.

(** What happens to the mounted App: a refresh of the list, a click on
    the [i]-th card of the list (`DocumentList` renders one card per
    document and passes the document clicked), an upload that
    succeeded. *)
Inductive event :=
| Fetch (token : option string) (r : @Http.reply docs_data)
| ClickCard (i : nat)
| Uploaded (data : upload_data).

Definition step (st : state) (e : event) : state :=
  match e with
  | Fetch token r => fetchDocuments token r st
  | ClickCard i =>
      match documents st !! i with
      | Some d => handleSelectDoc d st
      | None => st
      end
  | Uploaded data => handleUploadedDoc data st
  end.

Definition run (es : list event) : state := fold_left step es init.

End App.

(* ===================================================================== *)
(** ** Workspace.js: the download helpers                                 *)
(* ===================================================================== *)

Module Downloads.

(** How a download handler ends: it returns without a file, it throws a
    [TypeError] (`.trim()` of `undefined`), or it hands a file to
    [downloadTextFile(filename, content)]. *)
Inductive outcome :=
| Nothing
| Throws
| File (filename content : string).

Definition nl : string := String (ascii_of_nat 10) EmptyString.

(** [selectedDocMeta?.title || "document"] *)
Definition doc_title (title : option string) : string :=
  Js.opt_or_else title "document".

(** [handleDownloadAnswer] *)
Definition handleDownloadAnswer (title : option string) (w : Workspace.state)
  : outcome :=
  match Workspace.answer w with
  | None => Throws
  | Some a =>
      if negb (Js.truthy (Js.trim a)) then Nothing
      else
        File "answer.txt"
          ("Question from: " ++ doc_title title ++ nl ++ nl
           ++ "Q: " ++ Workspace.question w ++ nl ++ nl
           ++ "Answer:" ++ nl ++ a)
  end.

(** [handleDownloadSummary] *)
Definition handleDownloadSummary (title : option string) (w : Workspace.state)
  : outcome :=
  match Workspace.summary w with
  | None => Throws
  | Some s =>
      if negb (Js.truthy (Js.trim s)) then Nothing
      else
        File "summary.txt"
          ("Summary for: " ++ doc_title title ++ nl
           ++ "Marks: "
           ++ Js.opt_or_else (Workspace.summaryMarkTypeUsed w) (Workspace.markType w)
           ++ nl
           ++ "Focus: " ++ Js.or_else (Workspace.summaryFocus w) "General"
           ++ nl ++ nl ++ s)
  end.

(** [handleDownloadQuiz]; [stringify] is
    [JSON.stringify({ quiz, stats: quizStats }, null, 2)]. *)
Definition handleDownloadQuiz
    (stringify : list QuizQuestion -> Workspace.QuizStats -> string)
    (w : Workspace.state) : outcome :=
  if (List.length (Workspace.quiz w) =? 0)%nat then Nothing
  else File "quiz.json" (stringify (Workspace.quiz w) (Workspace.quizStats w)).

End Downloads.

(* ===================================================================== *)
(** ** Workspace.js and Tabs.js: the tabs, the shortcuts, the option style *)
(* ===================================================================== *)

Module Tabs.

(** The `id`s of the `tabs` array of Tabs.js, in order; a click on the
    [i]-th button calls [setActiveTab] with the [i]-th of them. *)
Definition tab_ids : list string := ["qa"; "summary"; "quiz"; "docs"].

Definition click (i : nat) (w : Workspace.state) : Workspace.state :=
  match tab_ids !! i with
  | Some t => Workspace.set_tab t w
  | None => w
  end.

(** The `keydown` handler of the Workspace: nothing while the target is
    an input or a text area, else the keys "1" to "4" switch the tab. *)
Definition handleKeydown (tagName key : string) (w : Workspace.state)
  : Workspace.state :=
  if String.eqb tagName "INPUT" || String.eqb tagName "TEXTAREA" then w
  else
    let w1 := if String.eqb key "1" then Workspace.set_tab "qa" w else w in
    let w2 := if String.eqb key "2" then Workspace.set_tab "summary" w1 else w1 in
    let w3 := if String.eqb key "3" then Workspace.set_tab "quiz" w2 else w2 in
    if String.eqb key "4" then Workspace.set_tab "docs" w3 else w3.

End Tabs.

Module OptionStyle.

(** The four styles [getOptionStyle] can return, by what sets them
    apart: the hover style of an item not yet answered, the green of a
    correct option, the red of the selected wrong option, the base. *)
Inductive style := Hover | Green | Red | Base.

(** [getOptionStyle(opt)] *)
Definition getOptionStyle (q : QuizQuestion) (st : QuizItem.state)
    (opt : string) : style :=
  if negb (Js.truthy_opt (QuizItem.selected st)) then Hover
  else
    let correctOpt := QuizItem.isCorrect q opt in
    if correctOpt then Green
    else if bool_decide (Some opt = QuizItem.selected st) && negb correctOpt
         then Red
         else Base.

End OptionStyle.

(* ===================================================================== *)
(** ** utils/storage.js on a storage whose accesses can throw             *)
(* ===================================================================== *)

Module Browser.

(** `localStorage` as a page finds it: [Blocked] when the user agent
    denies the page its storage, so that every access throws a
    `SecurityError`; else [Open] with its content. *)
Inductive storage :=
| Blocked
| Open (ls : gmap string string).

(** The exceptions of this part of the program. *)
Inductive error :=
| SecurityError
| QuotaExceededError
| SyntaxError.

(** How a call ends: it throws, or it returns a value. *)
Inductive outcome (A : Type) :=
| Throw (e : error)
| Return (a : A).

Arguments Throw {A} e.
Arguments Return {A} a.

Section WithPlatform.
(** The platform's `JSON.parse` ([None]: it throws a `SyntaxError`) and
    `JSON.stringify`, and its quota: [fits ls k v] tells whether the
    storage [ls] takes the value [v] under the key [k]; `setItem` throws
    a `QuotaExceededError` when it does not. *)
Variable JSON_parse : string -> option Storage.json.
Variable JSON_stringify : Storage.json -> string.
Variable fits : gmap string string -> string -> string -> bool.

(** [localStorage.getItem(k)] *)
Definition getItem (k : string) (b : storage) : outcome (option string) :=
  match b with
  | Blocked => Throw SecurityError
  | Open ls => Return (ls !! k)
  end.

(** [localStorage.setItem(k, v)]: how it ends, and the storage it
    leaves. *)
Definition setItem (k v : string) (b : storage) : outcome unit * storage :=
  match b with
  | Blocked => (Throw SecurityError, b)
  | Open ls =>
      if fits ls k v then (Return tt, Open (<[k := v]> ls))
      else (Throw QuotaExceededError, b)
  end.

(** [localStorage.removeItem(k)] *)
Definition removeItem (k : string) (b : storage) : outcome unit * storage :=
  match b with
  | Blocked => (Throw SecurityError, b)
  | Open ls => (Return tt, Open (delete k ls))
  end.

(** [saveAuthToStorage(token, user)]: the second write is not reached
    when the first throws. *)
Definition saveAuthToStorage (tok : string) (u : Storage.json) (b : storage)
  : outcome unit * storage :=
  match setItem Storage.TOKEN_KEY tok b with
  | (Throw e, b1) => (Throw e, b1)
  | (Return _, b1) => setItem Storage.USER_KEY (JSON_stringify u) b1
  end.

(** [clearAuthFromStorage()] *)
Definition clearAuthFromStorage (b : storage) : outcome unit * storage :=
  match removeItem Storage.TOKEN_KEY b with
  | (Throw e, b1) => (Throw e, b1)
  | (Return _, b1) => removeItem Storage.USER_KEY b1
  end.

(** The `try` block of [loadAuthFromStorage]: the two reads, the guard
    and `JSON.parse`.  It writes nothing. *)
Definition load_try (b : storage) : outcome Storage.auth :=
  match getItem Storage.TOKEN_KEY b with
  | Throw e => Throw e
  | Return tok =>
      match getItem Storage.USER_KEY b with
      | Throw e => Throw e
      | Return userStr =>
          if negb (Js.truthy_opt tok) || negb (Js.truthy_opt userStr) then
            Return Storage.no_auth
          else
            match JSON_parse (default "" userStr) with
            | Some u => Return {| Storage.token := tok; Storage.user := u |}
            | None => Throw SyntaxError
            end
      end
  end.

(** [loadAuthFromStorage()]: whatever the `try` block throws is caught;
    the `catch` calls [clearAuthFromStorage()], outside any `try`, and
    then returns the empty session. *)
Definition loadAuthFromStorage (b : storage) : outcome Storage.auth * storage :=
  match load_try b with
  | Return a => (Return a, b)
  | Throw _ =>
      match clearAuthFromStorage b with
      | (Throw e, b1) => (Throw e, b1)
      | (Return _, b1) => (Return Storage.no_auth, b1)
      end
  end.

End WithPlatform.

End Browser.

(* ===================================================================== *)
(** ** context/AuthContext.js on a storage whose accesses can throw       *)
(* ===================================================================== *)

Module AuthProvider.

Section WithPlatform.
Variable JSON_parse : string -> option Storage.json.
Variable JSON_stringify : Storage.json -> string.
Variable fits : gmap string string -> string -> string -> bool.
(** `err.message` of an exception of the storage. *)
Variable message_of : Browser.error -> string.

(** The effect run on mount.  It has no `try`: what
    [loadAuthFromStorage] throws, the effect throws. *)
Definition mount (st : AuthContext.state) (b : Browser.storage)
  : AuthContext.state * Browser.storage * option Browser.error :=
  match Browser.loadAuthFromStorage JSON_parse b with
  | (Browser.Throw e, b1) => (st, b1, Some e)
  | (Browser.Return stored, b1) =>
      if Js.truthy_opt (Storage.token stored)
         && AuthContext.truthy_json (Storage.user stored) then
        ({| AuthContext.user := Storage.user stored;
            AuthContext.token := Storage.token stored;
            AuthContext.authLoading := AuthContext.authLoading st;
            AuthContext.authError := AuthContext.authError st |}, b1, None)
      else (st, b1, None)
  end.

(** [saveAuth(accessToken, userObj)]: [setToken] and [setUser] come
    first, so the two cells are written also when the write to the
    storage then throws. *)
Definition saveAuth (accessToken : string) (userObj : Storage.json)
    (st : AuthContext.state) (b : Browser.storage)
  : AuthContext.state * Browser.storage * option Browser.error :=
  let st1 := {| AuthContext.user := userObj;
                AuthContext.token := Some accessToken;
                AuthContext.authLoading := AuthContext.authLoading st;
                AuthContext.authError := AuthContext.authError st |} in
  match Browser.saveAuthToStorage JSON_stringify fits accessToken userObj b with
  | (Browser.Throw e, b1) => (st1, b1, Some e)
  | (Browser.Return _, b1) => (st1, b1, None)
  end.

(** [logout()]: [clearAuthFromStorage()] comes first, so the two cells
    are not reset when it throws. *)
Definition logout (st : AuthContext.state) (b : Browser.storage)
  : AuthContext.state * Browser.storage * option Browser.error :=
  match Browser.clearAuthFromStorage b with
  | (Browser.Throw e, b1) => (st, b1, Some e)
  | (Browser.Return _, b1) =>
      ({| AuthContext.user := Storage.JNull; AuthContext.token := None;
          AuthContext.authLoading := AuthContext.authLoading st;
          AuthContext.authError := AuthContext.authError st |}, b1, None)
  end.

(** [handleAuth(endpoint, payload)], given how `api.post` ended: the new
    cells, the storage, and the message of the error it throws on, if
    any.  The `catch` also takes what [saveAuth] throws. *)
Definition handleAuth (r : @Http.reply AuthContext.auth_data)
    (st : AuthContext.state) (b : Browser.storage)
  : AuthContext.state * Browser.storage * option string :=
  let st0 := {| AuthContext.user := AuthContext.user st;
                AuthContext.token := AuthContext.token st;
                AuthContext.authLoading := true;
                AuthContext.authError := "" |} in
  let invalid := (AuthContext.auth_failed "Invalid server response." st0, b,
                  Some "Invalid server response.") in
  match r with
  | Http.Threw msg => (AuthContext.auth_failed msg st0, b, Some msg)
  | Http.Returned data =>
      match AuthContext.access_token data, AuthContext.user_field data with
      | Some tok, Some u =>
          if negb (Js.truthy tok) || negb (AuthContext.truthy_json u) then invalid
          else
            match saveAuth tok u st0 b with
            | (st1, b1, Some e) =>
                (AuthContext.auth_failed (message_of e) st1, b1,
                 Some (message_of e))
            | (st1, b1, None) =>
                ({| AuthContext.user := AuthContext.user st1;
                    AuthContext.token := AuthContext.token st1;
                    AuthContext.authLoading := false;
                    AuthContext.authError := AuthContext.authError st1 |},
                 b1, None)
            end
      | _, _ => invalid
      end
  end.

Definition step (c : AuthContext.state * Browser.storage)
    (e : AuthContext.event) : AuthContext.state * Browser.storage :=
  match e with
  | AuthContext.Auth r => fst (handleAuth r (fst c) (snd c))
  | AuthContext.Logout => fst (logout (fst c) (snd c))
  end.

(** The life of a provider on a browser whose storage is [b]: it mounts,
    then handles the events.  An effect that throws takes the whole tree
    down: no event is handled after it. *)
Definition run (b : Browser.storage) (es : list AuthContext.event)
  : AuthContext.state * Browser.storage :=
  match mount AuthContext.init b with
  | (st, b1, Some _) => (st, b1)
  | (st, b1, None) => fold_left step es (st, b1)
  end.

End WithPlatform.

End AuthProvider.

(* ===================================================================== *)
(** ** App.js: the list refreshed while other events arrive               *)
(* ===================================================================== *)

Module AppAsync.

(** The cells of the App together with the calls of [fetchDocuments]
    that await their reply: each holds the `selectedDocId` of the render
    it was called from. *)
Record state := {
  app     : App.state;
  pending : list string
}.

Definition init : state := {| app := App.init; pending := [] |}.

(** [fetchDocuments] up to its `await`, called from a render whose token
    is [token]. *)
Definition fetchDocuments_call (token : option string) (st : state) : state :=
  if negb (Js.truthy_opt token) then st
  else {| app := app st;
          pending := (pending st ++ [App.selectedDocId (app st)])%list |}.

(** [fetchDocuments] after its `await`: [captured] is the
    `selectedDocId` the call closed over, and the setters write into the
    cells as they are when the reply arrives. *)
Definition fetchDocuments_resume (captured : string)
    (r : @Http.reply App.docs_data) (st : App.state) : App.state :=
  match r with
  | Http.Threw _ => st
  | Http.Returned data =>
      let docs := default [] (App.documents_field data) in
      match docs with
      | [] => {| App.documents := docs; App.selectedDocId := "";
                 App.selectedDocMeta := None |}
      | first :: _ =>
          if negb (Js.truthy captured) then
            {| App.documents := docs; App.selectedDocId := App.id first;
               App.selectedDocMeta := Some first |}
          else
            match App.find_by_id captured docs with
            | None =>
                {| App.documents := docs; App.selectedDocId := App.id first;
                   App.selectedDocMeta := Some first |}
            | Some existing =>
                {| App.documents := docs;
                   App.selectedDocId := App.selectedDocId st;
                   App.selectedDocMeta := Some existing |}
            end
      end
  end.

(** What happens to the mounted App: a call of [fetchDocuments] (the
    effect on the token, or the refresh button), the reply to the [k]-th
    call still awaiting one, a click on the [i]-th card, an upload that
    succeeded. *)
Inductive event :=
| Call (token : option string)
| Reply (k : nat) (r : @Http.reply App.docs_data)
| ClickCard (i : nat)
| Uploaded (data : App.upload_data).

Definition step (st : state) (e : event) : state :=
  match e with
  | Call token => fetchDocuments_call token st
  | Reply k r =>
      match pending st !! k with
      | Some captured =>
          {| app := fetchDocuments_resume captured r (app st);
             pending := delete k (pending st) |}
      | None => st
      end
  | ClickCard i =>
      match App.documents (app st) !! i with
      | Some d => {| app := App.handleSelectDoc d (app st); pending := pending st |}
      | None => st
      end
  | Uploaded data =>
      {| app := App.handleUploadedDoc data (app st); pending := pending st |}
  end.

Definition run (es : list event) : state := fold_left step es init.

End AppAsync.

(* ===================================================================== *)
(** ** Workspace.js: a QuizItem from its mount to its unmount             *)
(* ===================================================================== *)

Module MountedItem.

(** A mounted item: the `q` prop of its latest render and its own state.
    The Workspace renders the items under [activeTab === "quiz"] with
    [key={idx}]: an item is unmounted, and its state lost, when the tab
    is left or the quiz emptied, and it keeps its state when the parent
    passes another `q` at the same index. *)
Record state := {
  q    : QuizQuestion;
  item : QuizItem.state
}.

Definition mount (q0 : QuizQuestion) : state :=
  {| q := q0; item := QuizItem.init |}.

Inductive event :=
| Click (opt : string)
| Rerender (q' : QuizQuestion).

Definition step (st : state) (e : event) : state :=
  match e with
  | Click opt => {| q := q st; item := QuizItem.handleClick (q st) (item st) opt |}
  | Rerender q' => {| q := q'; item := item st |}
  end.

Definition run (q0 : QuizQuestion) (es : list event) : state :=
  fold_left step es (mount q0).

(** The `onAnswered` calls the item has made since its mount. *)
Definition calls (st : state) : list bool := QuizItem.answered_calls (item st).

(** [getOptionStyle(opt)] in the latest render. *)
Definition getOptionStyle (st : state) (opt : string) : OptionStyle.style :=
  OptionStyle.getOptionStyle (q st) (item st) opt.

End MountedItem.

(* ===================================================================== *)
(** ** Vocabulary of the further properties                               *)
(* ===================================================================== *)

(** The two cells of the session are set together. *)
Definition session_ok (st : AuthContext.state) : Prop :=
  (AuthContext.token st = None /\ AuthContext.user st = Storage.JNull)
  \/ (Js.truthy_opt (AuthContext.token st) = true
      /\ AuthContext.truthy_json (AuthContext.user st) = true).

(** What the specification says of [loadAuthFromStorage], at a storage
    that can be accessed and holds [ls]: it returns; a key absent gives
    the empty session and leaves the storage alone; a user string that
    does not parse removes both keys; otherwise the stored token comes
    back with the parsed user. *)
Definition load_as_stated (parse : string -> option Storage.json)
    (ls : gmap string string) : Prop :=
  match Browser.loadAuthFromStorage parse (Browser.Open ls) with
  | (Browser.Return a, Browser.Open ls') =>
      ((ls !! Storage.TOKEN_KEY = None \/ ls !! Storage.USER_KEY = None) ->
       a = Storage.no_auth /\ ls' = ls)
      /\ (forall t u, ls !! Storage.TOKEN_KEY = Some t ->
                      ls !! Storage.USER_KEY = Some u ->
                      match parse u with
                      | None => a = Storage.no_auth
                                /\ ls' = Storage.clearAuthFromStorage ls
                      | Some v => a = {| Storage.token := Some t; Storage.user := v |}
                      end)
  | _ => False
  end.




(** The document selected in the App is one of its list. *)
Definition selection_listed (st : App.state) : Prop :=
  match App.selectedDocMeta st with
  | Some d => In d (App.documents st)
  | None => App.documents st = [] /\ App.selectedDocId st = ""
  end.

(** A string of ASCII characters: every code is below 128. *)
Definition is_ascii (s : string) : bool :=
  forallb (fun c => (nat_of_ascii c <? 128)%nat) (list_ascii_of_string s).

(** The selection of the App agrees with its list. *)
Definition selection_ok (st : App.state) : Prop :=
  match App.selectedDocMeta st with
  | Some d => In d (App.documents st) /\ App.id d = App.selectedDocId st
  | None => App.documents st = [] /\ App.selectedDocId st = ""
  end.

(** One of the three share types. *)
Definition is_share_type (t : string) : Prop :=
  t = "ask" \/ t = "summary" \/ t = "quiz".

(** The cells of "share create": no code and no type, or a code with its
    type and no error. *)
Definition create_ok (w : Workspace.state) : Prop :=
  (Workspace.shareCreatedCode w = "" /\ Workspace.shareCreatedType w = "")
  \/ (Workspace.shareCreatedCode w <> ""
      /\ Workspace.shareCreateError w = ""
      /\ is_share_type (Workspace.shareCreatedType w)).

(** The cells of "share load": the code cell holds digits only, and a
    loaded-content notice comes with no error, a 6-digit code and one of
    the three types. *)
Definition load_ok (w : Workspace.state) : Prop :=
  forallb Js.isDigit (list_ascii_of_string (Workspace.shareCodeInput w)) = true
  /\ forall c t, Workspace.loadedShareInfo w = Some (c, t) ->
                 Workspace.shareCodeError w = ""
                 /\ ShareService.is_code c = true
                 /\ is_share_type t.

(** What a request of the Workspace is never sent without. *)
Definition request_ok (e : Api.effect) : Prop :=
  match e with
  | Api.PostAsk d q => d <> "" /\ Js.truthy (Js.trim q) = true
  | Api.PostSummarize d f _ => d <> "" /\ f <> Some ""
  | Api.PostQuiz d => d <> ""
  | Api.ShareGet c => String.length c = 6%nat
  | Api.ShareCreate t _ => is_share_type t
  | _ => True
  end.

(** The shape of a payload of each share type. *)
Definition payload_shape (t : string) (c : ShareContent) : Prop :=
  (t = "ask"
   /\ exists q a, Js.truthy (Js.trim a) = true
        /\ c = {| c_question := Some q; c_answer := Some a; c_focus := None;
                  c_summary := None; c_mark_type := None; c_quiz := None |})
  \/ (t = "summary"
      /\ exists f s m, Js.truthy (Js.trim s) = true
           /\ c = {| c_question := None; c_answer := None; c_focus := Some f;
                     c_summary := Some s; c_mark_type := Some m;
                     c_quiz := None |})
  \/ (t = "quiz"
      /\ exists l, l <> []
           /\ c = {| c_question := None; c_answer := None; c_focus := None;
                     c_summary := None; c_mark_type := None;
                     c_quiz := Some l |}).

(** The body of a `/share/get` reply that hands back a type and a
    content. *)
Definition share_body (t : string) (c : ShareContent) : Api.data :=
  {| Api.status := Some "ok"; Api.detail := None; Api.message := None;
     Api.answer := None; Api.summary := None; Api.mark_type := None;
     Api.quiz := None; Api.code := None; Api.type := Some t;
     Api.content := Some c |}.

(** The Workspace receiving the `onAnswered` calls of a quiz item, in
    order. *)
Definition feed (calls : list bool) (w : Workspace.state) : Workspace.state :=
  fold_left (fun w0 b => Workspace.handleQuizAnswered b w0) calls w.

(** The tab an event switches to, if it switches, is a tab of Tabs.js. *)
Definition tab_event_ok (e : Workspace.event) : Prop :=
  match e with
  | Workspace.SetActiveTab t => In t Tabs.tab_ids
  | _ => True
  end.

(* ===================================================================== *)
(** * Properties                                                          *)
(* ===================================================================== *)

(** ** Strings *)

Lemma or_else_empty (s : string) : Js.or_else s "" = s.
Proof. destruct s; reflexivity. Qed.

Ltac each_char c := destruct c as [[] [] [] [] [] [] [] []].

Lemma upper_letter_is_AZ (c : ascii) :
  Js.isAZ (Js.toUpperCaseChar c) = isAsciiLetter (Js.toUpperCaseChar c).
Proof. each_char c; reflexivity. Qed.

Lemma trimEnd_cons (c : ascii) (r : string) :
  Js.isWhiteSpace c = false ->
  Js.trimEnd (String c r) = String c (Js.trimEnd r).
Proof.
  intros Hc. simpl. rewrite Hc. destruct (Js.trimEnd r); reflexivity.
Qed.

Lemma strip_then_first (t : string) :
  Js.charAt (Js.replace_outside Js.isAZ (Js.toUpperCase t)) 0 =
  match List.filter isAsciiLetter (list_ascii_of_string (Js.toUpperCase t)) with
  | [] => EmptyString
  | c :: _ => String c EmptyString
  end.
Proof.
  induction t as [|c r IH]; [reflexivity|].
  cbn [Js.toUpperCase Js.replace_outside list_ascii_of_string List.filter].
  rewrite upper_letter_is_AZ.
  destruct (isAsciiLetter (Js.toUpperCaseChar c)); [reflexivity | exact IH].
Qed.

Lemma upper_is_AZ_iff_letter (c : ascii) :
  Js.isAZ (Js.toUpperCaseChar c) = isAsciiLetter c.
Proof. each_char c; reflexivity. Qed.

Lemma letter_is_not_space (c : ascii) :
  isAsciiLetter c = true -> Js.isWhiteSpace c = false.
Proof. each_char c; intros H; solve [reflexivity | discriminate H]. Qed.

Lemma first_letter_trimStart (s : string) :
  first_letter (Js.trimStart s) = first_letter s.
Proof.
  induction s as [|c r IH]; [reflexivity|]. simpl.
  destruct (Js.isWhiteSpace c) eqn:Hw; [|reflexivity].
  destruct (isAsciiLetter c) eqn:Hl; [|exact IH].
  rewrite (letter_is_not_space c Hl) in Hw. discriminate Hw.
Qed.

Lemma first_letter_trimEnd (s : string) :
  first_letter (Js.trimEnd s) = first_letter s.
Proof.
  induction s as [|c r IH]; [reflexivity|].
  destruct (isAsciiLetter c) eqn:Hl.
  - rewrite trimEnd_cons by (apply letter_is_not_space, Hl).
    simpl. rewrite Hl. reflexivity.
  - cbn [Js.trimEnd first_letter]. rewrite Hl, <- IH.
    destruct (Js.trimEnd r) as [|c' r'].
    + destruct (Js.isWhiteSpace c); simpl; rewrite ?Hl; reflexivity.
    + cbn [first_letter]. rewrite Hl. reflexivity.
Qed.

(** Trimming plays no part in the result: [normalizeLetter] is the first
    ASCII letter of its argument, upper-cased. *)
Lemma normalizeLetter_first_letter (s : string) :
  normalizeLetter s = first_letter s.
Proof.
  unfold normalizeLetter. rewrite or_else_empty.
  rewrite <- (first_letter_trimStart s), <- (first_letter_trimEnd (Js.trimStart s)).
  fold (Js.trim s). generalize (Js.trim s). clear s.
  induction s as [|c r IH]; [reflexivity|].
  cbn [Js.toUpperCase Js.replace_outside first_letter].
  rewrite upper_is_AZ_iff_letter.
  destruct (isAsciiLetter c); [reflexivity | exact IH].
Qed.

(** ** The quiz widget *)

Lemma isCorrect_true (q : QuizQuestion) (opt : string) :
  QuizItem.isCorrect q opt = true <->
  normalizeLetter opt = normalizeLetter (q_answer q).
Proof. unfold QuizItem.isCorrect. apply bool_decide_eq_true. Qed.

Lemma correct_indices_from_spec (q : QuizQuestion) (opts : list string) :
  forall k i,
    In i (QuizItem.correct_indices_from q k opts) <->
    exists j opt, i = (k + j)%nat /\ opts !! j = Some opt
                  /\ QuizItem.isCorrect q opt = true.
Proof.
  induction opts as [|o r IH]; intros k i; simpl.
  - split; [tauto | intros (j & opt & _ & H & _); discriminate].
  - destruct (QuizItem.isCorrect q o) eqn:Ho; simpl; rewrite IH; split.
    + intros [<- | (j & opt & -> & Hj & Hc)].
      * exists 0%nat, o. repeat split; [lia | assumption].
      * exists (S j), opt. repeat split; [lia | assumption | assumption].
    + intros ([|j] & opt & -> & Hj & Hc).
      * left. lia.
      * right. exists j, opt. repeat split; [lia | assumption | assumption].
    + intros (j & opt & -> & Hj & Hc).
      exists (S j), opt. repeat split; [lia | assumption | assumption].
    + intros ([|j] & opt & -> & Hj & Hc).
      * simpl in Hj. injection Hj as ->. congruence.
      * exists j, opt. repeat split; [lia | assumption | assumption].
Qed.

Lemma handleClick_locked (q : QuizQuestion) (st : QuizItem.state) (opt : string) :
  Js.truthy_opt (QuizItem.selected st) = true ->
  QuizItem.handleClick q st opt = st.
Proof. intros H. unfold QuizItem.handleClick. rewrite H. reflexivity. Qed.

Lemma clicks_locked (q : QuizQuestion) (opts : list string) :
  forall st, Js.truthy_opt (QuizItem.selected st) = true ->
             QuizItem.clicks q st opts = st.
Proof.
  induction opts as [|o r IH]; intros st H; [reflexivity|].
  unfold QuizItem.clicks in *. simpl.
  rewrite handleClick_locked by assumption. apply IH, H.
Qed.

(** A first click on an option whose text is not empty locks the item:
    whatever is clicked afterwards, the selection stays and `onAnswered`
    has been called exactly once. *)
Lemma first_click_locks (q : QuizQuestion) (opt : string) (later : list string) :
  Js.truthy opt = true ->
  QuizItem.clicks q QuizItem.init (opt :: later) =
  {| QuizItem.selected := Some opt;
     QuizItem.answered_calls := [QuizItem.isCorrect q opt] |}.
Proof.
  intros H. unfold QuizItem.clicks. simpl.
  change (fold_left (QuizItem.handleClick q) later ?s) with (QuizItem.clicks q s later).
  apply clicks_locked. exact H.
Qed.

(** C6. [normalizeLetter] returns the first character of its argument
    trimmed, upper-cased and stripped of every character that is not an
    ASCII letter, and the empty string when no letter remains; the string
    "b) second choice" normalizes to "B". *)
Theorem normalizeLetter_follows_rule :
  (forall s : string, normalizeLetter s = first_letter_rule s)
  /\ (forall s : string,
        List.filter isAsciiLetter
          (list_ascii_of_string (Js.toUpperCase (Js.trim s))) = [] ->
        normalizeLetter s = "")
  /\ normalizeLetter "b) second choice" = "B".
Proof.
  assert (H : forall s, normalizeLetter s = first_letter_rule s).
  { intros s. unfold normalizeLetter, first_letter_rule.
    rewrite or_else_empty. apply strip_then_first. }
  split; [exact H|]. split; [|reflexivity].
  intros s Hs. rewrite H. unfold first_letter_rule. rewrite Hs. reflexivity.
Qed.

(** C1, as the code has it.  An option is judged correct exactly when the
    normalized text of the option itself equals the normalized stored
    answer, and the widget marks exactly those positions.  The position's
    label decides only for an option whose own text normalizes to that
    label, as "B) Queue" does at index 1. *)
Theorem isCorrect_compares_option_text
    (q : QuizQuestion) (i : nat) (opt : string) :
  q_options q !! i = Some opt ->
  (QuizItem.isCorrect q opt = true <->
     normalizeLetter opt = normalizeLetter (q_answer q))
  /\ (In i (QuizItem.correct_indices q) <-> QuizItem.isCorrect q opt = true)
  /\ (normalizeLetter opt = QuizItem.optionLabel i ->
      (QuizItem.isCorrect q opt = true <->
         normalizeLetter (q_answer q) = QuizItem.optionLabel i)).
Proof.
  intros Hi. split; [apply isCorrect_true|]. split.
  - unfold QuizItem.correct_indices. rewrite correct_indices_from_spec. split.
    + intros (j & opt' & -> & Hj & Hc). simpl in Hi. congruence.
    + intros Hc. exists i, opt. auto.
  - intros Hl. rewrite isCorrect_true, Hl. split; congruence.
Qed.

Lemma isCorrect_compares_option_text_witness :
  let q := {| q_question := "Which one is FIFO?";
              q_options := ["A) Stack"; "B) Queue"];
              q_answer := "b"; q_explanation := None |} in
  QuizItem.isCorrect q "B) Queue" = true
  /\ In 1%nat (QuizItem.correct_indices q)
  /\ normalizeLetter (q_answer q) = QuizItem.optionLabel 1.
Proof.
  intros q.
  destruct (isCorrect_compares_option_text q 1 "B) Queue" eq_refl)
    as (H1 & H2 & H3).
  assert (Hc : QuizItem.isCorrect q "B) Queue" = true) by (apply H1; reflexivity).
  split; [exact Hc|]. split; [exact (proj2 H2 Hc)|].
  apply (proj1 (H3 eq_refl)). exact Hc.
Defined.

(** C1, as the specification states it, fails: with the options "Stack"
    and "Queue" and the stored answer "b", the answer normalizes to the
    label of index 1, yet the option at index 1 is judged wrong, and no
    option at all is marked correct. *)
Lemma isCorrect_ignores_position :
  let q := {| q_question := "Which one is FIFO?";
              q_options := ["Stack"; "Queue"];
              q_answer := "b"; q_explanation := None |} in
  q_options q !! 1%nat = Some "Queue"
  /\ normalizeLetter (q_answer q) = QuizItem.optionLabel 1
  /\ QuizItem.isCorrect q "Queue" = false
  /\ QuizItem.correct_indices q = [].
Proof. repeat split. Qed.

(** C9 at the input where it breaks.  An option whose text is the empty
    string does not lock the item: after a click on it `selected` is `""`,
    which the guard [if (selected) return] reads as "nothing selected", so
    the next click changes the selection and calls `onAnswered` again. *)
Theorem empty_option_does_not_lock :
  let q := {| q_question := "Which one is FIFO?";
              q_options := [""; "Queue"];
              q_answer := "Q"; q_explanation := None |} in
  QuizItem.clicks q QuizItem.init [""] =
    {| QuizItem.selected := Some ""; QuizItem.answered_calls := [false] |}
  /\ QuizItem.clicks q QuizItem.init [""; "Queue"] =
    {| QuizItem.selected := Some "Queue";
       QuizItem.answered_calls := [false; true] |}.
Proof. split; reflexivity. Qed.

(** ** The quiz statistics *)

(** Splits a handler's body along its tests. *)
Ltac handler_cases :=
  repeat match goal with
         | |- context [if ?b then _ else _] => destruct b
         | |- context [match ?x with _ => _ end] => destruct x
         end.

Lemma step_keeps_stats_ok (w : Workspace.state) (e : Workspace.event) :
  stats_ok (Workspace.quizStats w) ->
  stats_ok (Workspace.quizStats (fst (Workspace.step w e))).
Proof.
  unfold stats_ok. intros H.
  destruct e; simpl;
    unfold Workspace.handleAsk, Workspace.handleSummarize, Workspace.handleQuiz,
      Workspace.handleCreateShareCode, Workspace.handleLoadShareCode,
      Workspace.shareCreate_send, Workspace.shareCreate_typeError;
    handler_cases; simpl; lia.
Qed.

Lemma run_keeps_stats_ok (es : list Workspace.event) :
  forall w, stats_ok (Workspace.quizStats w) ->
            stats_ok (Workspace.quizStats (fst (Workspace.run w es))).
Proof.
  induction es as [|e rest IH]; intros w H; [exact H|].
  simpl. pose proof (step_keeps_stats_ok w e H) as H1.
  destruct (Workspace.step w e) as [w1 out1]. simpl in H1.
  specialize (IH w1 H1).
  destruct (Workspace.run w1 rest) as [w2 out2]. exact IH.
Qed.

Lemma Math_round_percent (x : Q) :
  (0 <= x)%Q -> (x <= 100)%Q -> (0 <= Workspace.Math_round x <= 100)%Z.
Proof.
  intros H0 H100. unfold Workspace.Math_round. split.
  - change 0%Z with (Qfloor 0). apply Qfloor_resp_le.
    apply Qle_trans with x; [exact H0|].
    rewrite <- (Qplus_0_r x) at 1. apply Qplus_le_r. discriminate.
  - change 100%Z with (Qfloor (100 + (1 # 2))). apply Qfloor_resp_le.
    apply Qplus_le_l. exact H100.
Qed.

Section Accuracy.
Variable rnd : Q -> Q.
Hypothesis rnd_monotone : forall x y : Q, (x <= y)%Q -> (rnd x <= rnd y)%Q.
Hypothesis rnd_0 : (rnd 0 == 0)%Q.
Hypothesis rnd_1 : (rnd 1 == 1)%Q.
Hypothesis rnd_100 : (rnd 100 == 100)%Q.

Lemma rnd_between (lo hi x : Q) :
  (rnd lo == lo)%Q -> (rnd hi == hi)%Q ->
  (lo <= x)%Q -> (x <= hi)%Q -> (lo <= rnd x)%Q /\ (rnd x <= hi)%Q.
Proof.
  intros Hlo Hhi H1 H2. split.
  - rewrite <- Hlo. apply rnd_monotone, H1.
  - rewrite <- Hhi. apply rnd_monotone, H2.
Qed.

Lemma quizAccuracy_percent (s : Workspace.QuizStats) :
  stats_ok s ->
  (0 <= Workspace.quizAccuracy rnd s <= 100)%Z
  /\ (Workspace.answered s = 0%Z -> Workspace.quizAccuracy rnd s = 0%Z).
Proof.
  unfold stats_ok, Workspace.quizAccuracy. intros [Hc Ha].
  destruct (Z.ltb_spec 0 (Workspace.answered s)) as [Hpos | Hz].
  - split; [|lia].
    assert (Hq : (0 < inject_Z (Workspace.answered s))%Q).
    { change 0%Q with (inject_Z 0). rewrite <- Zlt_Qlt. exact Hpos. }
    destruct (rnd_between 0 1
                (inject_Z (Workspace.correct s) / inject_Z (Workspace.answered s))
                rnd_0 rnd_1) as [L U].
    { apply Qle_shift_div_l; [exact Hq|]. rewrite Qmult_0_l.
      change 0%Q with (inject_Z 0). rewrite <- Zle_Qle. exact Hc. }
    { apply Qle_shift_div_r; [exact Hq|]. rewrite Qmult_1_l.
      rewrite <- Zle_Qle. exact Ha. }
    set (r := rnd (inject_Z (Workspace.correct s) / inject_Z (Workspace.answered s))) in *.
    destruct (rnd_between 0 100 (r * 100) rnd_0 rnd_100) as [L' U'].
    { apply Qmult_le_0_compat; [exact L | discriminate]. }
    { change 100%Q with (1 * 100)%Q at 2. apply Qmult_le_compat_r; [exact U | discriminate]. }
    apply Math_round_percent; assumption.
  - split; [lia | reflexivity].
Qed.

End Accuracy.

(** C8. From the first render on, after any sequence of events of the
    Workspace (answers, resets, quiz generation, loads, and everything
    else), `quizStats` satisfies 0 <= correct <= answered; the accuracy
    shown is then an integer from 0 to 100, and it is 0 when nothing has
    been answered.  [rnd] is the rounding of an exact quotient or product to
    a double: monotone, and exact at 0, 1 and 100. *)
Theorem quizStats_invariant
    (rnd : Q -> Q)
    (rnd_monotone : forall x y : Q, (x <= y)%Q -> (rnd x <= rnd y)%Q)
    (rnd_0 : (rnd 0 == 0)%Q) (rnd_1 : (rnd 1 == 1)%Q)
    (rnd_100 : (rnd 100 == 100)%Q)
    (doc : option string) (es : list Workspace.event) :
  let s := Workspace.quizStats (fst (Workspace.run (Workspace.init doc) es)) in
  (0 <= Workspace.correct s <= Workspace.answered s)%Z
  /\ (0 <= Workspace.quizAccuracy rnd s <= 100)%Z
  /\ (Workspace.answered s = 0%Z -> Workspace.quizAccuracy rnd s = 0%Z).
Proof.
  intros s.
  assert (H : stats_ok s).
  { apply run_keeps_stats_ok. unfold stats_ok. simpl. lia. }
  split; [exact H|].
  apply quizAccuracy_percent; assumption.
Qed.

Lemma quizStats_invariant_witness :
  let s := Workspace.quizStats
             (fst (Workspace.run (Workspace.init (Some "doc-1"))
                     [Workspace.QuizAnswered true; Workspace.QuizAnswered false;
                      Workspace.QuizAnswered true])) in
  (0 <= Workspace.correct s <= Workspace.answered s)%Z
  /\ (0 <= Workspace.quizAccuracy (fun x => x) s <= 100)%Z
  /\ (Workspace.answered s = 0%Z -> Workspace.quizAccuracy (fun x => x) s = 0%Z).
Proof.
  exact (quizStats_invariant (fun x => x) (fun x y H => H)
           (Qeq_refl 0) (Qeq_refl 1) (Qeq_refl 100) (Some "doc-1")
           [Workspace.QuizAnswered true; Workspace.QuizAnswered false;
            Workspace.QuizAnswered true]).
Defined.

(** ** Loading by code *)

Lemma digit_is_not_space (c : ascii) :
  Js.isDigit c = true -> Js.isWhiteSpace c = false.
Proof. each_char c; intros H; solve [reflexivity | discriminate H]. Qed.

Lemma trimEnd_digits (s : string) :
  forallb Js.isDigit (list_ascii_of_string s) = true -> Js.trimEnd s = s.
Proof.
  induction s as [|c r IH]; [reflexivity|].
  cbn [list_ascii_of_string forallb]. intros [Hc Hr]%andb_true_iff.
  rewrite trimEnd_cons by (apply digit_is_not_space, Hc).
  rewrite IH by exact Hr. reflexivity.
Qed.

Lemma trim_digits (s : string) :
  forallb Js.isDigit (list_ascii_of_string s) = true -> Js.trim s = s.
Proof.
  intros H. unfold Js.trim.
  assert (Hs : Js.trimStart s = s).
  { destruct s as [|c r]; [reflexivity|].
    cbn [list_ascii_of_string forallb] in H.
    apply andb_true_iff in H as [Hc _].
    simpl. rewrite (digit_is_not_space c Hc). reflexivity. }
  rewrite Hs. apply trimEnd_digits, H.
Qed.

Lemma only_digits_left (value : string) :
  forallb Js.isDigit
    (list_ascii_of_string (Js.replace_outside Js.isDigit value)) = true.
Proof.
  induction value as [|c r IH]; [reflexivity|].
  simpl. destruct (Js.isDigit c) eqn:Hc; [|exact IH].
  cbn [list_ascii_of_string forallb]. rewrite Hc. exact IH.
Qed.

Lemma load_guard (w : Workspace.state) (r : Api.reply) :
  String.length (Js.trim (Workspace.shareCodeInput w)) <> 6%nat ->
  load_rejected w r.
Proof.
  intros Hlen. unfold load_rejected, Workspace.handleLoadShareCode.
  rewrite or_else_empty.
  destruct (Js.truthy (Js.trim (Workspace.shareCodeInput w))); simpl; [|left; reflexivity].
  unfold Js.length.
  destruct (Nat.eqb_spec (String.length (Js.trim (Workspace.shareCodeInput w))) 6);
    [contradiction | right; reflexivity].
Qed.

Lemma step_keeps_code_digits (w : Workspace.state) (e : Workspace.event) :
  forallb Js.isDigit (list_ascii_of_string (Workspace.shareCodeInput w)) = true ->
  forallb Js.isDigit
    (list_ascii_of_string (Workspace.shareCodeInput (fst (Workspace.step w e)))) = true.
Proof.
  intros H.
  destruct e; simpl;
    unfold Workspace.handleAsk, Workspace.handleSummarize, Workspace.handleQuiz,
      Workspace.handleCreateShareCode, Workspace.handleLoadShareCode,
      Workspace.shareCreate_send, Workspace.shareCreate_typeError;
    handler_cases; simpl; solve [exact H | apply only_digits_left].
Qed.

Lemma run_keeps_code_digits (es : list Workspace.event) :
  forall w,
    forallb Js.isDigit (list_ascii_of_string (Workspace.shareCodeInput w)) = true ->
    forallb Js.isDigit
      (list_ascii_of_string (Workspace.shareCodeInput (fst (Workspace.run w es)))) = true.
Proof.
  induction es as [|e rest IH]; intros w H; [exact H|].
  simpl. pose proof (step_keeps_code_digits w e H) as H1.
  destruct (Workspace.step w e) as [w1 out1]. simpl in H1.
  specialize (IH w1 H1).
  destruct (Workspace.run w1 rest) as [w2 out2]. exact IH.
Qed.

Lemma run_snoc (es : list Workspace.event) (e : Workspace.event) :
  forall w,
    fst (Workspace.run w (es ++ [e]))
    = fst (Workspace.step (fst (Workspace.run w es)) e).
Proof.
  induction es as [|x rest IH]; intros w; simpl.
  - destruct (Workspace.step w e) as [w1 out1]. reflexivity.
  - destruct (Workspace.step w x) as [w1 out1]. specialize (IH w1).
    destruct (Workspace.run w1 (rest ++ [e])) as [w2 out2].
    destruct (Workspace.run w1 rest) as [w3 out3]. exact IH.
Qed.

(** A state the Workspace can reach from its first render is rejected by
    the guard of [handleLoadShareCode], with an alert and without a
    request, when its code cell is not a code. *)
Lemma reached_guard (doc : option string) (es : list Workspace.event)
    (r : Api.reply) :
  let w := fst (Workspace.run (Workspace.init doc) es) in
  ShareService.is_code (Js.trim (Workspace.shareCodeInput w)) = false ->
  load_rejected w r
  /\ Workspace.looked_up (snd (Workspace.handleLoadShareCode w r)) = [].
Proof.
  intros w Hcode.
  assert (L : load_rejected w r).
  { apply load_guard. intros Hlen.
    assert (Hd : forallb Js.isDigit
                   (list_ascii_of_string (Workspace.shareCodeInput w)) = true)
      by (apply run_keeps_code_digits; reflexivity).
    rewrite trim_digits in Hcode, Hlen by exact Hd.
    unfold ShareService.is_code in Hcode.
    rewrite Hd, Hlen in Hcode. discriminate Hcode. }
  split; [exact L|]. destruct L as [-> | ->]; reflexivity.
Qed.

(** C3.  Loading by code rejects every input that is not exactly 6 ASCII
    digits after trimming: in every state the Workspace can reach from its
    first render, when the trimmed content of the code field is not 6
    digits, [handleLoadShareCode] stops with an alert that names the
    format and sends no `/share/get` request, so the share store is not
    contacted.  The guard of the handler tests the length, and the field
    keeps digits only, whatever is entered.  In particular "12", "abcdef"
    and "1234567", entered in the field at any moment, are rejected
    without a request. *)
Theorem load_rejects_malformed_codes
    (doc : option string) (es : list Workspace.event) (r : Api.reply) :
  (let w := fst (Workspace.run (Workspace.init doc) es) in
   ShareService.is_code (Js.trim (Workspace.shareCodeInput w)) = false ->
   load_rejected w r
   /\ Workspace.looked_up (snd (Workspace.handleLoadShareCode w r)) = [])
  /\ (forall v, In v ["12"; "abcdef"; "1234567"] ->
      let w := fst (Workspace.run (Workspace.init doc)
                      (es ++ [Workspace.TypeCode v])) in
      ShareService.is_code (Js.trim (Workspace.shareCodeInput w)) = false
      /\ load_rejected w r
      /\ Workspace.looked_up (snd (Workspace.handleLoadShareCode w r)) = []).
Proof.
  split; [apply reached_guard|].
  intros v Hv w.
  assert (Hcode : ShareService.is_code (Js.trim (Workspace.shareCodeInput w)) = false).
  { subst w. rewrite run_snoc. simpl.
    destruct Hv as [<- | [<- | [<- | []]]]; reflexivity. }
  split; [exact Hcode|]. exact (reached_guard doc _ r Hcode).
Qed.

Lemma load_rejects_malformed_codes_witness :
  let typed s := fst (Workspace.run (Workspace.init None)
                        [Workspace.TypeCode "483920"; Workspace.TypeCode s]) in
  let r := Api.Returned empty_body in
  (Workspace.shareCodeInput (typed "12") = "12"
   /\ load_rejected (typed "12") r
   /\ Workspace.looked_up (snd (Workspace.handleLoadShareCode (typed "12") r)) = [])
  /\ (Workspace.shareCodeInput (typed "abcdef") = ""
      /\ load_rejected (typed "abcdef") r
      /\ Workspace.looked_up
           (snd (Workspace.handleLoadShareCode (typed "abcdef") r)) = [])
  /\ (Workspace.shareCodeInput (typed "1234567") = "1234567"
      /\ load_rejected (typed "1234567") r
      /\ Workspace.looked_up
           (snd (Workspace.handleLoadShareCode (typed "1234567") r)) = []).
Proof.
  intros typed r.
  split; [|split]; (split; [reflexivity|]).
  - exact (proj1 (load_rejects_malformed_codes None
             [Workspace.TypeCode "483920"; Workspace.TypeCode "12"] r) eq_refl).
  - exact (proj1 (load_rejects_malformed_codes None
             [Workspace.TypeCode "483920"; Workspace.TypeCode "abcdef"] r) eq_refl).
  - exact (proj2 (proj2 (load_rejects_malformed_codes None
             [Workspace.TypeCode "483920"] r) "1234567"
             ltac:(right; right; left; reflexivity))).
Defined.

(** ** What the create path submits *)

Lemma submitted_app (a b : list Api.effect) :
  Workspace.submitted (a ++ b) = (Workspace.submitted a ++ Workspace.submitted b)%list.
Proof.
  induction a as [|x a IH]; [reflexivity|].
  destruct x; simpl; rewrite IH; reflexivity.
Qed.

Lemma submitted_send (ty : string) (c : ShareContent) (w0 : Workspace.state)
    (r : Api.reply) :
  Workspace.submitted (snd (Workspace.shareCreate_send ty c w0 r)) = [(ty, c)].
Proof. unfold Workspace.shareCreate_send. handler_cases; reflexivity. Qed.

(** Only [handleCreateShareCode] submits, and at most one payload a call. *)
Lemma submitted_step (w : Workspace.state) (e : Workspace.event)
    (p : string * ShareContent) :
  In p (Workspace.submitted (snd (Workspace.step w e))) ->
  exists ty r, e = Workspace.CreateShare ty r
               /\ Workspace.submitted
                    (snd (Workspace.handleCreateShareCode ty w r)) = [p].
Proof.
  destruct e; simpl;
    try (unfold Workspace.handleAsk, Workspace.handleSummarize,
           Workspace.handleQuiz, Workspace.handleLoadShareCode;
         handler_cases; simpl; tauto).
  intros H. exists ty, r. split; [reflexivity|].
  revert H. unfold Workspace.handleCreateShareCode, Workspace.shareCreate_typeError.
  handler_cases; rewrite ?submitted_send; simpl; intros H;
    solve [tauto | destruct H as [<- | []]; reflexivity].
Qed.

Lemma ask_payload (w : Workspace.state) (r : Api.reply) (ty : string)
    (c : ShareContent) :
  Workspace.submitted (snd (Workspace.handleCreateShareCode "ask" w r)) = [(ty, c)] ->
  ty = "ask"
  /\ c_question c = Some (Workspace.question w)
  /\ exists a, Workspace.answer w = Some a /\ c_answer c = Some a
               /\ Js.truthy (Js.trim a) = true.
Proof.
  unfold Workspace.handleCreateShareCode, Workspace.shareCreate_typeError.
  cbn [String.eqb Ascii.eqb Bool.eqb].
  destruct (Workspace.answer w) as [a|]; [|discriminate].
  destruct (Js.truthy (Js.trim a)) eqn:Ha; simpl; [|discriminate].
  rewrite submitted_send. intros [= <- <-]. simpl.
  rewrite !or_else_empty.
  split; [reflexivity|]. split; [reflexivity|]. exists a. auto.
Qed.

Lemma create_type (ty ty' : string) (w : Workspace.state) (r : Api.reply)
    (c : ShareContent) :
  Workspace.submitted (snd (Workspace.handleCreateShareCode ty w r)) = [(ty', c)] ->
  ty' = ty.
Proof.
  unfold Workspace.handleCreateShareCode, Workspace.shareCreate_typeError.
  handler_cases; rewrite ?submitted_send; simpl; congruence.
Qed.

Lemma run_cons_fst (w : Workspace.state) (e : Workspace.event)
    (es : list Workspace.event) :
  fst (Workspace.run w (e :: es))
  = fst (Workspace.run (fst (Workspace.step w e)) es).
Proof.
  simpl. destruct (Workspace.step w e) as [w1 out1]. simpl.
  destruct (Workspace.run w1 es) as [w2 out2]. reflexivity.
Qed.

(** A payload submitted in a run was submitted by one call of
    [handleCreateShareCode], on the state the events before it left. *)
Lemma submitted_run_split (es : list Workspace.event) :
  forall (w : Workspace.state) (p : string * ShareContent),
    In p (Workspace.submitted (snd (Workspace.run w es))) ->
    exists es1 ty r es2,
      es = (es1 ++ Workspace.CreateShare ty r :: es2)%list
      /\ Workspace.submitted
           (snd (Workspace.handleCreateShareCode ty
                   (fst (Workspace.run w es1)) r)) = [p].
Proof.
  induction es as [|e rest IH]; intros w p; simpl; [intros []|].
  destruct (Workspace.step w e) as [w1 out1] eqn:Hs.
  specialize (IH w1 p). destruct (Workspace.run w1 rest) as [w2 out2].
  simpl in *. rewrite submitted_app, in_app_iff. intros [H | H].
  - replace out1 with (snd (Workspace.step w e)) in H by (rewrite Hs; reflexivity).
    apply submitted_step in H as (ty & r & -> & H).
    exists [], ty, r, rest. split; [reflexivity | exact H].
  - destruct (IH H) as (es1 & ty & r & es2 & -> & Hp).
    exists (e :: es1), ty, r, es2. split; [reflexivity|].
    rewrite run_cons_fst, Hs. exact Hp.
Qed.

(** C4, as the code has it.  Every `ask` payload the Workspace submits, in
    any run from its first render, was built by one call of
    [handleCreateShareCode("ask")]; with [w] the state the events before
    that call left: its `question` is the string the question box holds
    in [w], whatever that is, and its `answer` is the string the answer
    cell holds in [w], which is not empty after trimming. *)
Theorem ask_payload_is_box_and_answer
    (doc : option string) (es : list Workspace.event) (c : ShareContent) :
  In ("ask", c) (Workspace.submitted (snd (Workspace.run (Workspace.init doc) es))) ->
  exists es1 r es2,
    es = (es1 ++ Workspace.CreateShare "ask" r :: es2)%list
    /\ (let w := fst (Workspace.run (Workspace.init doc) es1) in
        c_question c = Some (Workspace.question w)
        /\ exists a, Workspace.answer w = Some a
                     /\ c_answer c = Some a
                     /\ Js.truthy (Js.trim a) = true).
Proof.
  intros H. apply submitted_run_split in H as (es1 & ty & r & es2 & -> & H).
  pose proof (create_type _ _ _ _ _ H) as <-.
  apply ask_payload in H as (_ & Hq & Ha).
  exists es1, r, es2. split; [reflexivity|]. split; [exact Hq | exact Ha].
Qed.

Lemma ask_payload_is_box_and_answer_witness :
  let es := [Workspace.TypeQuestion "What is a stack?";
             Workspace.Ask (Api.Returned (answer_body "A LIFO structure."));
             Workspace.TypeQuestion "And a queue?";
             Workspace.CreateShare "ask" (Api.Returned (code_body "483920"))] in
  let c := {| c_question := Some "And a queue?";
              c_answer := Some "A LIFO structure.";
              c_focus := None; c_summary := None; c_mark_type := None;
              c_quiz := None |} in
  In ("ask", c)
     (Workspace.submitted (snd (Workspace.run (Workspace.init (Some "doc-1")) es)))
  /\ exists es1 r es2,
       es = (es1 ++ Workspace.CreateShare "ask" r :: es2)%list
       /\ (let w := fst (Workspace.run (Workspace.init (Some "doc-1")) es1) in
           c_question c = Some (Workspace.question w)
           /\ exists a, Workspace.answer w = Some a
                        /\ c_answer c = Some a
                        /\ Js.truthy (Js.trim a) = true).
Proof.
  intros es c.
  assert (H : In ("ask", c)
                (Workspace.submitted
                   (snd (Workspace.run (Workspace.init (Some "doc-1")) es))))
    by (left; reflexivity).
  split; [exact H | exact (ask_payload_is_box_and_answer (Some "doc-1") es c H)].
Defined.

(** C4, as the specification states it, fails: after an answer has come
    back the question box can be emptied, and the payload then submitted
    has an empty `question`. *)
Lemma ask_payload_with_empty_question :
  Workspace.submitted
    (snd (Workspace.run (Workspace.init (Some "doc-1"))
            [Workspace.TypeQuestion "What is a stack?";
             Workspace.Ask (Api.Returned (answer_body "A LIFO structure."));
             Workspace.TypeQuestion "";
             Workspace.CreateShare "ask" (Api.Returned (code_body "483920"))]))
  = [("ask", {| c_question := Some ""; c_answer := Some "A LIFO structure.";
                c_focus := None; c_summary := None; c_mark_type := None;
                c_quiz := None |})]
  /\ Js.truthy (Js.trim "") = false.
Proof. split; reflexivity. Qed.

Lemma mark_literal_is_mark (m : Workspace.mark) : is_mark (Workspace.mark_literal m).
Proof. unfold is_mark. destruct m; simpl; auto. Qed.

Lemma mark_ok_or_else (o : option string) (m : string) :
  mark_ok o = true -> is_mark m -> is_mark (Js.opt_or_else o m).
Proof.
  destruct o as [s|]; simpl; [|auto].
  unfold Js.or_else. destruct (Js.truthy s); simpl; [|auto].
  intros H _. unfold is_mark.
  apply orb_true_iff in H as [H | H]; [|apply String.eqb_eq in H; auto].
  apply orb_true_iff in H as [H | H]; apply String.eqb_eq in H; auto.
Qed.

Lemma step_keeps_marks_ok (w : Workspace.state) (e : Workspace.event) :
  reply_marks_ok e = true -> marks_ok w -> marks_ok (fst (Workspace.step w e)).
Proof.
  intros Hr [Hm Hu].
  assert (H2 : is_mark "2") by (unfold is_mark; auto).
  destruct e; simpl in Hr |- *;
    unfold Workspace.handleAsk, Workspace.handleSummarize, Workspace.handleQuiz,
      Workspace.handleCreateShareCode, Workspace.handleLoadShareCode,
      Workspace.shareCreate_send, Workspace.shareCreate_typeError;
    handler_cases; (split; simpl; [|intros m0 Hm0]);
    try assumption; try discriminate;
    try (apply Hu; assumption);
    try apply mark_literal_is_mark;
    try (injection Hm0 as <-);
    try (apply mark_ok_or_else; assumption).
Qed.

Lemma summary_payload (w : Workspace.state) (r : Api.reply) (ty : string)
    (c : ShareContent) :
  Workspace.submitted (snd (Workspace.handleCreateShareCode "summary" w r)) = [(ty, c)] ->
  c_mark_type c =
    Some (Js.opt_or_else (Workspace.summaryMarkTypeUsed w) (Workspace.markType w))
  /\ exists s, Workspace.summary w = Some s /\ c_summary c = Some s
               /\ Js.truthy (Js.trim s) = true.
Proof.
  unfold Workspace.handleCreateShareCode, Workspace.shareCreate_typeError.
  cbn [String.eqb Ascii.eqb Bool.eqb].
  destruct (Workspace.summary w) as [s|]; [|discriminate].
  destruct (Js.truthy (Js.trim s)) eqn:Hs; simpl; [|discriminate].
  rewrite submitted_send. intros [= <- <-]. simpl.
  rewrite !or_else_empty. split; [reflexivity|]. exists s. auto.
Qed.

Lemma held_mark_is_mark (w : Workspace.state) :
  marks_ok w ->
  is_mark (Js.opt_or_else (Workspace.summaryMarkTypeUsed w) (Workspace.markType w)).
Proof.
  intros [Hm Hu]. destruct (Workspace.summaryMarkTypeUsed w) as [m|]; simpl; [|exact Hm].
  unfold Js.or_else. destruct (Js.truthy m); [apply Hu; reflexivity | exact Hm].
Qed.

Lemma run_keeps_marks_ok (es : list Workspace.event) :
  forall w,
    marks_ok w -> forallb reply_marks_ok es = true ->
    marks_ok (fst (Workspace.run w es)).
Proof.
  induction es as [|e rest IH]; intros w Hw Hes; [exact Hw|].
  simpl in Hes. apply andb_true_iff in Hes as [He Hrest].
  rewrite run_cons_fst. apply IH; [|exact Hrest].
  apply step_keeps_marks_ok; assumption.
Qed.

Lemma literal_or_returned_more (l l' : list string) (m : string) :
  literal_or_returned l m -> literal_or_returned (l ++ l') m.
Proof.
  unfold literal_or_returned. intros [H | H]; [left; exact H|].
  right. apply in_or_app. left. exact H.
Qed.

Lemma or_else_from (o : option string) (m : string) (l : list string) :
  literal_or_returned l m ->
  literal_or_returned (l ++ option_list o) (Js.opt_or_else o m).
Proof.
  intros Hm. destruct o as [s|]; simpl.
  - unfold Js.or_else. destruct (Js.truthy s).
    + right. apply in_or_app. right. left. reflexivity.
    + apply literal_or_returned_more, Hm.
  - apply literal_or_returned_more, Hm.
Qed.

(** The mark cells are as they were, or hold what they held. *)
Ltac marks_kept Hm Hu :=
  split; simpl;
  [apply literal_or_returned_more, Hm
  | intros ? Hm0; apply literal_or_returned_more, Hu, Hm0].

(** The two mark cells hold literals of the selector or values the
    backend returned: every handler keeps it so. *)
Lemma step_keeps_marks_from (l : list string) (w : Workspace.state)
    (e : Workspace.event) :
  marks_from l w ->
  marks_from (l ++ returned_marks_of e) (fst (Workspace.step w e)).
Proof.
  intros [Hm Hu].
  assert (H2 : forall l', literal_or_returned l' "2")
    by (intros l'; left; unfold is_mark; auto).
  destruct e; simpl; try solve [marks_kept Hm Hu].
  - (* ClickMark *)
    split; simpl; [left; apply mark_literal_is_mark|].
    intros m0 Hm0. apply literal_or_returned_more, Hu, Hm0.
  - (* Ask *)
    unfold Workspace.handleAsk. handler_cases; marks_kept Hm Hu.
  - (* Summarize: the mark recorded is the reply's, or the one selected *)
    unfold Workspace.handleSummarize.
    destruct (Workspace.doc_selected w); simpl; [|marks_kept Hm Hu].
    destruct r as [msg | d]; simpl;
      [|destruct (Api.status_ok d); simpl];
      (split; simpl; [apply literal_or_returned_more, Hm|]);
      try discriminate.
    intros m0 [= <-]. apply or_else_from, Hm.
  - (* GenerateQuiz *)
    unfold Workspace.handleQuiz. handler_cases; marks_kept Hm Hu.
  - (* CreateShare *)
    unfold Workspace.handleCreateShareCode, Workspace.shareCreate_send,
      Workspace.shareCreate_typeError.
    handler_cases; marks_kept Hm Hu.
  - (* LoadShare: a loaded summary sets both cells to its mark, or to "2" *)
    unfold Workspace.handleLoadShareCode.
    destruct r as [msg | d]; simpl;
      [|destruct (Api.content d) as [c0|]; simpl];
      handler_cases; try solve [marks_kept Hm Hu].
    split; simpl; [|intros m0 [= <-]]; apply or_else_from, H2.
Qed.

Lemma run_keeps_marks_from (es : list Workspace.event) :
  forall l w,
    marks_from l w ->
    marks_from (l ++ returned_marks es) (fst (Workspace.run w es)).
Proof.
  induction es as [|e rest IH]; intros l w Hw.
  - simpl. rewrite app_nil_r. exact Hw.
  - rewrite run_cons_fst. cbn [returned_marks flat_map].
    rewrite app_assoc. apply IH, step_keeps_marks_from, Hw.
Qed.

(** C5, as the code has it.  Every `summary` payload the Workspace submits,
    in any run from its first render, was built by one call of
    [handleCreateShareCode("summary")]; with [w] the state the events
    before that call left, its `mark_type` is
    [summaryMarkTypeUsed || markType] as [w] holds them: the mark type
    recorded with the summary on display, and the mark-type cell when none
    is recorded.  The client checks neither.  The value is one of the three
    literals of the selector or a `mark_type` the backend returned before
    the call, in a `/summarize` reply or in the content of a `/share/get`
    reply; so it is one of "2", "5" and "15" when every `mark_type` the
    backend returned before the call is missing, empty or one of the
    three. *)
Theorem summary_payload_mark_type
    (doc : option string) (es : list Workspace.event) (c : ShareContent) :
  In ("summary", c)
     (Workspace.submitted (snd (Workspace.run (Workspace.init doc) es))) ->
  exists es1 r es2,
    es = (es1 ++ Workspace.CreateShare "summary" r :: es2)%list
    /\ (let w := fst (Workspace.run (Workspace.init doc) es1) in
        let m := Js.opt_or_else (Workspace.summaryMarkTypeUsed w)
                   (Workspace.markType w) in
        c_mark_type c = Some m
        /\ ((m = "2" \/ m = "5" \/ m = "15") \/ In m (returned_marks es1))
        /\ (forallb reply_marks_ok es1 = true ->
            m = "2" \/ m = "5" \/ m = "15")).
Proof.
  intros H. apply submitted_run_split in H as (es1 & ty & r & es2 & -> & H).
  pose proof (create_type _ _ _ _ _ H) as <-.
  apply summary_payload in H as [Hmk _].
  exists es1, r, es2. split; [reflexivity|].
  assert (I0 : marks_ok (Workspace.init doc))
    by (split; simpl; [unfold is_mark; auto | discriminate]).
  assert (F0 : marks_from [] (Workspace.init doc))
    by (split; simpl; [left; unfold is_mark; auto | discriminate]).
  cbv zeta. split; [exact Hmk|]. split.
  - pose proof (run_keeps_marks_from es1 [] (Workspace.init doc) F0) as [F1 F2].
    simpl in F1, F2.
    destruct (Workspace.summaryMarkTypeUsed
                (fst (Workspace.run (Workspace.init doc) es1))) as [u|]; simpl;
      [|exact F1].
    unfold Js.or_else. destruct (Js.truthy u); [apply F2; reflexivity | exact F1].
  - intros Hes. apply held_mark_is_mark, run_keeps_marks_ok; assumption.
Qed.

Lemma summary_payload_mark_type_witness :
  let es := [Workspace.ClickMark Workspace.Mark5;
             Workspace.Summarize
               (Api.Returned (summary_body "Stacks are LIFO; queues are FIFO." "15"));
             Workspace.ClickMark Workspace.Mark2;
             Workspace.CreateShare "summary" (Api.Returned (code_body "483920"))] in
  let c := {| c_question := None; c_answer := None; c_focus := Some "";
              c_summary := Some "Stacks are LIFO; queues are FIFO.";
              c_mark_type := Some "15"; c_quiz := None |} in
  In ("summary", c)
     (Workspace.submitted (snd (Workspace.run (Workspace.init (Some "doc-1")) es)))
  /\ exists es1 r es2,
       es = (es1 ++ Workspace.CreateShare "summary" r :: es2)%list
       /\ (let w := fst (Workspace.run (Workspace.init (Some "doc-1")) es1) in
           let m := Js.opt_or_else (Workspace.summaryMarkTypeUsed w)
                      (Workspace.markType w) in
           c_mark_type c = Some m
           /\ ((m = "2" \/ m = "5" \/ m = "15") \/ In m (returned_marks es1))
           /\ (forallb reply_marks_ok es1 = true ->
               m = "2" \/ m = "5" \/ m = "15")).
Proof.
  intros es c.
  assert (H : In ("summary", c)
                (Workspace.submitted
                   (snd (Workspace.run (Workspace.init (Some "doc-1")) es))))
    by (left; reflexivity).
  split; [exact H|].
  exact (summary_payload_mark_type (Some "doc-1") es c H).
Defined.

(** C5, as the specification states it, fails: the backend answers
    `/summarize` with `mark_type: "7"`, the client keeps it as the mark
    type used, and the payload it then submits carries "7". *)
Lemma summary_payload_with_mark_7 :
  Workspace.submitted
    (snd (Workspace.run (Workspace.init (Some "doc-1"))
            [Workspace.Summarize
               (Api.Returned (summary_body "Stacks are LIFO; queues are FIFO." "7"));
             Workspace.CreateShare "summary" (Api.Returned (code_body "483920"))]))
  = [("summary",
      {| c_question := None; c_answer := None; c_focus := Some "";
         c_summary := Some "Stacks are LIFO; queues are FIFO.";
         c_mark_type := Some "7"; c_quiz := None |})].
Proof. reflexivity. Qed.

(** ** The stored session *)

Lemma clear_removes_both (ls : gmap string string) :
  Storage.clearAuthFromStorage ls !! Storage.TOKEN_KEY = None
  /\ Storage.clearAuthFromStorage ls !! Storage.USER_KEY = None
  /\ forall k, k <> Storage.TOKEN_KEY -> k <> Storage.USER_KEY ->
               Storage.clearAuthFromStorage ls !! k = ls !! k.
Proof.
  unfold Storage.clearAuthFromStorage, Storage.removeItem.
  split; [|split].
  - rewrite lookup_delete_ne by discriminate. apply lookup_delete_eq.
  - apply lookup_delete_eq.
  - intros k Ht Hu. rewrite !lookup_delete_ne by congruence. reflexivity.
Qed.

(** What [loadAuthFromStorage] does on a storage whose accesses
    succeed. *)
Lemma load_cases_open
    (parse : string -> option Storage.json) (ls : gmap string string) :
  ((Js.truthy_opt (ls !! Storage.TOKEN_KEY) = false
    \/ Js.truthy_opt (ls !! Storage.USER_KEY) = false) ->
   Storage.loadAuthFromStorage parse ls = (Storage.no_auth, ls))
  /\ (forall t u,
        ls !! Storage.TOKEN_KEY = Some t -> ls !! Storage.USER_KEY = Some u ->
        t <> "" -> u <> "" ->
        match parse u with
        | None =>
            Storage.loadAuthFromStorage parse ls
            = (Storage.no_auth, Storage.clearAuthFromStorage ls)
        | Some v =>
            Storage.loadAuthFromStorage parse ls
            = ({| Storage.token := Some t; Storage.user := v |}, ls)
        end).
Proof.
  unfold Storage.loadAuthFromStorage, Storage.getItem. split.
  - intros [H | H]; rewrite H; simpl; [reflexivity|].
    rewrite orb_true_r. reflexivity.
  - intros t u Ht Hu Hne_t Hne_u. rewrite Ht, Hu.
    destruct t as [|ct t']; [congruence|]. destruct u as [|cu u']; [congruence|].
    simpl. destruct (parse (String cu u')) as [v|]; reflexivity.
Qed.

(** On a storage that can be accessed, [loadAuthFromStorage] returns, and
    what it returns and leaves is what it does when no access throws. *)
Lemma browser_load_open
    (parse : string -> option Storage.json) (ls : gmap string string) :
  Browser.loadAuthFromStorage parse (Browser.Open ls)
  = (Browser.Return (fst (Storage.loadAuthFromStorage parse ls)),
     Browser.Open (snd (Storage.loadAuthFromStorage parse ls))).
Proof.
  unfold Browser.loadAuthFromStorage, Browser.load_try, Browser.getItem,
    Storage.loadAuthFromStorage, Storage.getItem.
  destruct (negb (Js.truthy_opt (ls !! Storage.TOKEN_KEY))
            || negb (Js.truthy_opt (ls !! Storage.USER_KEY))); [reflexivity|].
  destruct (parse (default "" (ls !! Storage.USER_KEY))); reflexivity.
Qed.

(** C10, as the code has it.  On a storage that can be accessed,
    [loadAuthFromStorage] returns, whatever `JSON.parse` does.  When the
    token or the user string is absent or empty, it returns the empty
    session and leaves the storage as it is.  When both are non-empty and
    the user string does not parse, it returns the empty session and
    removes the two keys, and only them.  Otherwise it returns the stored
    token with the parsed user and leaves the storage as it is.  The
    function is not total: on a storage whose accesses throw, the read in
    the `try` throws, the `catch` calls [clearAuthFromStorage], which
    throws in turn, and [loadAuthFromStorage] throws. *)
Theorem loadAuthFromStorage_cases (parse : string -> option Storage.json) :
  Browser.loadAuthFromStorage parse Browser.Blocked
  = (Browser.Throw Browser.SecurityError, Browser.Blocked)
  /\ forall ls : gmap string string,
       ((Js.truthy_opt (ls !! Storage.TOKEN_KEY) = false
         \/ Js.truthy_opt (ls !! Storage.USER_KEY) = false) ->
        Browser.loadAuthFromStorage parse (Browser.Open ls)
        = (Browser.Return Storage.no_auth, Browser.Open ls))
       /\ (forall t u,
             ls !! Storage.TOKEN_KEY = Some t -> ls !! Storage.USER_KEY = Some u ->
             t <> "" -> u <> "" ->
             match parse u with
             | None =>
                 exists ls',
                   Browser.loadAuthFromStorage parse (Browser.Open ls)
                   = (Browser.Return Storage.no_auth, Browser.Open ls')
                   /\ ls' !! Storage.TOKEN_KEY = None
                   /\ ls' !! Storage.USER_KEY = None
                   /\ forall k, k <> Storage.TOKEN_KEY -> k <> Storage.USER_KEY ->
                                ls' !! k = ls !! k
             | Some v =>
                 Browser.loadAuthFromStorage parse (Browser.Open ls)
                 = (Browser.Return {| Storage.token := Some t; Storage.user := v |},
                    Browser.Open ls)
             end).
Proof.
  split; [reflexivity|]. intros ls.
  destruct (load_cases_open parse ls) as [H1 H2]. split.
  - intros H. rewrite browser_load_open, (H1 H). reflexivity.
  - intros t u Ht Hu Hne_t Hne_u. specialize (H2 t u Ht Hu Hne_t Hne_u).
    rewrite browser_load_open. destruct (parse u) as [v|]; rewrite H2; simpl;
      [reflexivity|].
    exists (Storage.clearAuthFromStorage ls). split; [reflexivity|].
    apply clear_removes_both.
Qed.

Lemma loadAuthFromStorage_cases_witness :
  let ls : gmap string string :=
    <[Storage.TOKEN_KEY := "eyJhbGciOi"]> (<[Storage.USER_KEY := "{oops"]> ∅) in
  let parse : string -> option Storage.json := fun _ => None in
  exists ls',
    Browser.loadAuthFromStorage parse (Browser.Open ls)
    = (Browser.Return Storage.no_auth, Browser.Open ls')
    /\ ls' !! Storage.TOKEN_KEY = None
    /\ ls' !! Storage.USER_KEY = None
    /\ forall k, k <> Storage.TOKEN_KEY -> k <> Storage.USER_KEY ->
                 ls' !! k = ls !! k.
Proof.
  intros ls parse.
  exact (proj2 (proj2 (loadAuthFromStorage_cases parse) ls)
           "eyJhbGciOi" "{oops" eq_refl eq_refl
           ltac:(discriminate) ltac:(discriminate)).
Defined.

(** C10, as the specification states it, fails whatever `JSON.parse` does:
    with both keys present and the token the empty string, the function
    returns the empty session and leaves the storage alone, although no key
    is absent; this is neither the removal of both keys nor the return of
    the stored token. *)
Lemma load_with_empty_token :
  let ls : gmap string string :=
    <[Storage.TOKEN_KEY := ""]> (<[Storage.USER_KEY := "{}"]> ∅) in
  ls !! Storage.TOKEN_KEY = Some ""
  /\ ls !! Storage.USER_KEY = Some "{}"
  /\ (forall parse : string -> option Storage.json,
        Browser.loadAuthFromStorage parse (Browser.Open ls)
        = (Browser.Return Storage.no_auth, Browser.Open ls))
  /\ ~ exists parse : string -> option Storage.json, load_as_stated parse ls.
Proof.
  intros ls. split; [reflexivity|]. split; [reflexivity|].
  split; [intros parse; reflexivity|].
  intros [parse H]. unfold load_as_stated in H.
  change (Browser.loadAuthFromStorage parse (Browser.Open ls))
    with (@Browser.Return Storage.auth Storage.no_auth, Browser.Open ls) in H.
  destruct H as [_ H]. specialize (H "" "{}" eq_refl eq_refl).
  destruct (parse "{}") as [v|].
  - discriminate H.
  - destruct H as [_ H].
    assert (E : ls !! Storage.TOKEN_KEY = Storage.clearAuthFromStorage ls !! Storage.TOKEN_KEY)
      by (rewrite <- H; reflexivity).
    rewrite (proj1 (clear_removes_both ls)) in E. discriminate E.
Qed.

(** ** The share-code service *)

Lemma digit_char_is_digit (n : N) : Js.isDigit (ShareService.digit_char n) = true.
Proof.
  unfold ShareService.digit_char.
  assert (H : (n mod 10 < 10)%N) by (apply N.mod_lt; discriminate).
  set (m := (n mod 10)%N) in *.
  assert (E : m = 0%N \/ m = 1%N \/ m = 2%N \/ m = 3%N \/ m = 4%N \/ m = 5%N
              \/ m = 6%N \/ m = 7%N \/ m = 8%N \/ m = 9%N) by lia.
  repeat (destruct E as [-> | E]; [reflexivity|]). subst m. rewrite E. reflexivity.
Qed.

Lemma code_of_draw_digits (n : N) :
  forallb Js.isDigit (list_ascii_of_string (ShareService.code_of_draw n)) = true.
Proof.
  unfold ShareService.code_of_draw. cbn [list_ascii_of_string forallb].
  rewrite !digit_char_is_digit. reflexivity.
Qed.

Lemma code_of_draw_is_code (n : N) :
  ShareService.is_code (ShareService.code_of_draw n) = true.
Proof.
  unfold ShareService.is_code. rewrite code_of_draw_digits. reflexivity.
Qed.

Lemma validate_returns_its_input (ty : ShareService.share_type)
    (c c' : ShareContent) :
  ShareService.validate ty c = ShareService.Ok c' -> c' = c.
Proof.
  unfold ShareService.validate. destruct ty; handler_cases; congruence.
Qed.

Lemma exists_code_false (st : gmap string ShareService.ShareEntry) (code : string) :
  ShareService.exists_code st code = false -> st !! code = None.
Proof.
  unfold ShareService.exists_code. intros H%bool_decide_eq_false.
  destruct (st !! code) eqn:E; [|reflexivity]. exfalso. apply H. eauto.
Qed.

Lemma create_loop_ok (rand : nat -> N) (ty : ShareService.share_type)
    (c : ShareContent) (now : nat) (st : gmap string ShareService.ShareEntry)
    (code : string) :
  forall fuel k,
    ShareService.outcome (ShareService.create_loop fuel k rand ty c now st)
    = ShareService.Ok code ->
    (exists j, code = ShareService.code_of_draw (rand j))
    /\ st !! code = None
    /\ ShareService.store_of (ShareService.create_loop fuel k rand ty c now st)
       = <[code := {| ShareService.e_code := code; ShareService.e_type := ty;
                      ShareService.e_content := c;
                      ShareService.created_at := now |}]> st.
Proof.
  induction fuel as [|fuel IH]; intros k; simpl; [discriminate|].
  unfold ShareService.put. simpl.
  destruct (ShareService.exists_code st (ShareService.code_of_draw (rand k))) eqn:E.
  - apply IH.
  - simpl. intros [= <-]. split; [eauto|]. split; [|reflexivity].
    apply exists_code_false, E.
Qed.

(** C2.  When `create(type, content)` succeeds, `get` on the code it
    returned, run on the store it left, returns the same type and a content
    equal to the one passed to `create`; the code is 6 digits and was free
    before. *)
Theorem create_then_get
    (rand : nat -> N) (now : nat) (ty : ShareService.share_type)
    (c : ShareContent) (st : gmap string ShareService.ShareEntry)
    (code : string) :
  ShareService.outcome (ShareService.create rand now ty c st)
  = ShareService.Ok code ->
  ShareService.get code
    (ShareService.store_of (ShareService.create rand now ty c st))
  = ShareService.Ok (ty, c)
  /\ ShareService.is_code code = true
  /\ st !! code = None.
Proof.
  unfold ShareService.create.
  destruct (ShareService.validate ty c) as [c'|e] eqn:V; [|discriminate].
  pose proof (validate_returns_its_input ty c c' V) as ->.
  intros H. apply create_loop_ok in H as ([j ->] & Hfree & ->).
  split; [|split; [apply code_of_draw_is_code | exact Hfree]].
  unfold ShareService.get.
  rewrite trim_digits by apply code_of_draw_digits.
  rewrite code_of_draw_is_code. simpl.
  unfold ShareService.lookup. rewrite lookup_insert_eq. simpl.
  rewrite V. reflexivity.
Qed.

Lemma create_then_get_witness :
  let c := {| c_question := Some "What is a stack?";
              c_answer := Some "A LIFO structure.";
              c_focus := None; c_summary := None; c_mark_type := None;
              c_quiz := None |} in
  let made := ShareService.create (fun _ => 483920%N) 0 ShareService.TAsk c ∅ in
  ShareService.outcome made = ShareService.Ok "483920"
  /\ ShareService.get "483920" (ShareService.store_of made)
     = ShareService.Ok (ShareService.TAsk, c).
Proof.
  intros c made.
  assert (H : ShareService.outcome made = ShareService.Ok "483920") by reflexivity.
  split; [exact H|].
  exact (proj1 (create_then_get (fun _ => 483920%N) 0 ShareService.TAsk c ∅
                  "483920" H)).
Defined.

Lemma create_loop_attempts (rand : nat -> N) (ty : ShareService.share_type)
    (c : ShareContent) (now : nat) (st : gmap string ShareService.ShareEntry) :
  forall fuel k,
    (ShareService.attempts (ShareService.create_loop fuel k rand ty c now st)
     <= k + fuel)%nat.
Proof.
  induction fuel as [|fuel IH]; intros k; simpl; [lia|].
  unfold ShareService.put. simpl.
  destruct (ShareService.exists_code st (ShareService.code_of_draw (rand k))).
  - specialize (IH (S k)). lia.
  - simpl. lia.
Qed.

Lemma create_loop_exhausted (rand : nat -> N) (ty : ShareService.share_type)
    (c : ShareContent) (now : nat) (st : gmap string ShareService.ShareEntry) :
  forall fuel k,
    (forall j, (k <= j < k + fuel)%nat ->
               ShareService.exists_code st (ShareService.code_of_draw (rand j)) = true) ->
    ShareService.create_loop fuel k rand ty c now st
    = {| ShareService.outcome := ShareService.Err ShareService.CapacityError;
         ShareService.store_of := st;
         ShareService.attempts := (k + fuel)%nat |}.
Proof.
  induction fuel as [|fuel IH]; intros k H; simpl.
  - rewrite Nat.add_0_r. reflexivity.
  - rewrite (H k) by lia. rewrite IH by (intros j Hj; apply H; lia).
    f_equal. lia.
Qed.

(** C7.  `create` is a total function of the store: the generation loop
    runs on what is left of a cap of 20 attempts, so it never makes more
    than 20, and when each of the 20 codes generated is taken it stops with
    [CapacityError] and leaves the store as it was. *)
Theorem create_attempts_bounded
    (rand : nat -> N) (now : nat) (ty : ShareService.share_type)
    (c : ShareContent) (st : gmap string ShareService.ShareEntry) :
  ShareService.MAX_ATTEMPTS = 20%nat
  /\ (ShareService.attempts (ShareService.create rand now ty c st)
      <= ShareService.MAX_ATTEMPTS)%nat
  /\ (ShareService.validate ty c = ShareService.Ok c ->
      (forall j, (j < ShareService.MAX_ATTEMPTS)%nat ->
                 ShareService.exists_code st (ShareService.code_of_draw (rand j)) = true) ->
      ShareService.create rand now ty c st
      = {| ShareService.outcome := ShareService.Err ShareService.CapacityError;
           ShareService.store_of := st;
           ShareService.attempts := ShareService.MAX_ATTEMPTS |}).
Proof.
  split; [reflexivity|]. unfold ShareService.create. split.
  - destruct (ShareService.validate ty c) as [c'|e].
    + exact (create_loop_attempts rand ty c' now st ShareService.MAX_ATTEMPTS 0).
    + apply Nat.le_0_l.
  - intros -> H.
    apply (create_loop_exhausted rand ty c now st ShareService.MAX_ATTEMPTS 0).
    intros j Hj. apply H. lia.
Qed.

Lemma create_attempts_bounded_witness :
  let c := {| c_question := Some "What is a stack?";
              c_answer := Some "A LIFO structure.";
              c_focus := None; c_summary := None; c_mark_type := None;
              c_quiz := None |} in
  let rand : nat -> N := fun _ => 483920%N in
  let st := ShareService.store_of (ShareService.create rand 0 ShareService.TAsk c ∅) in
  ShareService.create rand 1 ShareService.TAsk c st
  = {| ShareService.outcome := ShareService.Err ShareService.CapacityError;
       ShareService.store_of := st;
       ShareService.attempts := 20 |}.
Proof.
  intros c rand st.
  exact (proj2 (proj2 (create_attempts_bounded rand 1 ShareService.TAsk c st))
           eq_refl (fun j _ => eq_refl)).
Defined.

(** The validation examples of the specification. *)

Example validate_rejects_mark_7 :
  ShareService.validate ShareService.TSummary
    {| c_question := None; c_answer := None; c_focus := None;
       c_summary := Some "Stacks are LIFO."; c_mark_type := Some "7";
       c_quiz := None |}
  = ShareService.Err (ShareService.ValidationError "mark_type").
Proof. reflexivity. Qed.

Example validate_accepts_mark_15 :
  let c := {| c_question := None; c_answer := None; c_focus := None;
              c_summary := Some "Stacks are LIFO."; c_mark_type := Some "15";
              c_quiz := None |} in
  ShareService.validate ShareService.TSummary c = ShareService.Ok c.
Proof. reflexivity. Qed.

Example validate_rejects_empty_quiz :
  ShareService.validate ShareService.TQuiz
    {| c_question := None; c_answer := None; c_focus := None;
       c_summary := None; c_mark_type := None; c_quiz := Some [] |}
  = ShareService.Err (ShareService.ValidationError "quiz").
Proof. reflexivity. Qed.

Example validate_rejects_single_option :
  ShareService.validate ShareService.TQuiz
    {| c_question := None; c_answer := None; c_focus := None;
       c_summary := None; c_mark_type := None;
       c_quiz := Some [ {| q_question := "LIFO?"; q_options := ["Stack"];
                           q_answer := "A"; q_explanation := None |} ] |}
  = ShareService.Err (ShareService.ValidationError "quiz").
Proof. reflexivity. Qed.

Example get_rejects_malformed_codes :
  forall st : gmap string ShareService.ShareEntry,
    ShareService.get "12" st = ShareService.Err ShareService.InvalidCodeFormatError
    /\ ShareService.get "abcdef" st = ShareService.Err ShareService.InvalidCodeFormatError
    /\ ShareService.get "1234567" st = ShareService.Err ShareService.InvalidCodeFormatError.
Proof. intros st. repeat split. Qed.

(* ===================================================================== *)
(** * Further properties of the client                                    *)
(* ===================================================================== *)

(** ** storage.js: saving, loading and clearing the session *)

Lemma lookup_after_save (stringify : Storage.json -> string) (tok : string)
    (u : Storage.json) (ls : gmap string string) :
  Storage.saveAuthToStorage stringify tok u ls !! Storage.TOKEN_KEY = Some tok
  /\ Storage.saveAuthToStorage stringify tok u ls !! Storage.USER_KEY
     = Some (stringify u).
Proof.
  unfold Storage.saveAuthToStorage, Storage.setItem. split.
  - rewrite lookup_insert_ne by discriminate. apply lookup_insert_eq.
  - apply lookup_insert_eq.
Qed.

Lemma truthy_not_empty (s : string) : s <> "" -> Js.truthy s = true.
Proof. destruct s; [congruence | reflexivity]. Qed.

Lemma truthy_is_not_empty (s : string) : Js.truthy s = true -> s <> "".
Proof. destruct s; [discriminate | discriminate]. Qed.

Lemma load_after_save
    (parse : string -> option Storage.json) (stringify : Storage.json -> string)
    (tok : string) (u : Storage.json) (ls : gmap string string) :
  tok <> "" -> stringify u <> "" -> parse (stringify u) = Some u ->
  Storage.loadAuthFromStorage parse (Storage.saveAuthToStorage stringify tok u ls)
  = ({| Storage.token := Some tok; Storage.user := u |},
     Storage.saveAuthToStorage stringify tok u ls).
Proof.
  intros Ht Hs Hp. unfold Storage.loadAuthFromStorage, Storage.getItem.
  destruct (lookup_after_save stringify tok u ls) as [-> ->]. simpl.
  rewrite (truthy_not_empty tok Ht), (truthy_not_empty _ Hs). simpl.
  rewrite Hp. reflexivity.
Qed.

(** X1.  A session that was saved is the session that is loaded: whatever the
    storage held before, after [saveAuthToStorage(token, user)] with a
    token that is not empty and a user that `JSON.parse` reads back from
    its `JSON.stringify` text, [loadAuthFromStorage] returns that token and
    that user and leaves the storage as the save left it. *)
Theorem save_then_load
    (parse : string -> option Storage.json) (stringify : Storage.json -> string)
    (tok : string) (u : Storage.json) (ls : gmap string string) :
  tok <> "" -> stringify u <> "" -> parse (stringify u) = Some u ->
  Storage.loadAuthFromStorage parse (Storage.saveAuthToStorage stringify tok u ls)
  = ({| Storage.token := Some tok; Storage.user := u |},
     Storage.saveAuthToStorage stringify tok u ls).
Proof. exact (load_after_save parse stringify tok u ls). Qed.

Lemma save_then_load_witness :
  let parse : string -> option Storage.json :=
    fun s => if String.eqb s "{}" then Some (Storage.JObject []) else None in
  let stringify : Storage.json -> string := fun _ => "{}" in
  let old : gmap string string := <[Storage.TOKEN_KEY := "stale"]> ∅ in
  Storage.loadAuthFromStorage parse
    (Storage.saveAuthToStorage stringify "eyJhbGciOi" (Storage.JObject []) old)
  = ({| Storage.token := Some "eyJhbGciOi"; Storage.user := Storage.JObject [] |},
     Storage.saveAuthToStorage stringify "eyJhbGciOi" (Storage.JObject []) old).
Proof.
  intros parse stringify old.
  exact (save_then_load parse stringify "eyJhbGciOi" (Storage.JObject []) old
           ltac:(discriminate) ltac:(discriminate) eq_refl).
Defined.

(** X2.  Loading is idempotent: a second [loadAuthFromStorage], run on the
    storage the first one left, returns the same session and changes
    nothing, whatever the storage held and whatever `JSON.parse` does. *)
Theorem load_twice
    (parse : string -> option Storage.json) (ls : gmap string string) :
  Storage.loadAuthFromStorage parse
    (snd (Storage.loadAuthFromStorage parse ls))
  = Storage.loadAuthFromStorage parse ls.
Proof.
  unfold Storage.loadAuthFromStorage at 2 3.
  destruct (negb (Js.truthy_opt (Storage.getItem ls Storage.TOKEN_KEY))
            || negb (Js.truthy_opt (Storage.getItem ls Storage.USER_KEY))) eqn:G.
  - simpl. unfold Storage.loadAuthFromStorage. rewrite G. reflexivity.
  - destruct (parse (default "" (Storage.getItem ls Storage.USER_KEY))) as [v|] eqn:P.
    + simpl. unfold Storage.loadAuthFromStorage. rewrite G, P. reflexivity.
    + simpl. unfold Storage.loadAuthFromStorage, Storage.getItem.
      rewrite (proj1 (clear_removes_both ls)). reflexivity.
Qed.

(** ** AuthContext.js: the session provider *)

Section Provider.
Variable parse : string -> option Storage.json.
Variable stringify : Storage.json -> string.

Lemma mount_init_cases (ls : gmap string string) :
  (fst (AuthContext.mount parse AuthContext.init ls) = AuthContext.init)
  \/ (exists t v,
        ls !! Storage.TOKEN_KEY = Some t
        /\ is_Some (ls !! Storage.USER_KEY)
        /\ Js.truthy t = true /\ AuthContext.truthy_json v = true
        /\ AuthContext.mount parse AuthContext.init ls
           = ({| AuthContext.user := v; AuthContext.token := Some t;
                 AuthContext.authLoading := false;
                 AuthContext.authError := "" |}, ls)).
Proof.
  unfold AuthContext.mount, Storage.loadAuthFromStorage, Storage.getItem.
  destruct (ls !! Storage.TOKEN_KEY) as [t|] eqn:Ht; simpl; [|left; reflexivity].
  destruct (Js.truthy t) eqn:Tt; simpl; [|left; reflexivity].
  destruct (ls !! Storage.USER_KEY) as [u|] eqn:Hu; simpl; [|left; reflexivity].
  destruct (Js.truthy u) eqn:Tu; simpl; [|left; reflexivity].
  destruct (parse u) as [v|]; simpl; [|left; reflexivity].
  rewrite Tt. simpl.
  destruct (AuthContext.truthy_json v) eqn:Tv; [|left; reflexivity].
  right. exists t, v. repeat split; eauto.
Qed.

Lemma step_keeps_session_ok (c : AuthContext.state * gmap string string)
    (e : AuthContext.event) :
  session_ok (fst c) -> session_ok (fst (AuthContext.step stringify c e)).
Proof.
  destruct c as [st ls]. intros H. destruct e as [r|]; simpl.
  - unfold AuthContext.handleAuth.
    destruct r as [msg | data]; simpl; [exact H|].
    destruct (AuthContext.access_token data) as [tok|]; [|exact H].
    destruct (AuthContext.user_field data) as [u|]; [|exact H].
    destruct (Js.truthy tok) eqn:Tt; simpl; [|exact H].
    destruct (AuthContext.truthy_json u) eqn:Tu; simpl; [|exact H].
    right. simpl. auto.
  - left. simpl. auto.
Qed.

Lemma fold_keeps (P : AuthContext.state * gmap string string -> Prop) :
  (forall c e, P c -> P (AuthContext.step stringify c e)) ->
  forall es c, P c -> P (fold_left (AuthContext.step stringify) es c).
Proof.
  intros Hstep es. induction es as [|e rest IH]; intros c Hc; simpl; [exact Hc|].
  apply IH, Hstep, Hc.
Qed.

End Provider.

(** X3.  The token and the user of the provider are set together.  After the
    mount and any sequence of logins, registrations and logouts, on any
    storage and for any `JSON.parse`, either both are `null` or both are
    truthy: the test [!user || !token] of the App fails exactly when a
    token is held. *)
Theorem session_cells_agree
    (parse : string -> option Storage.json) (stringify : Storage.json -> string)
    (ls : gmap string string) (es : list AuthContext.event) :
  let st := fst (AuthContext.run parse stringify ls es) in
  (AuthContext.token st = None /\ AuthContext.user st = Storage.JNull)
  \/ (Js.truthy_opt (AuthContext.token st) = true
      /\ AuthContext.truthy_json (AuthContext.user st) = true).
Proof.
  intros st. subst st. unfold AuthContext.run.
  apply (fold_keeps stringify (fun c => session_ok (fst c))).
  - intros c e. apply step_keeps_session_ok.
  - destruct (mount_init_cases parse ls) as [-> | (t & v & _ & _ & Tt & Tv & ->)].
    + left. split; reflexivity.
    + right. simpl. auto.
Qed.

Section FallibleProvider.
Variable parse : string -> option Storage.json.
Variable stringify : Storage.json -> string.
Variable fits : gmap string string -> string -> string -> bool.
Variable message_of : Browser.error -> string.








End FallibleProvider.



(** X5.  A failed sign-in changes nothing but the error shown.  When
    [handleAuth] throws, because `api.post` threw or because the reply
    lacks a truthy `access_token` or `user`, the token, the user and the
    storage are as before, the loading flag is down, and the error shown
    is the error's message, or "Authentication failed." when that is
    empty: it is never empty. *)
Theorem failed_auth_keeps_session
    (stringify : Storage.json -> string) (r : @Http.reply AuthContext.auth_data)
    (st st1 : AuthContext.state) (ls ls1 : gmap string string) (msg : string) :
  AuthContext.handleAuth stringify r st ls = (st1, ls1, Some msg) ->
  AuthContext.token st1 = AuthContext.token st
  /\ AuthContext.user st1 = AuthContext.user st
  /\ ls1 = ls
  /\ AuthContext.authLoading st1 = false
  /\ AuthContext.authError st1 = Js.or_else msg "Authentication failed."
  /\ AuthContext.authError st1 <> "".
Proof.
  assert (Hne : forall m, Js.or_else m "Authentication failed." <> "").
  { intros m. destruct m; discriminate. }
  unfold AuthContext.handleAuth.
  destruct r as [m | data].
  - intros [= <- <- <-]. simpl. repeat split. apply Hne.
  - destruct (AuthContext.access_token data) as [tok|];
      [destruct (AuthContext.user_field data) as [u|]|];
      try (intros [= <- <- <-]; simpl; repeat split; discriminate).
    destruct (negb (Js.truthy tok) || negb (AuthContext.truthy_json u));
      [intros [= <- <- <-]; simpl; repeat split; discriminate | discriminate].
Qed.

Lemma failed_auth_keeps_session_witness :
  let stringify : Storage.json -> string := fun _ => "{}" in
  let r := Http.Returned
             {| AuthContext.access_token := Some "eyJhbGciOi";
                AuthContext.user_field := None;
                AuthContext.detail := None; AuthContext.message := None |} in
  let st1 := fst (fst (AuthContext.handleAuth stringify r AuthContext.init ∅)) in
  AuthContext.token st1 = None
  /\ AuthContext.user st1 = Storage.JNull
  /\ snd (fst (AuthContext.handleAuth stringify r AuthContext.init ∅)) = ∅
  /\ AuthContext.authLoading st1 = false
  /\ AuthContext.authError st1
     = Js.or_else "Invalid server response." "Authentication failed."
  /\ AuthContext.authError st1 <> "".
Proof.
  intros stringify r st1.
  exact (failed_auth_keeps_session stringify r AuthContext.init _ ∅ _
           "Invalid server response." eq_refl).
Defined.

(** X6.  A sign-in survives a reload.  When [handleAuth] succeeds, a provider
    mounted afresh on the storage it left holds the same token and the same
    user, provided `JSON.parse` reads the user back from its
    `JSON.stringify` text and that text is not empty. *)
Theorem sign_in_then_reload
    (parse : string -> option Storage.json) (stringify : Storage.json -> string)
    (r : @Http.reply AuthContext.auth_data)
    (st st1 : AuthContext.state) (ls ls1 : gmap string string) :
  AuthContext.handleAuth stringify r st ls = (st1, ls1, None) ->
  parse (stringify (AuthContext.user st1)) = Some (AuthContext.user st1) ->
  stringify (AuthContext.user st1) <> "" ->
  let '(st2, ls2) := AuthContext.mount parse AuthContext.init ls1 in
  AuthContext.token st2 = AuthContext.token st1
  /\ AuthContext.user st2 = AuthContext.user st1
  /\ is_Some (AuthContext.token st2)
  /\ ls2 = ls1.
Proof.
  unfold AuthContext.handleAuth.
  destruct r as [m | data]; [discriminate|].
  destruct (AuthContext.access_token data) as [tok|]; [|discriminate].
  destruct (AuthContext.user_field data) as [u|]; [|discriminate].
  destruct (Js.truthy tok) eqn:Tt; simpl; [|discriminate].
  destruct (AuthContext.truthy_json u) eqn:Tu; simpl; [|discriminate].
  intros [= <- <-]. simpl. intros Hp Hs.
  unfold AuthContext.mount.
  rewrite (load_after_save parse stringify tok u ls
             (truthy_is_not_empty tok Tt) Hs Hp).
  simpl. rewrite Tt, Tu. simpl. repeat split. eauto.
Qed.

Lemma sign_in_then_reload_witness :
  let parse : string -> option Storage.json :=
    fun s => if String.eqb s "{}" then Some (Storage.JObject []) else None in
  let stringify : Storage.json -> string := fun _ => "{}" in
  let r := Http.Returned
             {| AuthContext.access_token := Some "eyJhbGciOi";
                AuthContext.user_field := Some (Storage.JObject []);
                AuthContext.detail := None; AuthContext.message := None |} in
  let ls1 := snd (fst (AuthContext.handleAuth stringify r AuthContext.init ∅)) in
  let '(st2, ls2) := AuthContext.mount parse AuthContext.init ls1 in
  AuthContext.token st2 = Some "eyJhbGciOi"
  /\ AuthContext.user st2 = Storage.JObject []
  /\ is_Some (AuthContext.token st2)
  /\ ls2 = ls1.
Proof.
  intros parse stringify r ls1.
  exact (sign_in_then_reload parse stringify r AuthContext.init _ ∅ _
           eq_refl eq_refl ltac:(discriminate)).
Defined.

(** X7.  A logout survives a reload.  After [logout], whatever the provider
    and the storage held, neither key is stored, every other key is as it
    was, and a provider mounted afresh holds no session and leaves the
    storage alone, whatever `JSON.parse` does. *)
Theorem logout_then_reload
    (parse : string -> option Storage.json)
    (st : AuthContext.state) (ls : gmap string string) :
  let '(st1, ls1) := AuthContext.logout st ls in
  AuthContext.token st1 = None
  /\ AuthContext.user st1 = Storage.JNull
  /\ ls1 !! Storage.TOKEN_KEY = None
  /\ ls1 !! Storage.USER_KEY = None
  /\ (forall k, k <> Storage.TOKEN_KEY -> k <> Storage.USER_KEY ->
                ls1 !! k = ls !! k)
  /\ AuthContext.mount parse AuthContext.init ls1 = (AuthContext.init, ls1).
Proof.
  simpl. destruct (clear_removes_both ls) as (Ht & Hu & Hk).
  repeat split; try assumption.
  unfold AuthContext.mount, Storage.loadAuthFromStorage, Storage.getItem.
  rewrite Ht. reflexivity.
Qed.

(** ** App.js: the document list and the selection *)

Lemma find_by_id_some (i : string) (docs : list App.doc) (d : App.doc) :
  App.find_by_id i docs = Some d -> In d docs /\ App.id d = i.
Proof.
  induction docs as [|x rest IH]; simpl; [discriminate|].
  destruct (String.eqb_spec (App.id x) i) as [E | _].
  - intros [= <-]. auto.
  - intros H. destruct (IH H). auto.
Qed.


Lemma app_step_keeps_selection (st : App.state) (e : App.event) :
  selection_ok st -> selection_ok (App.step st e).
Proof.
  unfold selection_ok. intros H. destruct e as [token r | i | data]; simpl.
  - unfold App.fetchDocuments.
    destruct (Js.truthy_opt token); simpl; [|exact H].
    destruct r as [m | data]; [exact H|].
    destruct (default [] (App.documents_field data)) as [|first rest] eqn:D;
      [simpl; auto|].
    destruct (Js.truthy (App.selectedDocId st)); cbn [negb];
      [|simpl; auto].
    destruct (App.find_by_id (App.selectedDocId st) (first :: rest)) as [d|] eqn:F;
      cbn [App.documents App.selectedDocId App.selectedDocMeta];
      [|simpl; auto].
    apply find_by_id_some in F as [Hin Hid]. auto.
  - destruct (App.documents st !! i) as [d|] eqn:L; [|exact H].
    simpl. split; [|reflexivity].
    apply list_elem_of_In, list_elem_of_lookup. eauto.
  - auto.
Qed.

(** With the `selectedDocId` of the state it resumes on, the second half
    of [fetchDocuments] is the whole function on that state. *)
Lemma resume_on_latest (token : option string) (r : @Http.reply App.docs_data)
    (st : App.state) :
  Js.truthy_opt token = true ->
  AppAsync.fetchDocuments_resume (App.selectedDocId st) r st
  = App.fetchDocuments token r st.
Proof.
  intros Ht. unfold App.fetchDocuments, AppAsync.fetchDocuments_resume.
  rewrite Ht. reflexivity.
Qed.

Lemma resume_keeps_listed (captured : string) (r : @Http.reply App.docs_data)
    (st : App.state) :
  selection_listed st ->
  selection_listed (AppAsync.fetchDocuments_resume captured r st).
Proof.
  unfold selection_listed, AppAsync.fetchDocuments_resume. intros H.
  destruct r as [m | data]; [exact H|].
  destruct (default [] (App.documents_field data)) as [|first rest] eqn:D;
    [simpl; auto|].
  destruct (Js.truthy captured); cbn [negb]; [|simpl; auto].
  destruct (App.find_by_id captured (first :: rest)) as [d|] eqn:F;
    cbn [App.documents App.selectedDocId App.selectedDocMeta];
    [|simpl; auto].
  apply find_by_id_some in F as [Hin _]. exact Hin.
Qed.

Lemma async_step_keeps_listed (st : AppAsync.state) (e : AppAsync.event) :
  selection_listed (AppAsync.app st) ->
  selection_listed (AppAsync.app (AppAsync.step st e)).
Proof.
  intros H. destruct e as [token | k r | i | data]; simpl.
  - unfold AppAsync.fetchDocuments_call.
    destruct (negb (Js.truthy_opt token)); exact H.
  - destruct (AppAsync.pending st !! k) as [captured|]; [|exact H].
    apply resume_keeps_listed, H.
  - destruct (App.documents (AppAsync.app st) !! i) as [d|] eqn:L; [|exact H].
    unfold selection_listed. simpl.
    apply list_elem_of_In, list_elem_of_lookup. eauto.
  - unfold selection_listed. simpl. auto.
Qed.

Lemma async_step_keeps_selection (st : AppAsync.state) (e : AppAsync.event) :
  (forall k r captured,
     e = AppAsync.Reply k r -> AppAsync.pending st !! k = Some captured ->
     captured = App.selectedDocId (AppAsync.app st)) ->
  selection_ok (AppAsync.app st) ->
  selection_ok (AppAsync.app (AppAsync.step st e)).
Proof.
  intros Hfresh H. destruct e as [token | k r | i | data]; simpl.
  - unfold AppAsync.fetchDocuments_call.
    destruct (negb (Js.truthy_opt token)); exact H.
  - destruct (AppAsync.pending st !! k) as [captured|] eqn:P; [|exact H].
    simpl. rewrite (Hfresh k r captured eq_refl P).
    rewrite (resume_on_latest (Some "t") r (AppAsync.app st) eq_refl).
    exact (app_step_keeps_selection (AppAsync.app st) (App.Fetch (Some "t") r) H).
  - pose proof (app_step_keeps_selection (AppAsync.app st) (App.ClickCard i) H)
      as K.
    simpl in K. destruct (App.documents (AppAsync.app st) !! i); exact K.
  - exact (app_step_keeps_selection (AppAsync.app st) (App.Uploaded data) H).
Qed.

(** X8.  The document selected is always one of the list, also when the
    replies to [fetchDocuments] arrive late or out of order: after any
    sequence of calls of [fetchDocuments], replies to calls still waiting,
    clicks on a card and uploads, the selected document is one of the
    documents listed, and no document is selected only while the list is
    empty, the selected id being then the empty string.  The selected id is
    the id of the selected document as long as every reply finds the
    selected id that its call closed over; a card clicked between a call
    and its reply can leave the id of one document with another one
    selected. *)
Theorem selected_document_is_listed
    (es : list AppAsync.event) (st : AppAsync.state) (e : AppAsync.event) :
  selection_listed (AppAsync.app (AppAsync.run es))
  /\ ((forall k r captured,
         e = AppAsync.Reply k r -> AppAsync.pending st !! k = Some captured ->
         captured = App.selectedDocId (AppAsync.app st)) ->
      selection_ok (AppAsync.app st) ->
      selection_ok (AppAsync.app (AppAsync.step st e)))
  /\ (exists (race : list AppAsync.event) (d : App.doc),
        App.selectedDocMeta (AppAsync.app (AppAsync.run race)) = Some d
        /\ App.id d <> App.selectedDocId (AppAsync.app (AppAsync.run race))).
Proof.
  split; [|split].
  - unfold AppAsync.run.
    assert (G : forall s, selection_listed (AppAsync.app s) ->
                          selection_listed
                            (AppAsync.app (fold_left AppAsync.step es s))).
    { induction es as [|x rest IH]; intros s H; simpl; [exact H|].
      apply IH, async_step_keeps_listed, H. }
    apply G. unfold selection_listed. simpl. auto.
  - apply async_step_keeps_selection.
  - pose (d1 := {| App.id := "d1"; App.title := "DS Unit 1"; App.subject := "DS";
                   App.num_chunks := 12%Z; App.created_at := "2024-01-01" |}).
    pose (d2 := {| App.id := "d2"; App.title := "OS Unit 2"; App.subject := "OS";
                   App.num_chunks := 7%Z; App.created_at := "2024-01-02" |}).
    pose (listing := Http.Returned
                       {| App.documents_field := Some [d1; d2];
                          App.detail := None; App.message := None |}).
    exists [AppAsync.Call (Some "eyJhbGciOi"); AppAsync.Reply 0 listing;
            AppAsync.Call (Some "eyJhbGciOi"); AppAsync.ClickCard 1;
            AppAsync.Reply 0 listing], d1.
    split; [reflexivity | discriminate].
Qed.

Lemma selected_document_is_listed_witness :
  let d1 := {| App.id := "d1"; App.title := "DS Unit 1"; App.subject := "DS";
               App.num_chunks := 12%Z; App.created_at := "2024-01-01" |} in
  let d2 := {| App.id := "d2"; App.title := "OS Unit 2"; App.subject := "OS";
               App.num_chunks := 7%Z; App.created_at := "2024-01-02" |} in
  let listing := Http.Returned
                   {| App.documents_field := Some [d1; d2];
                      App.detail := None; App.message := None |} in
  let st := AppAsync.run [AppAsync.Call (Some "eyJhbGciOi");
                          AppAsync.Reply 0 listing;
                          AppAsync.ClickCard 1;
                          AppAsync.Call (Some "eyJhbGciOi")] in
  AppAsync.pending st = ["d2"]
  /\ selection_ok (AppAsync.app (AppAsync.step st (AppAsync.Reply 0 listing))).
Proof.
  intros d1 d2 listing st.
  split; [reflexivity|].
  apply (proj1 (proj2 (selected_document_is_listed [] st (AppAsync.Reply 0 listing)))).
  - intros k r captured [= <- <-]. cbn. intros [= <-]. reflexivity.
  - cbn. split; [right; left; reflexivity | reflexivity].
Defined.



(** ** Workspace.js: what the cells and the requests always satisfy *)

Lemma run_keeps (P : Workspace.state -> Prop) :
  (forall w e, P w -> P (fst (Workspace.step w e))) ->
  forall es w, P w -> P (fst (Workspace.run w es)).
Proof.
  intros Hstep es. induction es as [|e rest IH]; intros w H; [exact H|].
  simpl. pose proof (Hstep w e H) as H1.
  destruct (Workspace.step w e) as [w1 out1]. simpl in H1.
  specialize (IH w1 H1).
  destruct (Workspace.run w1 rest) as [w2 out2]. exact IH.
Qed.

Lemma run_effects (P : Workspace.state -> Prop) (Q : Api.effect -> Prop) :
  (forall w e, P w -> P (fst (Workspace.step w e))) ->
  (forall w e x, P w -> In x (snd (Workspace.step w e)) -> Q x) ->
  forall es w x, P w -> In x (snd (Workspace.run w es)) -> Q x.
Proof.
  intros Hstep Hout es. induction es as [|e rest IH]; intros w x H; simpl.
  - intros [].
  - pose proof (Hstep w e H) as H1. pose proof (Hout w e x H) as H2.
    destruct (Workspace.step w e) as [w1 out1]. simpl in H1, H2.
    specialize (IH w1 x H1).
    destruct (Workspace.run w1 rest) as [w2 out2]. simpl in *.
    rewrite in_app_iff. intros [Hx | Hx]; auto.
Qed.

Lemma share_type_of_eqb (ty : string) :
  (String.eqb ty "ask" || String.eqb ty "summary" || String.eqb ty "quiz") = true ->
  is_share_type ty.
Proof.
  unfold is_share_type. intros H.
  apply orb_true_iff in H as [H | H]; [|apply String.eqb_eq in H; auto].
  apply orb_true_iff in H as [H | H]; apply String.eqb_eq in H; auto.
Qed.

Lemma send_cells (ty : string) (c : ShareContent) (w0 : Workspace.state)
    (r : Api.reply) :
  is_share_type ty -> create_ok (fst (Workspace.shareCreate_send ty c w0 r)).
Proof.
  intros Hty. unfold Workspace.shareCreate_send, create_ok.
  destruct r as [msg | d]; simpl; [left; auto|].
  destruct (Api.status_ok d); simpl; [|left; auto].
  destruct (Api.code d) as [k|]; simpl; [|left; auto].
  destruct (Js.truthy k) eqn:Tk; simpl; [|left; auto].
  right. split; [apply truthy_is_not_empty, Tk | auto].
Qed.

Lemma create_cells (ty : string) (w : Workspace.state) (r : Api.reply) :
  create_ok (fst (Workspace.handleCreateShareCode ty w r)).
Proof.
  unfold Workspace.handleCreateShareCode, Workspace.shareCreate_typeError.
  destruct (String.eqb_spec ty "ask") as [-> | _].
  { destruct (Workspace.answer w) as [a|]; [|left; auto].
    destruct (negb (Js.truthy (Js.trim a))); [left; auto|].
    apply send_cells. unfold is_share_type. auto. }
  destruct (String.eqb_spec ty "summary") as [-> | _].
  { destruct (Workspace.summary w) as [x|]; [|left; auto].
    destruct (negb (Js.truthy (Js.trim x))); [left; auto|].
    apply send_cells. unfold is_share_type. auto. }
  destruct (String.eqb_spec ty "quiz") as [-> | _]; [|left; auto].
  destruct (List.length (Workspace.quiz w) =? 0)%nat; [left; auto|].
  apply send_cells. unfold is_share_type. auto.
Qed.

Lemma step_keeps_create_ok (w : Workspace.state) (e : Workspace.event) :
  create_ok w -> create_ok (fst (Workspace.step w e)).
Proof.
  intros H. destruct e; try apply create_cells; simpl;
    unfold Workspace.handleAsk, Workspace.handleSummarize, Workspace.handleQuiz,
      Workspace.handleLoadShareCode;
    handler_cases; solve [exact H | left; simpl; auto].
Qed.

(** X10.  A share code and an error are never shown together.  After any
    sequence of events from the first render, either no code has been
    created and the created type is empty, or a code is shown, it is not
    empty, its type is one of "ask", "summary" and "quiz", and the error of
    the create path is empty. *)
Theorem created_code_has_type_and_no_error
    (doc : option string) (es : list Workspace.event) :
  let w := fst (Workspace.run (Workspace.init doc) es) in
  (Workspace.shareCreatedCode w = "" /\ Workspace.shareCreatedType w = "")
  \/ (Workspace.shareCreatedCode w <> ""
      /\ Workspace.shareCreateError w = ""
      /\ (Workspace.shareCreatedType w = "ask"
          \/ Workspace.shareCreatedType w = "summary"
          \/ Workspace.shareCreatedType w = "quiz")).
Proof.
  apply (run_keeps create_ok step_keeps_create_ok).
  left. split; reflexivity.
Qed.

Lemma digits_code (s : string) :
  forallb Js.isDigit (list_ascii_of_string s) = true ->
  String.length s = 6%nat -> ShareService.is_code s = true.
Proof.
  intros Hd Hl. unfold ShareService.is_code. rewrite Hd, Hl. reflexivity.
Qed.

Lemma load_cells (w : Workspace.state) (r : Api.reply) :
  load_ok w -> load_ok (fst (Workspace.handleLoadShareCode w r)).
Proof.
  intros [Hd Hi]. unfold Workspace.handleLoadShareCode.
  rewrite or_else_empty, (trim_digits _ Hd).
  destruct (Js.truthy (Workspace.shareCodeInput w)); simpl; [|split; assumption].
  unfold Js.length.
  destruct (Nat.eqb_spec (String.length (Workspace.shareCodeInput w)) 6)
    as [Hl | _]; simpl; [|split; assumption].
  pose proof (digits_code _ Hd Hl) as Hc.
  assert (Hfail : forall msg w0,
             Workspace.shareCodeInput w0 = Workspace.shareCodeInput w ->
             load_ok (Workspace.set_share_load (Workspace.shareCodeInput w) msg None w0)).
  { intros msg w0 _. split; [exact Hd | discriminate]. }
  destruct r as [msg | d]; simpl; [apply Hfail; reflexivity|].
  destruct (Api.status_ok d); simpl; [|apply Hfail; reflexivity].
  destruct (Api.type d) as [ty|]; [|apply Hfail; reflexivity].
  destruct (Api.content d) as [c|]; [|apply Hfail; reflexivity].
  destruct (Js.truthy ty); simpl; [|apply Hfail; reflexivity].
  destruct (String.eqb_spec ty "ask") as [-> | _].
  { split; [exact Hd|]. simpl. intros c0 t [= <- <-]. unfold is_share_type. auto. }
  destruct (String.eqb_spec ty "summary") as [-> | _].
  { split; [exact Hd|]. simpl. intros c0 t [= <- <-]. unfold is_share_type. auto. }
  destruct (String.eqb_spec ty "quiz") as [-> | _].
  { split; [exact Hd|]. simpl. intros c0 t [= <- <-]. unfold is_share_type. auto. }
  apply Hfail. reflexivity.
Qed.

Lemma step_keeps_load_ok (w : Workspace.state) (e : Workspace.event) :
  load_ok w -> load_ok (fst (Workspace.step w e)).
Proof.
  intros H. destruct e; try apply load_cells; try exact H.
  - destruct H as [Hd Hi]. split; [apply only_digits_left | exact Hi].
  - simpl. unfold Workspace.handleAsk. handler_cases; exact H.
  - simpl. unfold Workspace.handleSummarize. handler_cases; exact H.
  - simpl. unfold Workspace.handleQuiz. handler_cases; exact H.
  - simpl. unfold Workspace.handleCreateShareCode, Workspace.shareCreate_send,
      Workspace.shareCreate_typeError. handler_cases; exact H.
Qed.

Lemma init_load_ok (doc : option string) : load_ok (Workspace.init doc).
Proof. split; [reflexivity | discriminate]. Qed.

(** X11.  The notice of loaded content is never shown with an error.  After any
    sequence of events from the first render, when `loadedShareInfo` is
    set, the error of the load path is empty, the code it names is exactly
    6 digits, and the type it names is one of "ask", "summary" and "quiz"
    (so the notice never falls back to printing the raw type). *)
Theorem loaded_notice_is_consistent
    (doc : option string) (es : list Workspace.event) (c t : string) :
  Workspace.loadedShareInfo (fst (Workspace.run (Workspace.init doc) es))
  = Some (c, t) ->
  Workspace.shareCodeError (fst (Workspace.run (Workspace.init doc) es)) = ""
  /\ ShareService.is_code c = true
  /\ (t = "ask" \/ t = "summary" \/ t = "quiz").
Proof.
  revert c t.
  apply (run_keeps load_ok step_keeps_load_ok es (Workspace.init doc)
           (init_load_ok doc)).
Qed.

Lemma loaded_notice_is_consistent_witness :
  let es := [Workspace.TypeCode "483920";
             Workspace.LoadShare
               (Api.Returned
                  (share_body "ask"
                     {| c_question := Some "What is a stack?";
                        c_answer := Some "A LIFO structure.";
                        c_focus := None; c_summary := None;
                        c_mark_type := None; c_quiz := None |}))] in
  Workspace.shareCodeError (fst (Workspace.run (Workspace.init None) es)) = ""
  /\ ShareService.is_code "483920" = true
  /\ ("ask" = "ask" \/ "ask" = "summary" \/ "ask" = "quiz").
Proof.
  intros es.
  exact (loaded_notice_is_consistent None es "483920" "ask" eq_refl).
Defined.

Ltac in_cases H :=
  simpl in H; repeat (destruct H as [<- | H]); try contradiction; simpl; auto.

Lemma doc_id_not_empty (w : Workspace.state) :
  Workspace.doc_selected w = true -> Workspace.doc_id w <> "".
Proof.
  unfold Workspace.doc_selected, Workspace.doc_id.
  destruct (Workspace.selectedDocId w) as [s|]; simpl; [|discriminate].
  apply truthy_is_not_empty.
Qed.

Lemma ask_effects (w : Workspace.state) (r : Api.reply) (x : Api.effect) :
  In x (snd (Workspace.handleAsk w r)) -> request_ok x.
Proof.
  unfold Workspace.handleAsk.
  destruct (Workspace.doc_selected w) eqn:Hd; simpl; [|intros H; in_cases H].
  destruct (Js.truthy (Js.trim (Workspace.question w))) eqn:Hq; simpl;
    [|intros H; in_cases H].
  pose proof (doc_id_not_empty w Hd) as Hdoc.
  destruct r as [msg | d]; [|destruct (Api.status_ok d)]; intros H; in_cases H.
Qed.

Lemma summarize_effects (w : Workspace.state) (r : Api.reply) (x : Api.effect) :
  In x (snd (Workspace.handleSummarize w r)) -> request_ok x.
Proof.
  unfold Workspace.handleSummarize.
  destruct (Workspace.doc_selected w) eqn:Hd; simpl; [|intros H; in_cases H].
  pose proof (doc_id_not_empty w Hd) as Hdoc.
  assert (Hf : (if Js.truthy (Workspace.summaryFocus w)
                then Some (Workspace.summaryFocus w) else None) <> Some "").
  { destruct (Workspace.summaryFocus w); simpl; discriminate. }
  destruct r as [msg | d]; [|destruct (Api.status_ok d)]; intros H; in_cases H.
Qed.

Lemma quiz_effects (w : Workspace.state) (r : Api.reply) (x : Api.effect) :
  In x (snd (Workspace.handleQuiz w r)) -> request_ok x.
Proof.
  unfold Workspace.handleQuiz.
  destruct (Workspace.doc_selected w) eqn:Hd; simpl; [|intros H; in_cases H].
  pose proof (doc_id_not_empty w Hd) as Hdoc.
  destruct r as [msg | d];
    [|destruct (Api.status_ok d); [destruct (Api.quiz d)|]]; intros H; in_cases H.
Qed.

Lemma load_effects (w : Workspace.state) (r : Api.reply) (x : Api.effect) :
  In x (snd (Workspace.handleLoadShareCode w r)) -> request_ok x.
Proof.
  unfold Workspace.handleLoadShareCode.
  destruct (Js.truthy (Js.trim (Js.or_else (Workspace.shareCodeInput w) "")));
    simpl; [|intros H; in_cases H].
  unfold Js.length.
  destruct (Nat.eqb_spec
              (String.length (Js.trim (Js.or_else (Workspace.shareCodeInput w) ""))) 6)
    as [Hl | _]; simpl; [|intros H; in_cases H].
  destruct r as [msg | d]; simpl; [intros H; in_cases H|].
  handler_cases; intros H; in_cases H.
Qed.

Lemma send_effects (ty : string) (c : ShareContent) (w0 : Workspace.state)
    (r : Api.reply) (x : Api.effect) :
  is_share_type ty ->
  In x (snd (Workspace.shareCreate_send ty c w0 r)) -> request_ok x.
Proof.
  intros Hty. unfold Workspace.shareCreate_send.
  handler_cases; intros H; in_cases H.
Qed.

Lemma create_effects (ty : string) (w : Workspace.state) (r : Api.reply)
    (x : Api.effect) :
  In x (snd (Workspace.handleCreateShareCode ty w r)) -> request_ok x.
Proof.
  unfold Workspace.handleCreateShareCode, Workspace.shareCreate_typeError.
  destruct (String.eqb_spec ty "ask") as [-> | _].
  { destruct (Workspace.answer w) as [a|]; [|intros H; in_cases H].
    destruct (negb (Js.truthy (Js.trim a))); [intros H; in_cases H|].
    apply send_effects. unfold is_share_type. auto. }
  destruct (String.eqb_spec ty "summary") as [-> | _].
  { destruct (Workspace.summary w) as [s|]; [|intros H; in_cases H].
    destruct (negb (Js.truthy (Js.trim s))); [intros H; in_cases H|].
    apply send_effects. unfold is_share_type. auto. }
  destruct (String.eqb_spec ty "quiz") as [-> | _]; [|intros H; in_cases H].
  destruct (List.length (Workspace.quiz w) =? 0)%nat; [intros H; in_cases H|].
  apply send_effects. unfold is_share_type. auto.
Qed.

Lemma step_effects (w : Workspace.state) (e : Workspace.event) (x : Api.effect) :
  In x (snd (Workspace.step w e)) -> request_ok x.
Proof.
  destruct e; simpl; try (intros []);
    eauto using ask_effects, summarize_effects, quiz_effects, load_effects,
      create_effects.
Qed.

(** X12.  No request leaves without what it is about.  Among all the effects of
    any sequence of events, from any state: a question is posted only with
    a selected document and a question that is not blank; a summary or a
    quiz is requested only with a selected document, and the focus sent is
    never the empty string (it is `null` instead); a code looked up has
    length 6; a share is created only with one of the three types. *)
Theorem requests_are_guarded
    (w : Workspace.state) (es : list Workspace.event) (x : Api.effect) :
  In x (snd (Workspace.run w es)) ->
  match x with
  | Api.PostAsk d q => d <> "" /\ Js.truthy (Js.trim q) = true
  | Api.PostSummarize d f _ => d <> "" /\ f <> Some ""
  | Api.PostQuiz d => d <> ""
  | Api.ShareGet c => String.length c = 6%nat
  | Api.ShareCreate t _ => t = "ask" \/ t = "summary" \/ t = "quiz"
  | _ => True
  end.
Proof.
  intros H. change (request_ok x).
  apply (run_effects (fun _ => True) request_ok) with (es := es) (w := w).
  - trivial.
  - intros w0 e x0 _. apply step_effects.
  - exact I.
  - exact H.
Qed.

Lemma requests_are_guarded_witness :
  let es := [Workspace.TypeQuestion "What is a stack?";
             Workspace.Ask (Api.Returned (answer_body "A LIFO structure."))] in
  In (Api.PostAsk "doc-1" "What is a stack?")
     (snd (Workspace.run (Workspace.init (Some "doc-1")) es))
  /\ "doc-1" <> "" /\ Js.truthy (Js.trim "What is a stack?") = true.
Proof.
  intros es.
  assert (H : In (Api.PostAsk "doc-1" "What is a stack?")
                (snd (Workspace.run (Workspace.init (Some "doc-1")) es)))
    by (left; reflexivity).
  split; [exact H|].
  exact (requests_are_guarded (Workspace.init (Some "doc-1")) es _ H).
Defined.

Lemma looked_up_In (out : list Api.effect) (c : string) :
  In c (Workspace.looked_up out) <-> In (Api.ShareGet c) out.
Proof.
  induction out as [|x out IH]; simpl; [tauto|].
  destruct x; simpl; rewrite IH; split; intros H;
    try (right; exact H); try (destruct H as [H | H]; [discriminate | exact H]).
  - destruct H as [-> | H]; auto.
  - destruct H as [[= ->] | H]; auto.
Qed.

Lemma submitted_In (out : list Api.effect) (ty : string) (c : ShareContent) :
  In (ty, c) (Workspace.submitted out) <-> In (Api.ShareCreate ty c) out.
Proof.
  induction out as [|x out IH]; simpl; [tauto|].
  destruct x; simpl; rewrite IH; split; intros H;
    try (right; exact H); try (destruct H as [H | H]; [discriminate | exact H]).
  - destruct H as [[= -> ->] | H]; auto.
  - destruct H as [[= -> ->] | H]; auto.
Qed.

Lemma step_sends_codes (w : Workspace.state) (e : Workspace.event) (c : string) :
  load_ok w -> In (Api.ShareGet c) (snd (Workspace.step w e)) ->
  ShareService.is_code c = true.
Proof.
  intros [Hd _] H.
  assert (Hx : forall ev : Workspace.event,
             (forall r, ev <> Workspace.LoadShare r) ->
             ~ In (Api.ShareGet c) (snd (Workspace.step w ev))).
  { intros ev Hev Hin. destruct ev; try (exact (Hev _ eq_refl)); revert Hin;
      simpl;
      unfold Workspace.handleAsk, Workspace.handleSummarize, Workspace.handleQuiz,
        Workspace.handleCreateShareCode, Workspace.shareCreate_send,
        Workspace.shareCreate_typeError;
      handler_cases; simpl; intuition discriminate. }
  destruct e; try (exfalso; eapply Hx; [|exact H]; discriminate).
  pose proof (load_effects w r _ H) as Hl. simpl in Hl, H.
  revert H. unfold Workspace.handleLoadShareCode.
  rewrite or_else_empty, (trim_digits _ Hd).
  handler_cases; simpl; intros H; repeat (destruct H as [H | H]);
    try discriminate; try contradiction;
    injection H as <-; apply digits_code; assumption.
Qed.

(** X13.  Every code looked up is 6 digits.  In any sequence of events from the
    first render, each code sent to `/share/get` is exactly 6 ASCII
    digits. *)
Theorem looked_up_codes_are_codes
    (doc : option string) (es : list Workspace.event) (c : string) :
  In c (Workspace.looked_up (snd (Workspace.run (Workspace.init doc) es))) ->
  ShareService.is_code c = true.
Proof.
  rewrite looked_up_In.
  apply (run_effects load_ok
           (fun x => match x with
                     | Api.ShareGet k => ShareService.is_code k = true
                     | _ => True
                     end)) with (x := Api.ShareGet c);
    [apply step_keeps_load_ok | | apply init_load_ok].
  intros w e x Hw Hin. destruct x; try exact I.
  exact (step_sends_codes w e _ Hw Hin).
Qed.

Lemma looked_up_codes_are_codes_witness :
  let es := [Workspace.TypeCode "48-39-20";
             Workspace.LoadShare (Api.Threw "Failed to fetch")] in
  In "483920" (Workspace.looked_up (snd (Workspace.run (Workspace.init None) es)))
  /\ ShareService.is_code "483920" = true.
Proof.
  intros es.
  assert (H : In "483920"
                (Workspace.looked_up (snd (Workspace.run (Workspace.init None) es))))
    by (left; reflexivity).
  split; [exact H | exact (looked_up_codes_are_codes None es "483920" H)].
Defined.

Lemma send_payload (ty : string) (c : ShareContent) (w0 : Workspace.state)
    (r : Api.reply) (t : string) (c' : ShareContent) :
  In (Api.ShareCreate t c') (snd (Workspace.shareCreate_send ty c w0 r)) ->
  t = ty /\ c' = c.
Proof.
  unfold Workspace.shareCreate_send.
  handler_cases; simpl; intros H; repeat (destruct H as [H | H]);
    try discriminate; try contradiction; injection H as <- <-; auto.
Qed.

Lemma create_payload_shape (ty : string) (w : Workspace.state) (r : Api.reply)
    (t : string) (c : ShareContent) :
  In (Api.ShareCreate t c) (snd (Workspace.handleCreateShareCode ty w r)) ->
  payload_shape t c.
Proof.
  unfold Workspace.handleCreateShareCode, Workspace.shareCreate_typeError,
    payload_shape.
  destruct (String.eqb_spec ty "ask") as [-> | _].
  { destruct (Workspace.answer w) as [a|];
      [|simpl; intuition discriminate].
    destruct (Js.truthy (Js.trim a)) eqn:Ta; simpl;
      [|intuition discriminate].
    intros [-> ->]%send_payload. left. split; [reflexivity|].
    rewrite !or_else_empty. eauto. }
  destruct (String.eqb_spec ty "summary") as [-> | _].
  { destruct (Workspace.summary w) as [s|];
      [|simpl; intuition discriminate].
    destruct (Js.truthy (Js.trim s)) eqn:Ts; simpl;
      [|intuition discriminate].
    intros [-> ->]%send_payload. right. left. split; [reflexivity|].
    rewrite !or_else_empty. eauto. }
  destruct (String.eqb_spec ty "quiz") as [-> | _];
    [|simpl; intuition discriminate].
  destruct (Workspace.quiz w) as [|q l] eqn:Q; simpl;
    [intuition discriminate|].
  intros [-> ->]%send_payload. right. right. split; [reflexivity|].
  exists (q :: l). split; [discriminate | reflexivity].
Qed.

(** X14.  Every payload has the shape of its type.  Each payload submitted to
    `/share/create`, in any sequence of events from any state, is an `ask`
    payload with exactly a question and an answer that is not blank, a
    `summary` payload with exactly a focus, a summary that is not blank and
    a mark type, or a `quiz` payload with exactly a list of questions that
    is not empty. *)
Theorem payloads_have_their_shape
    (w : Workspace.state) (es : list Workspace.event)
    (t : string) (c : ShareContent) :
  In (t, c) (Workspace.submitted (snd (Workspace.run w es))) ->
  payload_shape t c.
Proof.
  rewrite submitted_In. intros H.
  apply (run_effects (fun _ => True)
           (fun x => match x with
                     | Api.ShareCreate t0 c0 => payload_shape t0 c0
                     | _ => True
                     end)) with (es := es) (w := w) (x := Api.ShareCreate t c).
  - trivial.
  - intros w0 e x _ Hin. destruct x; try exact I.
    destruct e; simpl in Hin; try contradiction;
      try (revert Hin;
           unfold Workspace.handleAsk, Workspace.handleSummarize,
             Workspace.handleQuiz, Workspace.handleLoadShareCode;
           handler_cases; simpl; intuition discriminate).
    exact (create_payload_shape _ _ _ _ _ Hin).
  - exact I.
  - exact H.
Qed.

Lemma payloads_have_their_shape_witness :
  let es := [Workspace.GenerateQuiz
               (Api.Returned
                  {| Api.status := Some "ok"; Api.detail := None;
                     Api.message := None; Api.answer := None;
                     Api.summary := None; Api.mark_type := None;
                     Api.quiz := Some [ {| q_question := "Which one is FIFO?";
                                           q_options := ["A) Stack"; "B) Queue"];
                                           q_answer := "B";
                                           q_explanation := None |} ];
                     Api.code := None; Api.type := None; Api.content := None |});
             Workspace.CreateShare "quiz" (Api.Returned (code_body "483920"))] in
  let c := {| c_question := None; c_answer := None; c_focus := None;
              c_summary := None; c_mark_type := None;
              c_quiz := Some [ {| q_question := "Which one is FIFO?";
                                  q_options := ["A) Stack"; "B) Queue"];
                                  q_answer := "B"; q_explanation := None |} ] |} in
  In ("quiz", c)
     (Workspace.submitted (snd (Workspace.run (Workspace.init (Some "doc-1")) es)))
  /\ payload_shape "quiz" c.
Proof.
  intros es c.
  assert (H : In ("quiz", c)
                (Workspace.submitted
                   (snd (Workspace.run (Workspace.init (Some "doc-1")) es))))
    by (left; reflexivity).
  split; [exact H|].
  exact (payloads_have_their_shape (Workspace.init (Some "doc-1")) es "quiz" c H).
Defined.

(** X15.  What is shared is what is loaded.  When a payload was submitted from
    a Workspace [w] and `/share/get` hands the same type and content back
    to a Workspace [w'] whose code cell passes the guard, then [w'] shows
    the tab of the type and holds the question and answer of [w], or its
    focus and summary with the mark type submitted, or its quiz with the
    statistics at zero; the notice names the code and the type, and the
    error is empty. *)
Theorem shared_content_is_loaded
    (ty : string) (w w' : Workspace.state) (r : Api.reply) (c : ShareContent) :
  Workspace.submitted (snd (Workspace.handleCreateShareCode ty w r)) = [(ty, c)] ->
  String.length (Js.trim (Workspace.shareCodeInput w')) = 6%nat ->
  let w2 := fst (Workspace.handleLoadShareCode w' (Api.Returned (share_body ty c))) in
  Workspace.loadedShareInfo w2 = Some (Js.trim (Workspace.shareCodeInput w'), ty)
  /\ Workspace.shareCodeError w2 = ""
  /\ (ty = "ask" ->
      Workspace.activeTab w2 = "qa"
      /\ Workspace.question w2 = Workspace.question w
      /\ Workspace.answer w2 = Workspace.answer w)
  /\ (ty = "summary" ->
      Workspace.activeTab w2 = "summary"
      /\ Workspace.summaryFocus w2 = Workspace.summaryFocus w
      /\ Workspace.summary w2 = Workspace.summary w
      /\ Workspace.summaryMarkTypeUsed w2 = Some (Workspace.markType w2)
      /\ c_mark_type c
         = Some (Js.opt_or_else (Workspace.summaryMarkTypeUsed w) (Workspace.markType w))
      /\ Workspace.markType w2
         = Js.or_else
             (Js.opt_or_else (Workspace.summaryMarkTypeUsed w) (Workspace.markType w))
             "2")
  /\ (ty = "quiz" ->
      Workspace.activeTab w2 = "quiz"
      /\ Workspace.quiz w2 = Workspace.quiz w
      /\ Workspace.quizStats w2 = Workspace.zero_stats).
Proof.
  intros Hsub Hlen.
  assert (Hin : In (Api.ShareCreate ty c)
                  (snd (Workspace.handleCreateShareCode ty w r))).
  { apply submitted_In. rewrite Hsub. left. reflexivity. }
  assert (Hne : Js.truthy (Js.trim (Workspace.shareCodeInput w')) = true).
  { destruct (Js.trim (Workspace.shareCodeInput w')); [discriminate | reflexivity]. }
  revert Hin. unfold Workspace.handleCreateShareCode, Workspace.shareCreate_typeError.
  destruct (String.eqb_spec ty "ask") as [-> | Nask].
  { destruct (Workspace.answer w) as [a|] eqn:A;
      [|simpl; intuition discriminate].
    destruct (Js.truthy (Js.trim a)); simpl; [|intuition discriminate].
    intros [_ ->]%send_payload.
    unfold Workspace.handleLoadShareCode.
    rewrite or_else_empty, Hne. unfold Js.length. rewrite Hlen. simpl.
    rewrite !or_else_empty.
    repeat split; try reflexivity; discriminate. }
  destruct (String.eqb_spec ty "summary") as [-> | Nsum].
  { destruct (Workspace.summary w) as [s|] eqn:S;
      [|simpl; intuition discriminate].
    destruct (Js.truthy (Js.trim s)); simpl; [|intuition discriminate].
    intros [_ ->]%send_payload.
    unfold Workspace.handleLoadShareCode.
    rewrite or_else_empty, Hne. unfold Js.length. rewrite Hlen. simpl.
    rewrite !or_else_empty.
    repeat split; try reflexivity; discriminate. }
  destruct (String.eqb_spec ty "quiz") as [-> | Nquiz];
    [|simpl; intuition discriminate].
  destruct (List.length (Workspace.quiz w) =? 0)%nat; simpl;
    [intuition discriminate|].
  intros [_ ->]%send_payload.
  unfold Workspace.handleLoadShareCode.
  rewrite or_else_empty, Hne. unfold Js.length. rewrite Hlen. simpl.
  repeat split; try reflexivity; discriminate.
Qed.

Lemma shared_content_is_loaded_witness :
  let w := fst (Workspace.run (Workspace.init (Some "doc-1"))
                  [Workspace.TypeQuestion "What is a stack?";
                   Workspace.Ask (Api.Returned (answer_body "A LIFO structure."))]) in
  let w' := fst (Workspace.run (Workspace.init None) [Workspace.TypeCode "483920"]) in
  let c := {| c_question := Some "What is a stack?";
              c_answer := Some "A LIFO structure.";
              c_focus := None; c_summary := None; c_mark_type := None;
              c_quiz := None |} in
  let w2 := fst (Workspace.handleLoadShareCode w' (Api.Returned (share_body "ask" c))) in
  Workspace.activeTab w2 = "qa"
  /\ Workspace.question w2 = "What is a stack?"
  /\ Workspace.answer w2 = Some "A LIFO structure.".
Proof.
  intros w w' c w2.
  exact (proj1 (proj2 (proj2
           (shared_content_is_loaded "ask" w w'
              (Api.Returned (code_body "483920")) c eq_refl eq_refl)))
           eq_refl).
Defined.

(** Once an item holds a selection that is not empty, nothing that
    happens to it until its unmount changes its own state. *)
Lemma mounted_locked (es : list MountedItem.event) :
  forall st,
    Js.truthy_opt (QuizItem.selected (MountedItem.item st)) = true ->
    MountedItem.item (fold_left MountedItem.step es st) = MountedItem.item st.
Proof.
  induction es as [|e rest IH]; intros st H; [reflexivity|].
  simpl. destruct e as [opt | q']; simpl.
  - rewrite IH; simpl; rewrite handleClick_locked by exact H; [reflexivity | exact H].
  - rewrite IH; simpl; [reflexivity | exact H].
Qed.

Lemma mounted_first_click (q0 : QuizQuestion) (opt : string)
    (later : list MountedItem.event) :
  Js.truthy opt = true ->
  MountedItem.item (MountedItem.run q0 (MountedItem.Click opt :: later))
  = {| QuizItem.selected := Some opt;
       QuizItem.answered_calls := [QuizItem.isCorrect q0 opt] |}.
Proof.
  intros H. unfold MountedItem.run. simpl. rewrite mounted_locked; simpl; auto.
Qed.

(** X16.  One mount, one answer in the statistics.  From its mount to its
    unmount, when the first option clicked on a quiz item has a text that
    is not empty, the item calls `onAnswered` once, whatever is clicked
    afterwards and whatever question the parent passes it afterwards: the
    Workspace counts exactly one more answer, and one more correct answer
    exactly when that option is judged correct.  The lock is the item's own
    state and ends with the mount: the item of the same question mounted
    again (the quiz tab left and entered again) reports its first click
    again, and the Workspace then counts two answers for the question. *)
Theorem mounted_item_counts_once
    (q0 : QuizQuestion) (opt : string) (later : list MountedItem.event)
    (w : Workspace.state) :
  Js.truthy opt = true ->
  let first_mount := MountedItem.run q0 (MountedItem.Click opt :: later) in
  MountedItem.calls first_mount = [QuizItem.isCorrect q0 opt]
  /\ Workspace.quizStats (feed (MountedItem.calls first_mount) w)
     = {| Workspace.answered := Workspace.answered (Workspace.quizStats w) + 1;
          Workspace.correct :=
            Workspace.correct (Workspace.quizStats w)
            + (if QuizItem.isCorrect q0 opt then 1 else 0) |}
  /\ (forall (opt' : string) (later' : list MountedItem.event),
        Js.truthy opt' = true ->
        let second_mount := MountedItem.run q0 (MountedItem.Click opt' :: later') in
        Workspace.answered
          (Workspace.quizStats
             (feed (MountedItem.calls second_mount)
                (feed (MountedItem.calls first_mount) w)))
        = (Workspace.answered (Workspace.quizStats w) + 2)%Z).
Proof.
  intros H first_mount. subst first_mount. unfold MountedItem.calls.
  rewrite (mounted_first_click q0 opt later H). simpl.
  split; [reflexivity|]. split; [reflexivity|].
  intros opt' later' H'. rewrite (mounted_first_click q0 opt' later' H').
  simpl. lia.
Qed.

Lemma mounted_item_counts_once_witness :
  let q := {| q_question := "Which one is FIFO?";
              q_options := ["A) Stack"; "B) Queue"];
              q_answer := "B"; q_explanation := None |} in
  let q' := {| q_question := "Which one is LIFO?";
               q_options := ["A) Stack"; "B) Queue"];
               q_answer := "A"; q_explanation := None |} in
  let first_mount :=
    MountedItem.run q [MountedItem.Click "B) Queue"; MountedItem.Click "A) Stack";
                       MountedItem.Rerender q'; MountedItem.Click "A) Stack"] in
  let second_mount := MountedItem.run q [MountedItem.Click "A) Stack"] in
  Workspace.quizStats (feed (MountedItem.calls first_mount) (Workspace.init None))
  = {| Workspace.answered := 1; Workspace.correct := 1 |}
  /\ Workspace.answered
       (Workspace.quizStats
          (feed (MountedItem.calls second_mount)
             (feed (MountedItem.calls first_mount) (Workspace.init None))))
     = 2%Z.
Proof.
  intros q q' first_mount second_mount.
  destruct (mounted_item_counts_once q "B) Queue"
              [MountedItem.Click "A) Stack"; MountedItem.Rerender q';
               MountedItem.Click "A) Stack"]
              (Workspace.init None) eq_refl) as (_ & H1 & H2).
  split; [exact H1 | exact (H2 "A) Stack" [] eq_refl)].
Defined.

(** ** api.js and the handlers together *)

Lemma error_text_not_empty (d : Api.data) (fallback : string) :
  fallback <> "" -> Api.error_text d fallback <> "".
Proof.
  intros Hf. unfold Api.error_text, Js.opt_or_else, Js.or_else.
  destruct (Api.detail d) as [[|a s]|]; simpl; try discriminate;
    destruct (Api.message d) as [[|b t]|]; simpl; try discriminate; exact Hf.
Qed.

(** X17.  What is shown after an HTTP error.  When the backend answers with a
    status that is not 2xx, [request] throws the body's `detail`, else its
    `message`, else "API error": a message that is never empty.  The share
    handlers show exactly that message, so their own fallback texts are not
    used; [handleAsk] shows "Error: Could not reach backend." whatever the
    body says. *)
Theorem http_error_is_shown
    (res : @Http.response Api.data) (w : Workspace.state) (ty : string) :
  Http.ok res = false ->
  let m := Api.error_text (default empty_body (Http.json res)) "API error" in
  let r := Http.receive_api (Http.Response res) in
  r = Api.Threw m
  /\ m <> ""
  /\ (String.length (Js.trim (Workspace.shareCodeInput w)) = 6%nat ->
      Workspace.shareCodeError (fst (Workspace.handleLoadShareCode w r)) = m
      /\ Workspace.loadedShareInfo (fst (Workspace.handleLoadShareCode w r)) = None)
  /\ (Workspace.submitted (snd (Workspace.handleCreateShareCode ty w r)) <> [] ->
      Workspace.shareCreateError (fst (Workspace.handleCreateShareCode ty w r)) = m
      /\ Workspace.shareCreatedCode (fst (Workspace.handleCreateShareCode ty w r)) = "")
  /\ (Workspace.doc_selected w = true ->
      Js.truthy (Js.trim (Workspace.question w)) = true ->
      Workspace.answer (fst (Workspace.handleAsk w r))
      = Some "Error: Could not reach backend.").
Proof.
  intros Hok m r.
  assert (Hr : r = Api.Threw m).
  { subst r m. unfold Http.receive_api, Http.receive. rewrite Hok. reflexivity. }
  assert (Hm : m <> "") by (apply error_text_not_empty; discriminate).
  assert (Hor : forall fb, Js.or_else m fb = m).
  { intros fb. unfold Js.or_else. rewrite (truthy_not_empty m Hm). reflexivity. }
  rewrite Hr. split; [reflexivity|]. split; [exact Hm|]. split; [|split].
  - intros Hlen. unfold Workspace.handleLoadShareCode.
    rewrite or_else_empty. unfold Js.length. rewrite Hlen.
    destruct (Js.trim (Workspace.shareCodeInput w)); [discriminate|].
    simpl. rewrite Hor. auto.
  - unfold Workspace.handleCreateShareCode, Workspace.shareCreate_typeError,
      Workspace.shareCreate_send.
    handler_cases; simpl; rewrite ?Hor; intros H; solve [auto | congruence].
  - intros Hd Hq. unfold Workspace.handleAsk. rewrite Hd, Hq. reflexivity.
Qed.

Lemma http_error_is_shown_witness :
  let res := {| Http.ok := false;
                Http.json := Some {| Api.status := None;
                                     Api.detail := Some "Invalid or expired code";
                                     Api.message := None; Api.answer := None;
                                     Api.summary := None; Api.mark_type := None;
                                     Api.quiz := None; Api.code := None;
                                     Api.type := None; Api.content := None |} |} in
  let w := fst (Workspace.run (Workspace.init None) [Workspace.TypeCode "483920"]) in
  let r := Http.receive_api (Http.Response res) in
  Workspace.shareCodeError (fst (Workspace.handleLoadShareCode w r))
  = "Invalid or expired code"
  /\ Workspace.loadedShareInfo (fst (Workspace.handleLoadShareCode w r)) = None.
Proof.
  intros res w r.
  exact (proj1 (proj2 (proj2 (http_error_is_shown res w "ask" eq_refl))) eq_refl).
Defined.

(** X18.  A 2xx reply without a JSON body is a failure, not content.  [request]
    returns `{}` for it, and every handler then takes its failure branch
    with its own fallback text: nothing is loaded, no code is shown, and
    the answer and the summary read "Error: Something went wrong". *)
Theorem reply_without_json_is_a_failure (w : Workspace.state) (ty : string) :
  let r := Http.receive_api (Http.Response {| Http.ok := true; Http.json := None |}) in
  r = Api.Returned empty_body
  /\ (String.length (Js.trim (Workspace.shareCodeInput w)) = 6%nat ->
      Workspace.shareCodeError (fst (Workspace.handleLoadShareCode w r))
      = "Could not load shared content."
      /\ Workspace.loadedShareInfo (fst (Workspace.handleLoadShareCode w r)) = None
      /\ Workspace.question (fst (Workspace.handleLoadShareCode w r))
         = Workspace.question w
      /\ Workspace.quiz (fst (Workspace.handleLoadShareCode w r)) = Workspace.quiz w)
  /\ (Workspace.submitted (snd (Workspace.handleCreateShareCode ty w r)) <> [] ->
      Workspace.shareCreateError (fst (Workspace.handleCreateShareCode ty w r))
      = "Failed to create share code."
      /\ Workspace.shareCreatedCode (fst (Workspace.handleCreateShareCode ty w r)) = "")
  /\ (Workspace.doc_selected w = true ->
      (Js.truthy (Js.trim (Workspace.question w)) = true ->
       Workspace.answer (fst (Workspace.handleAsk w r))
       = Some "Error: Something went wrong")
      /\ Workspace.summary (fst (Workspace.handleSummarize w r))
         = Some "Error: Something went wrong"
      /\ Workspace.quiz (fst (Workspace.handleQuiz w r)) = []
      /\ In (Api.Alert "Quiz error: Something went wrong")
            (snd (Workspace.handleQuiz w r))).
Proof.
  intros r. split; [reflexivity|]. subst r.
  change (Http.receive_api _) with (Api.Returned empty_body).
  split; [|split].
  - intros Hlen. unfold Workspace.handleLoadShareCode.
    rewrite or_else_empty. unfold Js.length. rewrite Hlen.
    destruct (Js.trim (Workspace.shareCodeInput w)); [discriminate|].
    simpl. auto.
  - assert (S : forall c w0,
               Workspace.shareCreate_send ty c w0 (Api.Returned empty_body)
               = (Workspace.set_share_create "" "" "Failed to create share code." w0,
                  [Api.ShareCreate ty c])) by reflexivity.
    unfold Workspace.handleCreateShareCode, Workspace.shareCreate_typeError.
    handler_cases; rewrite ?S; simpl; intros H; solve [auto | congruence].
  - intros Hd. unfold Workspace.handleAsk, Workspace.handleSummarize,
      Workspace.handleQuiz. rewrite Hd. simpl.
    split; [intros ->; reflexivity|]. auto.
Qed.

Lemma reply_without_json_is_a_failure_witness :
  let w := fst (Workspace.run (Workspace.init None) [Workspace.TypeCode "483920"]) in
  let r := Http.receive_api (Http.Response {| Http.ok := true; Http.json := None |}) in
  Workspace.shareCodeError (fst (Workspace.handleLoadShareCode w r))
  = "Could not load shared content."
  /\ Workspace.loadedShareInfo (fst (Workspace.handleLoadShareCode w r)) = None
  /\ Workspace.question (fst (Workspace.handleLoadShareCode w r))
     = Workspace.question w
  /\ Workspace.quiz (fst (Workspace.handleLoadShareCode w r)) = Workspace.quiz w.
Proof.
  intros w r.
  exact (proj1 (proj2 (reply_without_json_is_a_failure w "ask")) eq_refl).
Defined.

(** ** Workspace.js: downloading and sharing *)

(** X19.  What can be shared can be downloaded, and nothing else.  From any
    state, the download handler of a tab hands a file to the browser
    exactly when the create path submits a payload of that tab's type. *)
Theorem download_iff_share
    (title : option string)
    (stringify : list QuizQuestion -> Workspace.QuizStats -> string)
    (w : Workspace.state) (r : Api.reply) :
  ((exists text, Downloads.handleDownloadAnswer title w
                 = Downloads.File "answer.txt" text)
   <-> Workspace.submitted (snd (Workspace.handleCreateShareCode "ask" w r)) <> [])
  /\ ((exists text, Downloads.handleDownloadSummary title w
                    = Downloads.File "summary.txt" text)
      <-> Workspace.submitted (snd (Workspace.handleCreateShareCode "summary" w r)) <> [])
  /\ ((exists text, Downloads.handleDownloadQuiz stringify w
                    = Downloads.File "quiz.json" text)
      <-> Workspace.submitted (snd (Workspace.handleCreateShareCode "quiz" w r)) <> []).
Proof.
  unfold Downloads.handleDownloadAnswer, Downloads.handleDownloadSummary,
    Downloads.handleDownloadQuiz, Workspace.handleCreateShareCode,
    Workspace.shareCreate_typeError.
  cbn [String.eqb Ascii.eqb Bool.eqb].
  split; [|split].
  - destruct (Workspace.answer w) as [a|];
      [|simpl; split; [intros [t H]; discriminate | congruence]].
    destruct (Js.truthy (Js.trim a)); simpl;
      [|split; [intros [t H]; discriminate | congruence]].
    rewrite submitted_send. split; [discriminate | eauto].
  - destruct (Workspace.summary w) as [s|];
      [|simpl; split; [intros [t H]; discriminate | congruence]].
    destruct (Js.truthy (Js.trim s)); simpl;
      [|split; [intros [t H]; discriminate | congruence]].
    rewrite submitted_send. split; [discriminate | eauto].
  - destruct (List.length (Workspace.quiz w) =? 0)%nat; simpl;
      [split; [intros [t H]; discriminate | congruence]|].
    rewrite submitted_send. split; [discriminate | eauto].
Qed.

(** ** Workspace.js and Tabs.js: the active tab *)

Lemma click_and_keys_stay_on_tabs (w : Workspace.state) :
  In (Workspace.activeTab w) Tabs.tab_ids ->
  (forall i, In (Workspace.activeTab (Tabs.click i w)) Tabs.tab_ids)
  /\ (forall tag key,
        In (Workspace.activeTab (Tabs.handleKeydown tag key w)) Tabs.tab_ids).
Proof.
  intros H. split.
  - intros i. unfold Tabs.click.
    destruct (Tabs.tab_ids !! i) as [t|] eqn:L; [|exact H].
    change (In t Tabs.tab_ids). apply list_elem_of_In, list_elem_of_lookup. eauto.
  - intros tag key. unfold Tabs.handleKeydown.
    handler_cases; simpl; solve [exact H | auto 6].
Qed.

Lemma step_stays_on_tabs (w : Workspace.state) (e : Workspace.event) :
  tab_event_ok e ->
  In (Workspace.activeTab w) Tabs.tab_ids ->
  In (Workspace.activeTab (fst (Workspace.step w e))) Tabs.tab_ids.
Proof.
  intros He H. destruct e; simpl in He |- *; try exact H; try exact He;
    unfold Workspace.handleAsk, Workspace.handleSummarize, Workspace.handleQuiz,
      Workspace.handleCreateShareCode, Workspace.handleLoadShareCode,
      Workspace.shareCreate_send, Workspace.shareCreate_typeError;
    handler_cases; simpl; solve [exact H | auto 6].
Qed.

Lemma run_stays_on_tabs (es : list Workspace.event) :
  forall w0 : Workspace.state,
    In (Workspace.activeTab w0) Tabs.tab_ids ->
    Forall tab_event_ok es ->
    In (Workspace.activeTab (fst (Workspace.run w0 es))) Tabs.tab_ids.
Proof.
  induction es as [|e rest IH]; intros w0 H0 Hall; [exact H0|].
  inversion Hall as [|? ? He Hrest]; subst. simpl.
  pose proof (step_stays_on_tabs w0 e He H0) as H1.
  destruct (Workspace.step w0 e) as [w1 out1]. simpl in H1.
  specialize (IH w1 H1 Hrest).
  destruct (Workspace.run w1 rest) as [w2 out2]. exact IH.
Qed.

(** X20.  The active tab is always one of the four tabs.  From the first render,
    after any sequence of events whose tab switches come from the Tabs
    buttons or the shortcut keys, `activeTab` is "qa", "summary", "quiz" or
    "docs", so loading shared content never leaves the Workspace without a
    panel; a shortcut key keeps it so, and a key pressed in an input or a
    text area never switches the tab. *)
Theorem active_tab_is_a_tab
    (doc : option string) (es : list Workspace.event)
    (tag key : string) :
  Forall tab_event_ok es ->
  let w := fst (Workspace.run (Workspace.init doc) es) in
  In (Workspace.activeTab w) Tabs.tab_ids
  /\ In (Workspace.activeTab (Tabs.handleKeydown tag key w)) Tabs.tab_ids
  /\ (tag = "INPUT" \/ tag = "TEXTAREA" -> Tabs.handleKeydown tag key w = w).
Proof.
  intros Hes w.
  assert (Hw : In (Workspace.activeTab w) Tabs.tab_ids).
  { apply run_stays_on_tabs; [left; reflexivity | exact Hes]. }
  split; [exact Hw|]. split; [apply click_and_keys_stay_on_tabs, Hw|].
  intros [-> | ->]; reflexivity.
Qed.

Lemma active_tab_is_a_tab_witness :
  let es := [Workspace.SetActiveTab "docs"; Workspace.TypeCode "483920";
             Workspace.LoadShare
               (Api.Returned
                  (share_body "summary"
                     {| c_question := None; c_answer := None;
                        c_focus := Some ""; c_summary := Some "Stacks are LIFO.";
                        c_mark_type := Some "5"; c_quiz := None |}))] in
  let w := fst (Workspace.run (Workspace.init None) es) in
  Workspace.activeTab w = "summary"
  /\ In (Workspace.activeTab w) Tabs.tab_ids
  /\ In (Workspace.activeTab (Tabs.handleKeydown "BODY" "3" w)) Tabs.tab_ids.
Proof.
  intros es w.
  assert (Hes : Forall tab_event_ok es).
  { constructor; [simpl; auto 6|]. constructor; [exact I|].
    constructor; [exact I | constructor]. }
  destruct (active_tab_is_a_tab None es "BODY" "3" Hes) as (H1 & H2 & _).
  split; [reflexivity|]. split; [exact H1 | exact H2].
Defined.

(** ** Workspace.js: the colours of a quiz item *)

Lemma mounted_question (es : list MountedItem.event) :
  forall st,
    Forall (fun e => match e with
                     | MountedItem.Rerender _ => False
                     | MountedItem.Click _ => True
                     end) es ->
    MountedItem.q (fold_left MountedItem.step es st) = MountedItem.q st.
Proof.
  induction es as [|e rest IH]; intros st H; [reflexivity|].
  inversion H as [|e' rest' He Hrest]; subst. simpl.
  destruct e as [opt | q']; [|contradiction].
  rewrite IH by exact Hrest. reflexivity.
Qed.

(** X21.  The colours of a mounted item follow the question it shows.  Once
    the first click on an item was on an option whose text is not empty,
    whatever is clicked afterwards and whatever question the parent passes
    it afterwards: an option is green exactly when it is judged correct for
    the question now shown, only options with the selected text are red,
    and no option keeps the hover style.  The colours agree with what the
    item reported (the selected option green when `onAnswered` was called
    with `true`, red when it was called with `false`) as long as the
    question now shown has the answer letter of the question that was
    answered, as it has when the parent passed no other question; a loaded
    quiz that replaces the question of a mounted item can paint red an
    option reported as correct. *)
Theorem colours_follow_the_question_shown
    (q0 : QuizQuestion) (opt : string) (later : list MountedItem.event)
    (o : string) :
  Js.truthy opt = true ->
  let st := MountedItem.run q0 (MountedItem.Click opt :: later) in
  MountedItem.calls st = [QuizItem.isCorrect q0 opt]
  /\ (MountedItem.getOptionStyle st o = OptionStyle.Green
      <-> QuizItem.isCorrect (MountedItem.q st) o = true)
  /\ (MountedItem.getOptionStyle st o = OptionStyle.Red -> o = opt)
  /\ MountedItem.getOptionStyle st o <> OptionStyle.Hover
  /\ (normalizeLetter (q_answer (MountedItem.q st)) = normalizeLetter (q_answer q0) ->
      (MountedItem.calls st = [true]
       <-> MountedItem.getOptionStyle st opt = OptionStyle.Green)
      /\ (MountedItem.calls st = [false]
          <-> MountedItem.getOptionStyle st opt = OptionStyle.Red))
  /\ (Forall (fun e => match e with
                       | MountedItem.Rerender _ => False
                       | MountedItem.Click _ => True
                       end) later ->
      MountedItem.q st = q0).
Proof.
  intros H st.
  assert (Hi : MountedItem.item st
               = {| QuizItem.selected := Some opt;
                    QuizItem.answered_calls := [QuizItem.isCorrect q0 opt] |})
    by (apply mounted_first_click, H).
  unfold MountedItem.calls, MountedItem.getOptionStyle, OptionStyle.getOptionStyle.
  rewrite Hi. simpl. rewrite H. simpl.
  rewrite (bool_decide_eq_true_2 (Some opt = Some opt)) by reflexivity.
  split; [reflexivity|]. split; [|split; [|split; [|split]]].
  - destruct (QuizItem.isCorrect (MountedItem.q st) o); [tauto|].
    destruct (bool_decide (Some o = Some opt)); simpl; split; discriminate.
  - destruct (QuizItem.isCorrect (MountedItem.q st) o); [discriminate|].
    destruct (bool_decide_reflect (Some o = Some opt)) as [E | _];
      [congruence | discriminate].
  - destruct (QuizItem.isCorrect (MountedItem.q st) o); [discriminate|].
    destruct (bool_decide (Some o = Some opt)); discriminate.
  - intros Hq.
    assert (E : QuizItem.isCorrect (MountedItem.q st) opt = QuizItem.isCorrect q0 opt)
      by (unfold QuizItem.isCorrect; rewrite Hq; reflexivity).
    rewrite E. destruct (QuizItem.isCorrect q0 opt); simpl; repeat split;
      solve [reflexivity | discriminate].
  - intros Hl. subst st. unfold MountedItem.run. simpl.
    rewrite mounted_question by exact Hl. reflexivity.
Qed.

Lemma colours_follow_the_question_shown_witness :
  let q := {| q_question := "Which one is FIFO?";
              q_options := ["A) Stack"; "B) Queue"];
              q_answer := "B"; q_explanation := None |} in
  let q' := {| q_question := "Which one is LIFO?";
               q_options := ["A) Stack"; "B) Queue"];
               q_answer := "A"; q_explanation := None |} in
  let st := MountedItem.run q [MountedItem.Click "A) Stack";
                               MountedItem.Click "B) Queue"] in
  let st' := MountedItem.run q [MountedItem.Click "B) Queue";
                                MountedItem.Rerender q'] in
  (MountedItem.calls st = [false]
   /\ MountedItem.getOptionStyle st "A) Stack" = OptionStyle.Red
   /\ MountedItem.getOptionStyle st "B) Queue" = OptionStyle.Green)
  /\ (MountedItem.calls st' = [true]
      /\ MountedItem.getOptionStyle st' "A) Stack" = OptionStyle.Green
      /\ MountedItem.getOptionStyle st' "B) Queue" = OptionStyle.Red).
Proof.
  intros q q' st st'.
  destruct (colours_follow_the_question_shown q "A) Stack"
              [MountedItem.Click "B) Queue"] "B) Queue" eq_refl)
    as (Hc & H1 & _ & _ & H2 & _).
  destruct (colours_follow_the_question_shown q "B) Queue"
              [MountedItem.Rerender q'] "A) Stack" eq_refl)
    as (Hc' & H1' & _).
  split.
  - split; [exact Hc|].
    split; [exact (proj1 (proj2 (H2 eq_refl)) Hc) | exact (proj2 H1 eq_refl)].
  - split; [exact Hc'|]. split; [exact (proj2 H1' eq_refl) | reflexivity].
Defined.

(** ** Workspace.js: the letter of an answer *)

(** X22.  Only the first letter counts.  On a string of ASCII characters
    [normalizeLetter] returns the first letter found anywhere in its
    argument, upper-cased, and the empty string when there is none: white
    space, digits and punctuation before that letter are skipped, and
    nothing after it is looked at. *)
Theorem normalizeLetter_is_first_letter (before after : string) (c : ascii) :
  (forall s : string, is_ascii s = true -> normalizeLetter s = first_letter s)
  /\ (is_ascii before = true -> first_letter before = "" ->
      isAsciiLetter c = true ->
      normalizeLetter (before ++ String c after)
      = String (Js.toUpperCaseChar c) EmptyString)
  /\ (is_ascii before = true -> first_letter before = "" ->
      normalizeLetter before = "").
Proof.
  split; [intros s _; apply normalizeLetter_first_letter|]. split.
  - intros _ Hb Hc. rewrite normalizeLetter_first_letter.
    induction before as [|x r IH]; simpl in *.
    + rewrite Hc. reflexivity.
    + destruct (isAsciiLetter x); [discriminate | exact (IH Hb)].
  - intros _ Hb. rewrite normalizeLetter_first_letter. exact Hb.
Qed.

Lemma normalizeLetter_is_first_letter_witness :
  normalizeLetter (" 2) " ++ String "c"%char "amel case") = "C"
  /\ normalizeLetter " 2) " = "".
Proof.
  destruct (normalizeLetter_is_first_letter " 2) " "amel case" "c"%char)
    as (_ & H1 & H2).
  split; [exact (H1 eq_refl eq_refl eq_refl) | exact (H2 eq_refl eq_refl)].
Defined.
